(** * Web scraping tutorial scripts: a shallow embedding

    The development follows the three scripts of the repository:
    - [lib/practical_example.py]: the quotes scraper with its pagination
      loop, the analysis of the scraped records and the JSON, CSV and
      text sinks;
    - [lib/scraper.py]: the course scraper with its duplicate removal;
    - [lib/advanced_examples.py]: the demonstration of error handling.

    The libraries the scripts call (requests, BeautifulSoup, csv, json,
    urllib) are not part of the repository.  What the scripts use of them
    is modelled in the modules [Py], [Bs4], [Requests], [Csv] and [Json],
    each definition naming the library function it stands for. *)

From Stdlib Require Import List String Ascii Arith ZArith Bool Lia.
From Stdlib Require Import Numbers.DecimalString.
From Stdlib Require Numbers.DecimalNat Numbers.DecimalFacts.
From Stdlib Require Import Sorting.Sorted.
Import ListNotations.

Set Implicit Arguments.
Set Warnings "-register-all".

(** ** Python values and built-ins *)

(** Text is a Rocq [string], one [ascii] per character (code points below
    256).  [len], slices and [strip] are those of such text. *)
Module Py.

Local Open Scope string_scope.

(** [str(n)] for a non-negative integer. *)
Definition str (n : nat) : string :=
  NilEmpty.string_of_uint (Nat.to_uint n).

(** The double quote character and the line feed, which no literal of
    this file holds. *)
Definition dquote : string := String (ascii_of_nat 34) EmptyString.
Definition nl : string := String (ascii_of_nat 10) EmptyString.

(** [c.isspace()] for a character below 256. *)
Definition isspace (c : ascii) : bool :=
  let n := nat_of_ascii c in
  (((9 <=? n) && (n <=? 13)) || ((28 <=? n) && (n <=? 32))
   || (n =? 133) || (n =? 160))%nat.

Fixpoint lstrip (s : string) : string :=
  match s with
  | EmptyString => EmptyString
  | String c s' => if isspace c then lstrip s' else s
  end.

Fixpoint rstrip (s : string) : string :=
  match s with
  | EmptyString => EmptyString
  | String c s' =>
      match rstrip s' with
      | EmptyString => if isspace c then EmptyString else String c EmptyString
      | r => String c r
      end
  end.

(** [s.strip()] *)
Definition strip (s : string) : string := rstrip (lstrip s).

(** [sep.join(l)] *)
Fixpoint join (sep : string) (l : list string) : string :=
  match l with
  | [] => EmptyString
  | [s] => s
  | s :: l' => s ++ sep ++ join sep l'
  end.

(** [s[:n]] *)
Definition prefix (n : nat) (s : string) : string := substring 0 n s.

(** [c * n] for a one-character string. *)
Fixpoint repeat_string (s : string) (n : nat) : string :=
  match n with
  | 0 => EmptyString
  | S n' => s ++ repeat_string s n'
  end.

(** Truth value of a string: [if text]. *)
Definition truthy (s : string) : bool :=
  match s with EmptyString => false | _ => true end.

(** The values the scraped records hold. *)
Inductive pyval : Type :=
| PStr (s : string)
| PInt (n : nat)
| PList (l : list string).

(** A [dict] with string keys, in insertion order. *)
Definition dict : Type := list (string * pyval).

Fixpoint dict_get (k : string) (d : dict) : option pyval :=
  match d with
  | [] => None
  | (k', v) :: d' => if String.eqb k k' then Some v else dict_get k d'
  end.

(** [d[k] = v]: the value is replaced in place, a new key goes last. *)
Fixpoint dict_set (k : string) (v : pyval) (d : dict) : dict :=
  match d with
  | [] => [(k, v)]
  | (k', v') :: d' =>
      if String.eqb k k' then (k', v) :: d' else (k', v') :: dict_set k v d'
  end.

Definition keys (d : dict) : list string := map fst d.

(** The value of a key in a list of pairs. *)
Fixpoint lookup {A : Type} (k : string) (l : list (string * A)) : option A :=
  match l with
  | [] => None
  | (k', v) :: l' => if String.eqb k k' then Some v else lookup k l'
  end.

(** The exceptions the scripts can meet.  The four kinds of
    [requests.RequestException] are told apart by the first [except]
    clause of [scrape_with_error_handling] that matches them. *)
Inductive request_kind : Type :=
| Timeout
| ConnectionError
| HTTPError
| OtherRequestError.

Inductive exn : Type :=
| RequestException (k : request_kind) (msg : string)
| ParserRejectedMarkup (msg : string)
| KeyError (key : string)
| TypeError (msg : string)
| ValueError (msg : string)
| IndexError (msg : string).

(** [str(e)] *)
Definition exn_str (e : exn) : string :=
  match e with
  | RequestException _ msg => msg
  | ParserRejectedMarkup msg => msg
  | KeyError key => "'" ++ key ++ "'"
  | TypeError msg => msg
  | ValueError msg => msg
  | IndexError msg => msg
  end.

(** A call either returns or raises. *)
Inductive result (A : Type) : Type :=
| Ok (a : A)
| Raise (e : exn).
Arguments Ok {A} a.
Arguments Raise {A} e.

(** *** Functions with effects

    What a function does to the outside: the lines it prints and what it
    writes to the files it opens (opening a file for writing empties
    it). *)
Inductive effect : Type :=
| Printed (line : string)
| Opened (file : string)
| Written (file : string) (chunk : string).

(** A function that has effects and may raise: its effects, in order,
    and how it ended. *)
Definition Out (A : Type) : Type := list effect * result A.

Definition ret {A : Type} (a : A) : Out A := ([], Ok a).

Definition bind {A B : Type} (c : Out A) (k : A -> Out B) : Out B :=
  match c with
  | (effects, Ok a) =>
      let (effects', r) := k a in ((effects ++ effects')%list, r)
  | (effects, Raise e) => (effects, Raise e)
  end.

Definition print (line : string) : Out unit := ([Printed line], Ok tt).

Definition raise {A : Type} (e : exn) : Out A := ([], Raise e).

Definition lift {A : Type} (r : result A) : Out A := ([], r).

(** The lines printed, and the content of a file after the effects. *)
Definition printed (effects : list effect) : list string :=
  flat_map (fun e => match e with Printed l => [l] | _ => [] end) effects.

Definition file_content (file : string) (effects : list effect)
  : option string :=
  fold_left
    (fun content e =>
       match e, content with
       | Opened f, _ => if String.eqb f file then Some EmptyString else content
       | Written f chunk, Some c =>
           if String.eqb f file then Some (c ++ chunk) else content
       | _, _ => content
       end)
    effects None.

(** [for x in l: f x] *)
Fixpoint for_each {A : Type} (l : list A) (f : A -> Out unit) : Out unit :=
  match l with
  | [] => ret tt
  | x :: l' => bind (f x) (fun _ => for_each l' f)
  end.

(** [for x in l: acc = f acc x] *)
Fixpoint for_fold {A S : Type} (l : list A) (acc : S)
  (f : S -> A -> Out S) : Out S :=
  match l with
  | [] => ret acc
  | x :: l' => bind (f acc x) (fun acc' => for_fold l' acc' f)
  end.

(** [[f x for x in l]] *)
Fixpoint for_map {A B : Type} (l : list A) (f : A -> Out B) : Out (list B) :=
  match l with
  | [] => ret []
  | x :: l' =>
      bind (f x) (fun y => bind (for_map l' f) (fun ys => ret (y :: ys)))
  end.

(** [enumerate(l, i)] *)
Fixpoint enumerate {A : Type} (i : nat) (l : list A) : list (nat * A) :=
  match l with
  | [] => []
  | x :: l' => (i, x) :: enumerate (S i) l'
  end.

(** [with open(file, 'w') as f] and [f.write(chunk)] *)
Definition open_w (file : string) : Out unit := ([Opened file], Ok tt).

Definition write (file chunk : string) : Out unit :=
  ([Written file chunk], Ok tt).

(** *** Dynamic operations on values *)

(** [d[k]] *)
Definition item (d : dict) (k : string) : result pyval :=
  match dict_get k d with
  | Some v => Ok v
  | None => Raise (KeyError k)
  end.

(** [len(v)] *)
Definition len (v : pyval) : result nat :=
  match v with
  | PStr s => Ok (String.length s)
  | PList l => Ok (List.length l)
  | PInt _ => Raise (TypeError "object of type 'int' has no len()")
  end.

(** The elements [for x in v] goes through: those of a list, the
    characters of a string. *)
Definition iterate (v : pyval) : result (list string) :=
  match v with
  | PList l => Ok l
  | PStr s =>
      Ok (map (fun c => String c EmptyString) (list_ascii_of_string s))
  | PInt _ => Raise (TypeError "'int' object is not iterable")
  end.

(** [sep.join(v)] *)
Definition join_value (sep : string) (v : pyval) : result string :=
  match v with
  | PList l => Ok (join sep l)
  | PStr s =>
      Ok (join sep
            (map (fun c => String c EmptyString) (list_ascii_of_string s)))
  | PInt _ => Raise (TypeError "can only join an iterable")
  end.

(** A value can be the key of a [dict] unless it is a list. *)
Definition hashable (v : pyval) : result unit :=
  match v with
  | PList _ => Raise (TypeError "unhashable type: 'list'")
  | _ => Ok tt
  end.

Definition pyval_eqb (a b : pyval) : bool :=
  match a, b with
  | PStr s, PStr t => String.eqb s t
  | PInt n, PInt m => Nat.eqb n m
  | PList l, PList m =>
      if list_eq_dec string_dec l m then true else false
  | _, _ => false
  end.

(** [v[:n]] *)
Definition slice_to (n : nat) (v : pyval) : result pyval :=
  match v with
  | PStr s => Ok (PStr (prefix n s))
  | PList l => Ok (PList (firstn n l))
  | PInt _ => Raise (TypeError "'int' object is not subscriptable")
  end.

(** [l[i]], with a negative index counted from the end. *)
Definition list_index {A : Type} (l : list A) (i : Z) : result A :=
  let n := Z.of_nat (List.length l) in
  let j := if (i <? 0)%Z then (i + n)%Z else i in
  if ((j <? 0) || (n <=? j))%Z
  then Raise (IndexError "list index out of range")
  else match nth_error l (Z.to_nat j) with
       | Some x => Ok x
       | None => Raise (IndexError "list index out of range")
       end.

(** [repr(s)] for a string: the quote that needs fewer escapes, and the
    escapes of the characters that do not print. *)
Definition has_char (c : ascii) (s : string) : bool :=
  existsb (Ascii.eqb c) (list_ascii_of_string s).

Definition squote : ascii := "'"%char.
Definition dquote_char : ascii := ascii_of_nat 34.
Definition backslash : ascii := ascii_of_nat 92.

Definition repr_quote (s : string) : ascii :=
  if has_char squote s && negb (has_char dquote_char s)
  then dquote_char else squote.

Definition printable (n : nat) : bool :=
  (((32 <=? n) && (n <? 127)) || ((161 <=? n) && negb (n =? 173)))%nat.

Definition hex_digit (n : nat) : ascii :=
  if (n <? 10)%nat then ascii_of_nat (48 + n) else ascii_of_nat (87 + n).

Definition repr_char (q c : ascii) : string :=
  let n := nat_of_ascii c in
  if Ascii.eqb c q || Ascii.eqb c backslash
  then String backslash (String c EmptyString)
  else if (n =? 9)%nat then String backslash "t"
  else if (n =? 10)%nat then String backslash "n"
  else if (n =? 13)%nat then String backslash "r"
  else if printable n then String c EmptyString
  else String backslash
         (String "x" (String (hex_digit (n / 16))
                        (String (hex_digit (n mod 16)) EmptyString))).

Definition repr (s : string) : string :=
  let q := repr_quote s in
  String q (concat EmptyString (map (repr_char q) (list_ascii_of_string s)))
    ++ String q EmptyString.

(** [str(v)], which is what an f-string writes for [{v}]. *)
Definition format (v : pyval) : string :=
  match v with
  | PStr s => s
  | PInt n => str n
  | PList l => "[" ++ join ", " (map repr l) ++ "]"
  end.

(** [sorted(l, key=...)]: a stable sort; [le a b] says that [a] may stand
    before [b]. *)
Fixpoint insert_by {A : Type} (le : A -> A -> bool) (x : A) (l : list A)
  : list A :=
  match l with
  | [] => [x]
  | y :: l' => if le x y then x :: y :: l' else y :: insert_by le x l'
  end.

Definition sort_by {A : Type} (le : A -> A -> bool) (l : list A) : list A :=
  fold_right (insert_by le) [] l.

End Py.

(** ** BeautifulSoup: the parse tree and the queries the scripts make *)

Module Bs4.
Import Py.
Local Open Scope string_scope.

(** An attribute holds a string; [class] (a multi-valued attribute) holds
    the list of its values. *)
Inductive attr_value : Type :=
| AStr (s : string)
| AList (l : list string).

(** A document is a [Tag] (the [BeautifulSoup] object itself); its
    descendants are tags and strings. *)
Inductive node : Type :=
| NavigableString (s : string)
| Tag (name : string) (attrs : list (string * attr_value))
      (contents : list node).

(** [tag.descendants]: every node below the tag, in document order. *)
Fixpoint descendants (n : node) : list node :=
  match n with
  | NavigableString _ => []
  | Tag _ _ cs =>
      (fix go (l : list node) : list node :=
         match l with
         | [] => []
         | c :: l' => ((c :: descendants c) ++ go l')%list
         end) cs
  end.

Definition is_tag (n : node) : bool :=
  match n with Tag _ _ _ => true | NavigableString _ => false end.

Definition tag_name (n : node) : string :=
  match n with Tag name _ _ => name | NavigableString _ => EmptyString end.

Fixpoint attr_get (k : string) (attrs : list (string * attr_value))
  : option attr_value :=
  match attrs with
  | [] => None
  | (k', v) :: attrs' => if String.eqb k k' then Some v else attr_get k attrs'
  end.

(** [tag.get(k)] *)
Definition get (k : string) (n : node) : option attr_value :=
  match n with
  | Tag _ attrs _ => attr_get k attrs
  | NavigableString _ => None
  end.

(** White space of a selector engine: space, tab, line feed, form feed,
    carriage return. *)
Definition css_space (c : ascii) : bool :=
  let n := nat_of_ascii c in
  ((n =? 32) || (n =? 9) || (n =? 10) || (n =? 12) || (n =? 13))%nat.

(** The runs of characters that are not white space. *)
Fixpoint words_from (cur : string) (s : string) : list string :=
  match s with
  | EmptyString => if truthy cur then [cur] else []
  | String c s' =>
      if css_space c
      then ((if truthy cur then [cur] else []) ++ words_from EmptyString s')%list
      else words_from (cur ++ String c EmptyString) s'
  end.

Definition words (s : string) : list string := words_from EmptyString s.

(** The classes of a tag: the values of its [class] attribute. *)
Definition classes (n : node) : list string :=
  match get "class" n with
  | Some (AList l) => l
  | Some (AStr s) => words s
  | None => []
  end.

(** [sub in s] *)
Fixpoint contains (sub s : string) : bool :=
  if String.prefix sub s then true
  else match s with
       | EmptyString => false
       | String _ s' => contains sub s'
       end.

(** The simple selectors the scripts use: [.c], a tag name, and
    [[a*="v"]]; a selector is a comma-separated group of them. *)
Inductive simple_selector : Type :=
| ByClass (c : string)
| ByName (name : string)
| AttrContains (a v : string).

Definition selector : Type := list simple_selector.

Definition matches_simple (s : simple_selector) (n : node) : bool :=
  is_tag n &&
  match s with
  | ByClass c => existsb (String.eqb c) (classes n)
  | ByName name => String.eqb name (tag_name n)
  | AttrContains a v =>
      match get a n with
      | Some (AStr s) => truthy v && contains v s
      | Some (AList l) => truthy v && contains v (join " " l)
      | None => false
      end
  end.

Definition matches (sel : selector) (n : node) : bool :=
  existsb (fun s => matches_simple s n) sel.

(** [tag.select(sel)]: the matching descendants, in document order. *)
Definition select (sel : selector) (n : node) : list node :=
  filter (matches sel) (descendants n).

(** [tag.select_one(sel)]: the first of them, or [None]. *)
Definition select_one (sel : selector) (n : node) : option node :=
  hd_error (select sel n).

(** [tag.find_all(name)] and [tag.find(name)], by tag name. *)
Definition find_all (name : string) (n : node) : list node :=
  filter (matches [ByName name]) (descendants n).

Definition find (name : string) (n : node) : option node :=
  hd_error (find_all name n).

(** [tag.get_text(strip=True)]: the strings below the tag, each stripped,
    the empty ones dropped, joined with nothing between them. *)
Definition stripped_strings (n : node) : list string :=
  flat_map (fun d =>
              match d with
              | NavigableString s =>
                  if truthy (strip s) then [strip s] else []
              | Tag _ _ _ => []
              end) (descendants n).

Definition get_text_strip (n : node) : string :=
  join EmptyString (stripped_strings n).

(** The same tree with every [href] value rewritten by [f]. *)
Definition rewrite_href (f : string -> string)
  (kv : string * attr_value) : string * attr_value :=
  match kv with
  | (k, AStr s) => if String.eqb k "href" then (k, AStr (f s)) else kv
  | (k, AList l) => kv
  end.

Fixpoint map_href (f : string -> string) (n : node) : node :=
  match n with
  | NavigableString s => NavigableString s
  | Tag name attrs cs =>
      Tag name (map (rewrite_href f) attrs) (map (map_href f) cs)
  end.

(** The selectors of the scripts. *)
Definition sel_quote : selector := [ByClass "quote"].
Definition sel_text : selector := [ByClass "text"].
Definition sel_author : selector := [ByClass "author"].
Definition sel_tag : selector := [ByClass "tag"].
Definition sel_next : selector := [ByClass "next"].
Definition sel_courses : selector :=
  [ByName "h2"; ByName "h3"; ByClass "course-title";
   AttrContains "class" "course"].

End Bs4.

(** ** requests: responses and the world the scripts run in *)

Module Requests.
Import Py.
Local Open Scope string_scope.

Record Response : Type := {
  status_code : nat;
  reason : string;
  url : string;
  text : string
}.

(** The message of [response.raise_for_status()], as requests builds it
    for a 4xx or 5xx status. *)
Definition http_error_msg (r : Response) : option string :=
  let code := status_code r in
  if ((400 <=? code) && (code <? 500))%nat then
    Some (str code ++ " Client Error: " ++ reason r
            ++ " for url: " ++ url r)
  else if ((500 <=? code) && (code <? 600))%nat then
    Some (str code ++ " Server Error: " ++ reason r
            ++ " for url: " ++ url r)
  else None.

(** [response.raise_for_status()] *)
Definition raise_for_status (r : Response) : result unit :=
  match http_error_msg r with
  | Some msg => Raise (RequestException HTTPError msg)
  | None => Ok tt
  end.

Definition headers : Type := list (string * string).

(** [requests.get] answers or raises a [RequestException]. *)
Inductive fetched : Type :=
| Answer (r : Response)
| Fails (k : request_kind) (msg : string).

(** [BeautifulSoup(markup, 'html.parser')] builds the tree or raises
    [ParserRejectedMarkup]. *)
Inductive parsed : Type :=
| Tree (doc : Bs4.node)
| Rejected (msg : string).

Definition fetched_result (f : fetched) : result Response :=
  match f with
  | Answer r => Ok r
  | Fails k msg => Raise (RequestException k msg)
  end.

Definition parsed_result (p : parsed) : result Bs4.node :=
  match p with
  | Tree doc => Ok doc
  | Rejected msg => Raise (ParserRejectedMarkup msg)
  end.

(** The world outside the scripts: what [requests.get(url, headers=...,
    timeout=...)] does, and what the parser does with a markup. *)
Record World : Type := {
  requests_get : string -> headers -> option nat -> fetched;
  html_parser : string -> parsed
}.

End Requests.


(** ** csv: the writer and the reader of the [excel] dialect

    Delimiter [,], quote character, doubled quotes, minimal quoting,
    line terminator CR LF.  The limit on the size of a field, a setting
    of the module, is left out. *)

Module Csv.
Import Py.
Local Open Scope string_scope.

Definition delimiter : ascii := ","%char.
Definition quotechar : ascii := dquote_char.
Definition cr : ascii := ascii_of_nat 13.
Definition lf : ascii := ascii_of_nat 10.
Definition lineterminator : string := String cr (String lf EmptyString).

(** *** The writer *)

(** A field is quoted when it holds the delimiter, the quote character or
    a character of the line terminator. *)
Definition special (c : ascii) : bool :=
  Ascii.eqb c delimiter || Ascii.eqb c quotechar
  || Ascii.eqb c cr || Ascii.eqb c lf.

Fixpoint needs_quotes (s : string) : bool :=
  match s with
  | EmptyString => false
  | String c s' => special c || needs_quotes s'
  end.

(** Every quote character is doubled. *)
Fixpoint double_quotes (s : string) : string :=
  match s with
  | EmptyString => EmptyString
  | String c s' =>
      if Ascii.eqb c quotechar
      then String c (String c (double_quotes s'))
      else String c (double_quotes s')
  end.

Definition write_field (s : string) : string :=
  if needs_quotes s
  then String quotechar (double_quotes s ++ String quotechar EmptyString)
  else s.

(** [writer.writerow(fields)]: the text of the row.  A row that is one
    empty field is written as two quote characters. *)
Definition write_row (fields : list string) : string :=
  match fields with
  | [EmptyString] =>
      String quotechar (String quotechar EmptyString) ++ lineterminator
  | _ => join (String delimiter EmptyString) (map write_field fields)
         ++ lineterminator
  end.

(** The text of several rows. *)
Fixpoint write_rows (rows : list (list string)) : string :=
  match rows with
  | [] => EmptyString
  | row :: rows' => write_row row ++ write_rows rows'
  end.

(** What the writer makes of a value: a string as it is, [None] (here a
    missing key, which [DictWriter] fills with the empty string) as the
    empty string, anything else through [str]. *)
Definition cell (v : option pyval) : string :=
  match v with
  | None => EmptyString
  | Some v => format v
  end.

(** [DictWriter(f, fieldnames=...)._dict_to_list(rowdict)]: a key that is
    not a field name raises [ValueError]. *)
Definition wrong_fields (fieldnames : list string) (rowdict : dict)
  : list string :=
  filter (fun k => negb (existsb (String.eqb k) fieldnames)) (keys rowdict).

Definition dict_to_list (fieldnames : list string) (rowdict : dict)
  : result (list string) :=
  match wrong_fields fieldnames rowdict with
  | [] => Ok (map (fun key => cell (dict_get key rowdict)) fieldnames)
  | wrong =>
      Raise (ValueError ("dict contains fields not in fieldnames: "
                           ++ join ", " (map repr wrong)))
  end.

(** *** The reader *)

Inductive parser_state : Type :=
| START_RECORD
| START_FIELD
| IN_FIELD
| IN_QUOTED_FIELD
| QUOTE_IN_QUOTED_FIELD
| EAT_CRNL.

(** The state of the reader within a record: the field being read and
    the fields read. *)
Record reader : Type := {
  state : parser_state;
  field : string;
  fields : list string
}.

Definition start : reader :=
  {| state := START_RECORD; field := EmptyString; fields := [] |}.

(** A character of a line, or the end of the line. *)
Inductive input : Type :=
| Char (c : ascii)
| EOL.

Definition goto (st : parser_state) (r : reader) : reader :=
  {| state := st; field := field r; fields := fields r |}.

Definition add_char (c : ascii) (st : parser_state) (r : reader) : reader :=
  {| state := st; field := field r ++ String c EmptyString;
     fields := fields r |}.

Definition save_field (st : parser_state) (r : reader) : reader :=
  {| state := st; field := EmptyString;
     fields := (fields r ++ [field r])%list |}.

Definition is_newline (c : ascii) : bool := Ascii.eqb c lf || Ascii.eqb c cr.

Definition after_line (i : input) : parser_state :=
  match i with EOL => START_RECORD | Char _ => EAT_CRNL end.

Definition ends_line (i : input) : bool :=
  match i with EOL => true | Char c => is_newline c end.

Definition start_field (i : input) (r : reader) : reader :=
  match i with
  | EOL => save_field START_RECORD r
  | Char c =>
      if is_newline c then save_field EAT_CRNL r
      else if Ascii.eqb c quotechar then goto IN_QUOTED_FIELD r
      else if Ascii.eqb c delimiter then save_field START_FIELD r
      else add_char c IN_FIELD r
  end.

(** [parse_process_char]: one step of the reader. *)
Definition process (r : reader) (i : input) : result reader :=
  match state r with
  | START_RECORD =>
      match i with
      | EOL => Ok r
      | Char c =>
          if is_newline c then Ok (goto EAT_CRNL r)
          else Ok (start_field i r)
      end
  | START_FIELD => Ok (start_field i r)
  | IN_FIELD =>
      match i with
      | EOL => Ok (save_field START_RECORD r)
      | Char c =>
          if is_newline c then Ok (save_field EAT_CRNL r)
          else if Ascii.eqb c delimiter then Ok (save_field START_FIELD r)
          else Ok (add_char c IN_FIELD r)
      end
  | IN_QUOTED_FIELD =>
      match i with
      | EOL => Ok r
      | Char c =>
          if Ascii.eqb c quotechar then Ok (goto QUOTE_IN_QUOTED_FIELD r)
          else Ok (add_char c IN_QUOTED_FIELD r)
      end
  | QUOTE_IN_QUOTED_FIELD =>
      match i with
      | EOL => Ok (save_field START_RECORD r)
      | Char c =>
          if Ascii.eqb c quotechar then Ok (add_char c IN_QUOTED_FIELD r)
          else if Ascii.eqb c delimiter then Ok (save_field START_FIELD r)
          else if is_newline c then Ok (save_field EAT_CRNL r)
          else Ok (add_char c IN_FIELD r)
      end
  | EAT_CRNL =>
      match i with
      | EOL => Ok (goto START_RECORD r)
      | Char c =>
          if is_newline c then Ok r
          else Raise (ValueError
                 "new-line character seen in unquoted field")
      end
  end.

(** The rows read so far and the reader within the current record. *)
Definition reading : Type := list (list string) * reader.

(** The end of a line: the reader sees [EOL]; a record that is complete
    is handed out. *)
Definition end_line (rd : reading) : result reading :=
  let (rows, r) := rd in
  match process r EOL with
  | Raise e => Raise e
  | Ok r' =>
      match state r' with
      | START_RECORD => Ok ((rows ++ [fields r'])%list, start)
      | _ => Ok (rows, r')
      end
  end.

(** The characters of a file opened with [newline='']: a line ends after
    LF, and after a CR that no LF follows. *)
Definition line_ends (c : ascii) (rest : string) : bool :=
  Ascii.eqb c lf
  || (Ascii.eqb c cr
      && negb match rest with
              | String c' _ => Ascii.eqb c' lf
              | EmptyString => false
              end).

(** [feed s fresh_line rd] reads the characters of [s]; [fresh_line]
    says whether they stand at the start of a line. *)
Fixpoint feed (s : string) (fresh_line : bool) (rd : reading)
  : result (bool * reading) :=
  match s with
  | EmptyString => Ok (fresh_line, rd)
  | String c s' =>
      match process (snd rd) (Char c) with
      | Raise e => Raise e
      | Ok r' =>
          if line_ends c s' then
            match end_line (fst rd, r') with
            | Raise e => Raise e
            | Ok rd' => feed s' true rd'
            end
          else feed s' false (fst rd, r')
      end
  end.

(** [list(csv.reader(f))]: the rows of the whole file.  A last line
    without terminator ends at the end of the file, and so does a record
    left open. *)
Definition read_rows (content : string) : result (list (list string)) :=
  match feed content true ([], start) with
  | Raise e => Raise e
  | Ok (fresh_line, rd) =>
      match (if fresh_line then Ok rd else end_line rd) with
      | Raise e => Raise e
      | Ok (rows, r) =>
          if truthy (field r)
             || match state r with IN_QUOTED_FIELD => true | _ => false end
          then Ok (rows ++ [fields (save_field START_RECORD r)])%list
          else Ok rows
      end
  end.

(** [list(csv.DictReader(f))]: the first row names the fields; a row
    that is empty is skipped; a row with as many cells as there are
    names gives a dict.  [None] stands for the rows of another length,
    which are not modelled. *)
Fixpoint zip_row (names cells : list string) : option (list (string * string)) :=
  match names, cells with
  | [], [] => Some []
  | n :: names', c :: cells' =>
      match zip_row names' cells' with
      | Some d => Some ((n, c) :: d)
      | None => None
      end
  | _, _ => None
  end.

Fixpoint zip_rows (names : list string) (rows : list (list string))
  : option (list (list (string * string))) :=
  match rows with
  | [] => Some []
  | [] :: rows' => zip_rows names rows'
  | row :: rows' =>
      match zip_row names row, zip_rows names rows' with
      | Some d, Some ds => Some (d :: ds)
      | _, _ => None
      end
  end.

Definition dict_reader (content : string)
  : result (option (list (list (string * string)))) :=
  match read_rows content with
  | Raise e => Raise e
  | Ok [] => Ok (Some [])
  | Ok (names :: rows) => Ok (zip_rows names rows)
  end.

(** *** Notions the proofs are stated with *)

Definition reader_at (st : parser_state) (f : string) (fs : list string)
  : reader :=
  {| state := st; field := f; fields := fs |}.

(** The states in which a field starts, and those in which it has been
    read. *)
Definition starting (st : parser_state) : Prop :=
  st = START_RECORD \/ st = START_FIELD.

Definition read (st : parser_state) : Prop :=
  st = IN_FIELD \/ st = QUOTE_IN_QUOTED_FIELD \/ st = START_FIELD.

Definition comma : string := String delimiter EmptyString.

End Csv.

(** ** json: [dump] with [indent=2, ensure_ascii=False], and [load] *)

Module Json.
Import Py.
Local Open Scope string_scope.

(** The JSON values the scripts write: strings, non-negative integers,
    arrays and objects. *)
Inductive json : Type :=
| JStr (s : string)
| JInt (n : nat)
| JArr (items : list json)
| JObj (members : list (string * json)).

(** *** The encoder *)

Definition hex4 (n : nat) : string :=
  String (hex_digit (n / 4096))
    (String (hex_digit ((n / 256) mod 16))
       (String (hex_digit ((n / 16) mod 16))
          (String (hex_digit (n mod 16)) EmptyString))).

(** The quote character, the backslash and the characters below 32 are
    escaped. *)
Definition escape_char (c : ascii) : string :=
  let n := nat_of_ascii c in
  if Ascii.eqb c dquote_char then String backslash (String dquote_char EmptyString)
  else if Ascii.eqb c backslash then String backslash (String backslash EmptyString)
  else if (n =? 10)%nat then String backslash "n"
  else if (n =? 13)%nat then String backslash "r"
  else if (n =? 9)%nat then String backslash "t"
  else if (n =? 8)%nat then String backslash "b"
  else if (n =? 12)%nat then String backslash "f"
  else if (n <? 32)%nat then String backslash (String "u" (hex4 n))
  else String c EmptyString.

Fixpoint escape (s : string) : string :=
  match s with
  | EmptyString => EmptyString
  | String c s' => escape_char c ++ escape s'
  end.

Definition encode_string (s : string) : string :=
  String dquote_char (escape s ++ String dquote_char EmptyString).

(** A new line and the indentation of a level. *)
Definition newline_indent (level : nat) : string :=
  nl ++ repeat_string "  " level.

(** The items of an array or of an object, each on its line. *)
Definition block (opening closing : string) (level : nat)
  (items : list string) : string :=
  match items with
  | [] => opening ++ closing
  | _ =>
      opening ++ newline_indent (S level)
      ++ join ("," ++ newline_indent (S level)) items
      ++ newline_indent level ++ closing
  end.

Fixpoint encode (level : nat) (v : json) : string :=
  match v with
  | JStr s => encode_string s
  | JInt n => str n
  | JArr items =>
      block "[" "]" level
        ((fix each (l : list json) : list string :=
            match l with
            | [] => []
            | x :: l' => encode (S level) x :: each l'
            end) items)
  | JObj members =>
      block "{" "}" level
        ((fix each (l : list (string * json)) : list string :=
            match l with
            | [] => []
            | (k, x) :: l' =>
                (encode_string k ++ ": " ++ encode (S level) x) :: each l'
            end) members)
  end.

(** [json.dumps(v, indent=2, ensure_ascii=False)] *)
Definition dumps (v : json) : string := encode 0 v.

(** The JSON value of a Python value, of a dict and of the list of
    records. *)
Definition of_pyval (v : pyval) : json :=
  match v with
  | PStr s => JStr s
  | PInt n => JInt n
  | PList l => JArr (map JStr l)
  end.

Definition of_dict (d : dict) : json :=
  JObj (map (fun kv => (fst kv, of_pyval (snd kv))) d).

Definition of_records (quotes : list dict) : json :=
  JArr (map of_dict quotes).

(** *** The decoder

    [None] stands for a text that is not JSON and for the JSON that is
    not modelled: numbers other than non-negative integers, [true],
    [false], [null], and characters above 255. *)

Definition whitespace (c : ascii) : bool :=
  let n := nat_of_ascii c in
  ((n =? 32) || (n =? 9) || (n =? 10) || (n =? 13))%nat.

Fixpoint skip_ws (s : string) : string :=
  match s with
  | EmptyString => EmptyString
  | String c s' => if whitespace c then skip_ws s' else s
  end.

Definition hex_value (c : ascii) : option nat :=
  let n := nat_of_ascii c in
  if ((48 <=? n) && (n <=? 57))%nat then Some (n - 48)
  else if ((97 <=? n) && (n <=? 102))%nat then Some (n - 87)
  else if ((65 <=? n) && (n <=? 70))%nat then Some (n - 55)
  else None.

Definition unescape (c : ascii) : option ascii :=
  let n := nat_of_ascii c in
  if Ascii.eqb c dquote_char then Some dquote_char
  else if Ascii.eqb c backslash then Some backslash
  else if Ascii.eqb c "/" then Some "/"%char
  else if Ascii.eqb c "b" then Some (ascii_of_nat 8)
  else if Ascii.eqb c "f" then Some (ascii_of_nat 12)
  else if Ascii.eqb c "n" then Some (ascii_of_nat 10)
  else if Ascii.eqb c "r" then Some (ascii_of_nat 13)
  else if Ascii.eqb c "t" then Some (ascii_of_nat 9)
  else None.

Definition cons_char (c : ascii) (r : option (string * string))
  : option (string * string) :=
  match r with
  | Some (s, rest) => Some (String c s, rest)
  | None => None
  end.

(** The string that follows an opening quote, and what follows it. *)
Fixpoint scan_string (s : string) : option (string * string) :=
  match s with
  | EmptyString => None
  | String c s' =>
      if Ascii.eqb c dquote_char then Some (EmptyString, s')
      else if Ascii.eqb c backslash then
        match s' with
        | String "u" (String h1 (String h2 (String h3 (String h4 rest)))) =>
            match hex_value h1, hex_value h2, hex_value h3, hex_value h4 with
            | Some a, Some b, Some c', Some d =>
                let n := a * 4096 + b * 256 + c' * 16 + d in
                if (n <? 256)%nat
                then cons_char (ascii_of_nat n) (scan_string rest)
                else None
            | _, _, _, _ => None
            end
        | String e rest =>
            match unescape e with
            | Some c' => cons_char c' (scan_string rest)
            | None => None
            end
        | EmptyString => None
        end
      else if (nat_of_ascii c <? 32)%nat then None
      else cons_char c (scan_string s')
  end.

Definition digit (c : ascii) : bool :=
  ((48 <=? nat_of_ascii c) && (nat_of_ascii c <=? 57))%nat.

Fixpoint scan_digits (s : string) : string * string :=
  match s with
  | EmptyString => (EmptyString, EmptyString)
  | String c s' =>
      if digit c
      then let (ds, rest) := scan_digits s' in (String c ds, rest)
      else (EmptyString, s)
  end.

(** A fraction or an exponent follows. *)
Definition fraction_or_exponent (rest : string) : bool :=
  match rest with
  | String c _ => Ascii.eqb c "." || Ascii.eqb c "e" || Ascii.eqb c "E"
  | EmptyString => false
  end.

(** The integer at the start of [s], which starts with a digit: [0], or
    a digit other than 0 and the digits after it.  A fraction or an
    exponent after it is not modelled. *)
Definition scan_number (s : string) : option (nat * string) :=
  let (ds, rest) :=
    match s with
    | String c s' => if Ascii.eqb c "0" then ("0", s') else scan_digits s
    | EmptyString => scan_digits s
    end in
  if fraction_or_exponent rest then None
  else match NilEmpty.uint_of_string ds with
       | Some d => Some (Nat.of_uint d, rest)
       | None => None
       end.

(** [d[k] = v] while the members of an object are collected: a repeated
    key keeps its place and takes the last value. *)
Fixpoint member_set (k : string) (v : json) (members : list (string * json))
  : list (string * json) :=
  match members with
  | [] => [(k, v)]
  | (k', v') :: members' =>
      if String.eqb k k' then (k', v) :: members'
      else (k', v') :: member_set k v members'
  end.

Definition members_dict (pairs : list (string * json))
  : list (string * json) :=
  fold_left (fun d kv => member_set (fst kv) (snd kv) d) pairs [].

(** The next character is [c]: what follows it. *)
Definition expect (c : ascii) (s : string) : option string :=
  match s with
  | String c' rest => if Ascii.eqb c' c then Some rest else None
  | EmptyString => None
  end.

(** The value at the start of [s]; the items of an array after its
    opening bracket and the pairs of an object after its opening brace,
    white space skipped.  The fuel bounds the number of values. *)
Fixpoint parse_value (fuel : nat) (s : string) : option (json * string) :=
  match fuel with
  | 0 => None
  | S fuel' =>
      match s with
      | EmptyString => None
      | String c s' =>
          if Ascii.eqb c dquote_char then
            match scan_string s' with
            | Some (str, rest) => Some (JStr str, rest)
            | None => None
            end
          else if Ascii.eqb c "[" then
            match expect "]" (skip_ws s') with
            | Some rest => Some (JArr [], rest)
            | None =>
                match parse_items fuel' (skip_ws s') with
                | Some (l, rest) => Some (JArr l, rest)
                | None => None
                end
            end
          else if Ascii.eqb c "{" then
            match expect "}" (skip_ws s') with
            | Some rest => Some (JObj [], rest)
            | None =>
                match parse_pairs fuel' (skip_ws s') with
                | Some (l, rest) => Some (JObj (members_dict l), rest)
                | None => None
                end
            end
          else if digit c then
            match scan_number s with
            | Some (n, rest) => Some (JInt n, rest)
            | None => None
            end
          else None
      end
  end
with parse_items (fuel : nat) (s : string) : option (list json * string) :=
  match fuel with
  | 0 => None
  | S fuel' =>
      match parse_value fuel' s with
      | Some (v, rest) =>
          match expect "]" (skip_ws rest) with
          | Some rest' => Some ([v], rest')
          | None =>
              match expect "," (skip_ws rest) with
              | Some rest' =>
                  match parse_items fuel' (skip_ws rest') with
                  | Some (l, rest'') => Some (v :: l, rest'')
                  | None => None
                  end
              | None => None
              end
          end
      | None => None
      end
  end
with parse_pairs (fuel : nat) (s : string)
  : option (list (string * json) * string) :=
  match fuel with
  | 0 => None
  | S fuel' =>
      match expect dquote_char s with
      | Some s' =>
          match scan_string s' with
          | Some (k, rest) =>
              match expect ":" (skip_ws rest) with
              | Some rest' =>
                  match parse_value fuel' (skip_ws rest') with
                  | Some (v, rest'') =>
                      match expect "}" (skip_ws rest'') with
                      | Some rest3 => Some ([(k, v)], rest3)
                      | None =>
                          match expect "," (skip_ws rest'') with
                          | Some rest3 =>
                              match parse_pairs fuel' (skip_ws rest3) with
                              | Some (l, rest4) => Some ((k, v) :: l, rest4)
                              | None => None
                              end
                          | None => None
                          end
                      end
                  | None => None
                  end
              | None => None
              end
          | None => None
          end
      | None => None
      end
  end.

(** [json.loads(text)]: one value, white space around it, nothing
    else.  No text holds more values than characters. *)
Definition loads (text : string) : option json :=
  match parse_value (S (String.length text)) (skip_ws text) with
  | Some (v, rest) =>
      match skip_ws rest with
      | EmptyString => Some v
      | _ => None
      end
  | None => None
  end.

(** The Python value of a JSON value: a list of records. *)
Definition to_pyval (v : json) : option pyval :=
  match v with
  | JStr s => Some (PStr s)
  | JInt n => Some (PInt n)
  | JArr items =>
      option_map PList
        (fold_right
           (fun x acc =>
              match x, acc with
              | JStr s, Some l => Some (s :: l)
              | _, _ => None
              end) (Some []) items)
  | JObj _ => None
  end.

Definition to_dict (v : json) : option dict :=
  match v with
  | JObj members =>
      fold_right
        (fun kv acc =>
           match to_pyval (snd kv), acc with
           | Some x, Some d => Some ((fst kv, x) :: d)
           | _, _ => None
           end) (Some []) members
  | _ => None
  end.

Definition to_records (v : json) : option (list dict) :=
  match v with
  | JArr items =>
      fold_right
        (fun x acc =>
           match to_dict x, acc with
           | Some d, Some l => Some (d :: l)
           | _, _ => None
           end) (Some []) items
  | _ => None
  end.

(** *** Notions the proofs are stated with *)

(** The decimal digits of a number: [0], or digits the first of which is
    not 0. *)
Definition leading (d : Decimal.uint) : bool :=
  match d with
  | Decimal.Nil | Decimal.D0 _ => false
  | _ => true
  end.

(** What may follow a number: no digit, and no fraction or exponent. *)
Definition ends_number (rest : string) : bool :=
  match rest with
  | String c _ => negb (digit c) && negb (fraction_or_exponent rest)
  | EmptyString => true
  end.

Definition encode_member (level : nat) (kv : string * json) : string :=
  encode_string (fst kv) ++ ": " ++ encode (S level) (snd kv).

(** The character a value starts with. *)
Definition value_start (c : ascii) : bool :=
  Ascii.eqb c dquote_char || Ascii.eqb c "[" || Ascii.eqb c "{" || digit c.

Fixpoint cost (v : json) : nat :=
  match v with
  | JStr _ | JInt _ => 1
  | JArr items =>
      S ((fix each (l : list json) : nat :=
            match l with
            | [] => 0
            | x :: l' => S (cost x + each l')
            end) items)
  | JObj members =>
      S ((fix each (l : list (string * json)) : nat :=
            match l with
            | [] => 0
            | (_, x) :: l' => S (cost x + each l')
            end) members)
  end.

Definition cost_items (items : list json) : nat :=
  fold_right (fun x acc => S (cost x + acc)) 0 items.

Definition cost_members (members : list (string * json)) : nat :=
  fold_right (fun kv acc => S (cost (snd kv) + acc)) 0 members.

Inductive well_keyed : json -> Prop :=
| wk_str (s : string) : well_keyed (JStr s)
| wk_int (n : nat) : well_keyed (JInt n)
| wk_arr (items : list json) :
    Forall well_keyed items -> well_keyed (JArr items)
| wk_obj (members : list (string * json)) :
    NoDup (map fst members) ->
    Forall (fun kv => well_keyed (snd kv)) members ->
    well_keyed (JObj members).

(** A text that starts as a value does. *)
Definition starts_value (text : string) : Prop :=
  exists c s, text = String c s /\ value_start c = true.

Definition item_separator (level : nat) : string :=
  "," ++ newline_indent (S level).

End Json.

(** ** urllib.parse: [urljoin] *)

Module Urllib.
Import Py.
Local Open Scope string_scope.

Definition between (lo hi : nat) (c : ascii) : bool :=
  ((lo <=? nat_of_ascii c) && (nat_of_ascii c <=? hi))%nat.

(** Letters, digits, [-] and [_]. *)
Definition plain (c : ascii) : bool :=
  between 97 122 c || between 65 90 c || between 48 57 c
  || Ascii.eqb c "-" || Ascii.eqb c "_".

Definition path_char (c : ascii) : bool := plain c || Ascii.eqb c "/".
Definition host_char (c : ascii) : bool :=
  plain c || Ascii.eqb c "." || Ascii.eqb c ":".

Fixpoint all_chars (p : ascii -> bool) (s : string) : bool :=
  match s with
  | EmptyString => true
  | String c s' => p c && all_chars p s'
  end.

(** [s] after the prefix [p], if it starts with it. *)
Fixpoint after_prefix (p s : string) : option string :=
  match p, s with
  | EmptyString, _ => Some s
  | String a p', String b s' =>
      if Ascii.eqb a b then after_prefix p' s' else None
  | String _ _, EmptyString => None
  end.

(** The part of [s] before its first [/], and the rest. *)
Fixpoint split_netloc (s : string) : string * string :=
  match s with
  | EmptyString => (EmptyString, EmptyString)
  | String c s' =>
      if Ascii.eqb c "/" then (EmptyString, s)
      else let (host, path) := split_netloc s' in (String c host, path)
  end.

(** A reference that is an absolute path: it starts with one [/] and is
    made of plain segments. *)
Definition absolute_path (ref : string) : bool :=
  match ref with
  | String "/" rest =>
      all_chars path_char rest
      && match rest with String "/" _ => false | _ => true end
  | _ => false
  end.

Definition join_at (scheme rest ref : string) : option string :=
  let (netloc, path) := split_netloc rest in
  if truthy netloc && all_chars host_char netloc && all_chars path_char path
     && absolute_path ref
  then Some (scheme ++ "://" ++ netloc ++ ref)
  else None.

(** [urljoin(base, ref)] where it is modelled: an http or https base
    written with plain characters and a reference that is an absolute
    path of plain segments (no dot segment, query or fragment).  There
    the result keeps the scheme and the host of the base and takes the
    path of the reference.  [None] stands for the rest of the domain,
    which is not modelled. *)
Definition urljoin (base ref : string) : option string :=
  match after_prefix "http://" base, after_prefix "https://" base with
  | Some rest, _ => join_at "http" rest ref
  | None, Some rest => join_at "https" rest ref
  | None, None => None
  end.

End Urllib.
(** ** lib/practical_example.py: [scrape_quotes_to_scrape] *)

Module Practical.
Import Py Bs4 Requests.
Local Open Scope string_scope.

(** What a run does to the outside, in order: the requests it makes, the
    lines it prints, the pauses it takes (in milliseconds). *)
Inductive event : Type :=
| Request (u : string)
| Output (line : string)
| Sleep (ms : nat).

(** The variables of the function and the events so far. *)
Record state : Type := {
  all_quotes : list dict;
  page : nat;
  trace : list event
}.

(** The three [break] statements of the loop: line 41 (no item matched),
    line 70 (no next element), line 80 (the handler of
    [requests.RequestException]). *)
Inductive terminal : Type :=
| NoItemsOnPage
| NoNextPage
| FetchFailed (k : request_kind) (msg : string).

(** A statement ends normally, leaves the loop, or raises. *)
Inductive flow (A : Type) : Type :=
| Normal (a : A)
| Break (r : terminal)
| Raised (e : exn).
Arguments Normal {A} a.
Arguments Break {A} r.
Arguments Raised {A} e.

Definition M (A : Type) : Type := state -> flow A * state.

Definition ret {A : Type} (a : A) : M A := fun st => (Normal a, st).

Definition bind {A B : Type} (c : M A) (k : A -> M B) : M B :=
  fun st =>
    match c st with
    | (Normal a, st') => k a st'
    | (Break r, st') => (Break r, st')
    | (Raised e, st') => (Raised e, st')
    end.

Notation "x <- c ;; k" := (bind c (fun x => k))
  (at level 61, c at next level, right associativity).
Notation "c ;; k" := (bind c (fun _ => k))
  (at level 61, right associativity).

Definition emit (e : event) : M unit :=
  fun st =>
    (Normal tt,
     {| all_quotes := all_quotes st; page := page st;
        trace := (trace st ++ [e])%list |}).

Definition print (line : string) : M unit := emit (Output line).

Definition get_page : M nat := fun st => (Normal (page st), st).

Definition set_page (p : nat) : M unit :=
  fun st =>
    (Normal tt,
     {| all_quotes := all_quotes st; page := p; trace := trace st |}).

Definition get_all_quotes : M (list dict) :=
  fun st => (Normal (all_quotes st), st).

(** [all_quotes.append(d)] *)
Definition append_quote (d : dict) : M unit :=
  fun st =>
    (Normal tt,
     {| all_quotes := (all_quotes st ++ [d])%list; page := page st;
        trace := trace st |}).

Definition lift {A : Type} (r : result A) : M A :=
  fun st =>
    match r with
    | Ok a => (Normal a, st)
    | Raise e => (Raised e, st)
    end.

Definition break {A : Type} (r : terminal) : M A := fun st => (Break r, st).

(** [try: c except requests.RequestException as e: h] *)
Definition except_RequestException (c : M unit)
  (h : request_kind -> string -> M unit) : M unit :=
  fun st =>
    match c st with
    | (Raised (RequestException k msg), st') => h k msg st'
    | other => other
    end.

(** [for x in l: f x] *)
Fixpoint for_each {A : Type} (l : list A) (f : A -> M unit) : M unit :=
  match l with
  | [] => ret tt
  | x :: l' => f x ;; for_each l' f
  end.

Definition base_url : string := "http://quotes.toscrape.com".
Definition headers : Requests.headers :=
  [("user-agent", "learning-scraper/1.0")].

(** [f"{base_url}/page/{page}/"] *)
Definition page_url (base : string) (page : nat) : string :=
  base ++ "/page/" ++ str page ++ "/".

(** [requests.get(url, headers=headers)] *)
Definition http_get (w : World) (u : string) : M Response :=
  emit (Request u) ;; lift (fetched_result (requests_get w u headers None)).

(** Lines 44 to 61: the record of one quote element. *)
Definition quote_text (quote : node) : string :=
  match select_one sel_text quote with
  | Some text_elem => get_text_strip text_elem
  | None => "No text"
  end.

Definition quote_author (quote : node) : string :=
  match select_one sel_author quote with
  | Some author_elem => get_text_strip author_elem
  | None => "Unknown"
  end.

Definition quote_tags (quote : node) : list string :=
  map get_text_strip (select sel_tag quote).

Definition quote_data (quote : node) (page : nat) : dict :=
  [("text", PStr (quote_text quote));
   ("author", PStr (quote_author quote));
   ("tags", PList (quote_tags quote));
   ("page", PInt page)].

(** Lines 27 to 80: one turn of [while True]. *)
Definition iteration (w : World) : M unit :=
  page <- get_page ;;
  let url := page_url base_url page in
  print ("Scraping page " ++ str page ++ "...") ;;
  except_RequestException
    (response <- http_get w url ;;
     lift (raise_for_status response) ;;
     doc <- lift (parsed_result (html_parser w (text response))) ;;
     let quotes := select sel_quote doc in
     match quotes with
     | [] =>
         print "No more quotes found. Scraping complete!" ;;
         break NoItemsOnPage
     | _ :: _ =>
         for_each quotes (fun quote =>
           append_quote (quote_data quote page) ;;
           print ("  Found quote by " ++ quote_author quote)) ;;
         match select_one sel_next doc with
         | None =>
             print "Reached the last page!" ;;
             break NoNextPage
         | Some next_btn =>
             set_page (page + 1) ;;
             emit (Sleep 500)
         end
     end)
    (fun k msg =>
       page <- get_page ;;
       print ("Error scraping page " ++ str page ++ ": " ++ msg) ;;
       break (FetchFailed k msg)).

(** How a run ends: the function returns after one of the three
    [break]s, or an exception leaves it, or the loop is still running
    when the fuel is spent. *)
Inductive outcome : Type :=
| Returns (r : terminal) (st : state)
| Propagates (e : exn) (st : state)
| Running (st : state).

Fixpoint while_true (fuel : nat) (body : M unit) (st : state) : outcome :=
  match fuel with
  | 0 => Running st
  | S fuel' =>
      match body st with
      | (Normal _, st') => while_true fuel' body st'
      | (Break r, st') => Returns r st'
      | (Raised e, st') => Propagates e st'
      end
  end.

Definition initial_state : state :=
  {| all_quotes := [];
     page := 1;
     trace := [Output "=== Scraping Quotes from quotes.toscrape.com ==="] |}.

(** Line 82, after the loop. *)
Definition completed (st : state) : state :=
  {| all_quotes := all_quotes st;
     page := page st;
     trace := (trace st ++
       [Output (nl ++ "Scraping completed! Total quotes collected: "
                  ++ str (List.length (all_quotes st)))])%list |}.

(** The whole function, with the state it ends in. *)
Definition scrape_quotes_to_scrape_run (w : World) (fuel : nat) : outcome :=
  match while_true fuel (iteration w) initial_state with
  | Returns r st => Returns r (completed st)
  | other => other
  end.

(** What the caller receives: the list [all_quotes], when the function
    returns. *)
Definition scrape_quotes_to_scrape (w : World) (fuel : nat)
  : option (list dict) :=
  match scrape_quotes_to_scrape_run w fuel with
  | Returns _ st => Some (all_quotes st)
  | _ => None
  end.

Definition outcome_state (o : outcome) : state :=
  match o with
  | Returns _ st => st
  | Propagates _ st => st
  | Running st => st
  end.

(** The requests and the printed lines of a trace. *)
Definition requested (tr : list event) : list string :=
  flat_map (fun e => match e with Request u => [u] | _ => [] end) tr.

Definition printed (tr : list event) : list string :=
  flat_map (fun e => match e with Output l => [l] | _ => [] end) tr.

(** *** The site as the loop sees it

    What one turn of the loop finds at page [p]: the request or the
    status check raises, the parser rejects the body, or there is a
    document. *)
Inductive page_view : Type :=
| PageFails (k : request_kind) (msg : string)
| PageRejected (msg : string)
| PageDoc (doc : node).

Definition view (w : World) (p : nat) : page_view :=
  match requests_get w (page_url base_url p) headers None with
  | Fails k msg => PageFails k msg
  | Answer response =>
      match http_error_msg response with
      | Some msg => PageFails HTTPError msg
      | None =>
          match html_parser w (text response) with
          | Rejected msg => PageRejected msg
          | Tree doc => PageDoc doc
          end
      end
  end.

(** The matches of the item selector and of the next-page selector. *)
Definition items (v : page_view) : list node :=
  match v with
  | PageDoc doc => select sel_quote doc
  | _ => []
  end.

Definition next_btn (v : page_view) : option node :=
  match v with
  | PageDoc doc => select_one sel_next doc
  | _ => None
  end.

(** The page has items and a next element: the loop goes on. *)
Definition goes_on (v : page_view) : bool :=
  match items v, next_btn v with
  | _ :: _, Some _ => true
  | _, _ => false
  end.

(** The [break] the page leads to, if any. *)
Definition stop_reason (v : page_view) : option terminal :=
  match v with
  | PageFails k msg => Some (FetchFailed k msg)
  | PageRejected _ => None
  | PageDoc doc =>
      match select sel_quote doc, select_one sel_next doc with
      | [], _ => Some NoItemsOnPage
      | _ :: _, None => Some NoNextPage
      | _ :: _, Some _ => None
      end
  end.

(** The page was fetched and parsed. *)
Definition processed (v : page_view) : bool :=
  match v with PageDoc _ => true | _ => false end.

(** The records of page [p] and the events of its turn. *)
Definition records_of (w : World) (p : nat) : list dict :=
  map (fun quote => quote_data quote p) (items (view w p)).

Definition page_events (w : World) (p : nat) : list event :=
  ([Output ("Scraping page " ++ str p ++ "...");
    Request (page_url base_url p)] ++
   match view w p with
   | PageFails _ msg =>
       [Output ("Error scraping page " ++ str p ++ ": " ++ msg)]
   | PageRejected _ => []
   | PageDoc doc =>
       match select sel_quote doc with
       | [] => [Output "No more quotes found. Scraping complete!"]
       | quotes =>
           map (fun quote => Output ("  Found quote by " ++ quote_author quote))
               quotes ++
           match select_one sel_next doc with
           | None => [Output "Reached the last page!"]
           | Some _ => [Sleep 500]
           end
       end
   end)%list.

(** The state in which the function returns when its loop is left at
    page [n]. *)
Definition final_state (w : World) (n : nat) : state :=
  completed
    {| all_quotes := flat_map (records_of w) (seq 1 n);
       page := n;
       trace := (trace initial_state
                 ++ flat_map (page_events w) (seq 1 n))%list |}.

(** The page number stored in a record. *)
Definition record_page (d : dict) : option nat :=
  match dict_get "page" d with
  | Some (PInt n) => Some n
  | _ => None
  end.

(** The same world with every link target rewritten by [f]. *)
Definition retarget (f : string -> string) (w : World) : World :=
  {| requests_get := requests_get w;
     html_parser := fun markup =>
       match html_parser w markup with
       | Tree doc => Tree (map_href f doc)
       | Rejected msg => Rejected msg
       end |}.

(** *** Notions the proofs are stated with *)

(** One turn of the loop, as a function of what the page holds. *)
Definition flow_of (v : page_view) : flow unit :=
  match stop_reason v with
  | Some r => Break r
  | None =>
      match v with
      | PageRejected msg => Raised (ParserRejectedMarkup msg)
      | _ => Normal tt
      end
  end.

(** The state after one turn of the loop that ends without an
    exception. *)
Definition after_page (w : World) (st : state) : state :=
  {| all_quotes := (all_quotes st ++ records_of w (page st))%list;
     page := if goes_on (view w (page st)) then page st + 1 else page st;
     trace := (trace st ++ page_events w (page st))%list |}.

(** Line 63 *)
Definition found_line (quote : node) : event :=
  Output ("  Found quote by " ++ quote_author quote).

(** The state after the [k] pages from [page st] on, when the page
    counter has moved [m] times. *)
Definition span (w : World) (k m : nat) (st : state) : state :=
  {| all_quotes :=
       (all_quotes st ++ flat_map (records_of w) (seq (page st) k))%list;
     page := page st + m;
     trace :=
       (trace st ++ flat_map (page_events w) (seq (page st) k))%list |}.

(** All [k] pages made the loop go on. *)
Definition advance (w : World) (k : nat) (st : state) : state :=
  span w k k st.

(** The last of [k + 1] pages made it stop. *)
Definition stopped (w : World) (k : nat) (st : state) : state :=
  span w (S k) k st.

(** The page with its link targets rewritten. *)
Definition view_map_href (f : string -> string) (v : page_view) : page_view :=
  match v with
  | PageDoc doc => PageDoc (map_href f doc)
  | _ => v
  end.

(** The number of matches of the item selector on page [p]. *)
Definition item_count (w : World) (p : nat) : nat :=
  List.length (items (view w p)).

(** *** Lines the function prints *)



(** The message of [raise_for_status] when page 2 is not found. *)
Definition not_found_msg : string :=
  "404 Client Error: Not Found for url: http://quotes.toscrape.com/page/2/".

End Practical.

(** ** [scrape_quotes_to_scrape]: the pace of a run *)

Module PracticalNotions.
Import Py Bs4 Requests Practical.
Local Open Scope string_scope.

(** The requests and the pauses of a trace, in order. *)
Definition pace (tr : list event) : list event :=
  filter (fun e => match e with Output _ => false | _ => true end) tr.

(** A request for page [p] and the pause that follows it. *)
Definition paced_request (p : nat) : list event :=
  [Request (page_url base_url p); Sleep 500].

(** The text has no white space at either end: [s.strip() == s]. *)
Definition trimmed (s : string) : Prop := strip s = s.

End PracticalNotions.

(** ** lib/practical_example.py: [analyze_scraped_data] *)

Module Analysis.
Import Py.
Local Open Scope string_scope.

Notation "x <- c ;; k" := (bind c (fun x => k))
  (at level 61, c at next level, right associativity).
Notation "c ;; k" := (bind c (fun _ => k))
  (at level 61, right associativity).

(** [counts[k] = counts.get(k, 0) + 1] on a [dict] in insertion order. *)
Fixpoint count_up {K : Type} (eqb : K -> K -> bool) (k : K)
  (counts : list (K * nat)) : list (K * nat) :=
  match counts with
  | [] => [(k, 1)]
  | (k', n) :: counts' =>
      if eqb k k' then (k', n + 1) :: counts'
      else (k', n) :: count_up eqb k counts'
  end.

(** [sorted(counts.items(), key=lambda x: x[1], reverse=True)] *)
Definition by_count_descending {K : Type} (counts : list (K * nat))
  : list (K * nat) :=
  sort_by (fun a b => (snd b <=? snd a)%nat) counts.

(** Lines 96 to 100 *)
Definition count_authors (quotes : list dict) : Out (list (pyval * nat)) :=
  for_fold quotes [] (fun author_counts quote =>
    author <- lift (item quote "author") ;;
    lift (hashable author) ;;
    ret (count_up pyval_eqb author author_counts)).

(** Lines 107 to 110 *)
Definition collect_tags (quotes : list dict) : Out (list string) :=
  for_fold quotes [] (fun all_tags quote =>
    tags <- lift (item quote "tags") ;;
    elements <- lift (iterate tags) ;;
    ret (all_tags ++ elements)%list).

(** Lines 112 to 115 *)
Definition count_tags (all_tags : list string) : list (string * nat) :=
  fold_left (fun tag_counts tag => count_up String.eqb tag tag_counts)
    all_tags [].

(** Line 123: one triple per quote. *)
Definition measure (quotes : list dict) : Out (list (nat * pyval * pyval)) :=
  for_map quotes (fun quote =>
    text <- lift (item quote "text") ;;
    n <- lift (len text) ;;
    text <- lift (item quote "text") ;;
    author <- lift (item quote "author") ;;
    ret (n, text, author)).

(** Line 124: [quote_lengths.sort(key=lambda x: x[0])] *)
Definition sort_by_length (quote_lengths : list (nat * pyval * pyval))
  : list (nat * pyval * pyval) :=
  sort_by (fun a b => (fst (fst a) <=? fst (fst b))%nat) quote_lengths.

(** Lines 126 to 133: the two extremes and their lines. *)
Definition report_extremes (quote_lengths : list (nat * pyval * pyval))
  : Out unit :=
  shortest <- lift (list_index quote_lengths 0) ;;
  longest <- lift (list_index quote_lengths (-1)) ;;
  print (nl ++ "Shortest quote (" ++ str (fst (fst shortest))
           ++ " chars) by " ++ format (snd shortest) ++ ":") ;;
  print ("  " ++ dquote ++ format (snd (fst shortest)) ++ dquote ++ nl) ;;
  print ("Longest quote (" ++ str (fst (fst longest))
           ++ " chars) by " ++ format (snd longest) ++ ":") ;;
  n <- lift (len (snd (fst longest))) ;;
  if (100 <? n)%nat
  then
    head <- lift (slice_to 100 (snd (fst longest))) ;;
    print ("  " ++ dquote ++ format head ++ "..." ++ dquote)
  else
    print ("  " ++ dquote ++ format (snd (fst longest)) ++ dquote).

Definition analyze_scraped_data (quotes : list dict) : Out unit :=
  print (nl ++ "=== Data Analysis ===") ;;
  match quotes with
  | [] => print "No quotes to analyze!"
  | _ :: _ =>
      author_counts <- count_authors quotes ;;
      print "Top authors by number of quotes:" ;;
      let sorted_authors := by_count_descending author_counts in
      for_each (firstn 5 sorted_authors) (fun '(author, count) =>
        print ("  " ++ format author ++ ": " ++ str count ++ " quotes")) ;;
      all_tags <- collect_tags quotes ;;
      let tag_counts := count_tags all_tags in
      print (nl ++ "Most common tags:") ;;
      let sorted_tags := by_count_descending tag_counts in
      for_each (firstn 10 sorted_tags) (fun '(tag, count) =>
        print ("  " ++ tag ++ ": " ++ str count ++ " times")) ;;
      quote_lengths <- measure quotes ;;
      let quote_lengths := sort_by_length quote_lengths in
      report_extremes quote_lengths
  end.

(** *** Notions the proofs are stated with *)

(** The function does not end in an [IndexError]. *)
Definition in_bounds {A : Type} (o : Out A) : Prop :=
  forall msg, snd o <> Raise (IndexError msg).

End Analysis.

(** ** [analyze_scraped_data]: what its counts and its extremes mean *)

From Stdlib Require Import Sorting.Permutation.

Module AnalysisNotions.
Import Py Analysis.
Local Open Scope string_scope.

(** [counts.get(k, 0)] *)
Fixpoint get_count {K : Type} (eqb : K -> K -> bool) (k : K)
  (counts : list (K * nat)) : nat :=
  match counts with
  | [] => 0
  | (k', n) :: counts' => if eqb k k' then n else get_count eqb k counts'
  end.


(** The author of a quote whose author is a string. *)
Definition author_of (quote : dict) : string :=
  match dict_get "author" quote with
  | Some (PStr a) => a
  | _ => EmptyString
  end.

(** The tags of a quote whose tags are a list, and its text when it is
    a string. *)
Definition tags_of (quote : dict) : list string :=
  match dict_get "tags" quote with
  | Some (PList tags) => tags
  | _ => []
  end.

Definition text_of (quote : dict) : string :=
  match dict_get "text" quote with
  | Some (PStr text) => text
  | _ => EmptyString
  end.

(** The author of the quote is a string. *)
Definition has_author (quote : dict) : Prop :=
  exists a, dict_get "author" quote = Some (PStr a).

(** The entries of a count table that have the count [n]. *)
Definition with_count {K : Type} (n : nat) (counts : list (K * nat))
  : list (K * nat) :=
  filter (fun entry => Nat.eqb (snd entry) n) counts.

(** The triples of [quote_lengths] that have the length [n]. *)
Definition with_length (n : nat) (quote_lengths : list (nat * pyval * pyval))
  : list (nat * pyval * pyval) :=
  filter (fun triple => Nat.eqb (fst (fst triple)) n) quote_lengths.

(** Lines 105 and 120: the line of an author and the line of a tag. *)
Definition author_line (entry : pyval * nat) : string :=
  "  " ++ format (fst entry) ++ ": " ++ str (snd entry) ++ " quotes".

Definition tag_line (entry : string * nat) : string :=
  "  " ++ fst entry ++ ": " ++ str (snd entry) ++ " times".

(** [author_counts] after the loop over quotes that have an author. *)
Definition author_table (quotes : list dict) : list (pyval * nat) :=
  fold_left (fun counts a => count_up pyval_eqb a counts)
    (map (fun quote => PStr (author_of quote)) quotes) [].

(** The header line of the analysis. *)
Definition analysis_header : effect := Printed (nl ++ "=== Data Analysis ===").

End AnalysisNotions.

(** ** lib/scraper.py: [scrape_flatiron_courses] *)

Module Scraper.
Import Py Bs4 Requests.
Local Open Scope string_scope.

Notation "x <- c ;; k" := (bind c (fun x => k))
  (at level 61, c at next level, right associativity).
Notation "c ;; k" := (bind c (fun _ => k))
  (at level 61, right associativity).

Definition headers : Requests.headers := [("user-agent", "my-app/0.0.1")].

Definition courses_url : string := "https://flatironschool.com/our-courses/".

(** Lines 75 to 79: the texts of the elements, the empty and the very
    short ones left out. *)
Definition collect_courses (course_elements : list node) : list string :=
  fold_left
    (fun courses_found element =>
       let text := get_text_strip element in
       if truthy text && (3 <? String.length text)%nat
       then (courses_found ++ [text])%list
       else courses_found)
    course_elements [].

(** [course in unique_courses] *)
Definition member (course : string) (unique_courses : list string) : bool :=
  existsb (String.eqb course) unique_courses.

(** Lines 81 to 85: the removal of duplicates. *)
Definition remove_duplicates (courses_found : list string) : list string :=
  fold_left
    (fun unique_courses course =>
       if negb (member course unique_courses)
       then (unique_courses ++ [course])%list
       else unique_courses)
    courses_found [].

(** Lines 65 to 90: the body of [try]. *)
Definition try_body (w : World) : Out node :=
  html <- lift (fetched_result (requests_get w courses_url headers None)) ;;
  lift (raise_for_status html) ;;
  doc <- lift (parsed_result (html_parser w (text html))) ;;
  let course_elements := select sel_courses doc in
  print ("Found " ++ str (List.length course_elements)
           ++ " course-related elements:") ;;
  let courses_found := collect_courses course_elements in
  let unique_courses := remove_duplicates courses_found in
  for_each (enumerate 0 (firstn 10 unique_courses)) (fun '(i, course) =>
    print (str (i + 1) ++ ". " ++ course)) ;;
  ret doc.

(** The function returns the document, or [None] after a
    [requests.RequestException]. *)
Definition scrape_flatiron_courses (w : World) : Out (option node) :=
  print (nl ++ "=== Scraping Flatiron School Courses ===") ;;
  match try_body w with
  | (lines, Ok doc) => (lines, Ok (Some doc))
  | (lines, Raise (RequestException _ msg)) =>
      (lines, Ok tt) ;;
      print ("Error fetching courses page: " ++ msg) ;;
      ret None
  | (lines, Raise e) => (lines, Raise e)
  end.

(** *** The words of the claim about duplicates

    Each string once, where it first occurs: an element is kept when it
    was not seen before. *)
Fixpoint fresh (seen : list string) (l : list string) : list string :=
  match l with
  | [] => []
  | x :: l' =>
      if member x seen then fresh seen l'
      else x :: fresh (seen ++ [x]) l'
  end.

Definition first_occurrences (l : list string) : list string := fresh [] l.

(** The position of the first occurrence of [x] in [l]. *)
Fixpoint index_of (x : string) (l : list string) : nat :=
  match l with
  | [] => 0
  | y :: l' => if String.eqb x y then 0 else S (index_of x l')
  end.

End Scraper.

(** ** [scrape_flatiron_courses]: the lines of the listing *)

Module ScraperNotions.
Import Py Bs4 Requests Scraper.
Local Open Scope string_scope.

(** Line 88: the line of the [i]-th course, counted from 0. *)
Definition course_line (numbered : nat * string) : string :=
  str (fst numbered + 1) ++ ". " ++ snd numbered.

(** The texts of the elements that are longer than three characters. *)
Definition long_texts (course_elements : list node) : list string :=
  filter (fun text => (3 <? String.length text)%nat)
    (map get_text_strip course_elements).

(** The first two lines of the function when the page was fetched and
    parsed. *)
Definition courses_header : effect :=
  Printed (nl ++ "=== Scraping Flatiron School Courses ===").

Definition found_line (course_elements : list node) : effect :=
  Printed ("Found " ++ str (List.length course_elements)
             ++ " course-related elements:").

End ScraperNotions.

(** ** lib/practical_example.py: [save_data_to_files] *)

Module Save.
Import Py.
Local Open Scope string_scope.

Notation "x <- c ;; k" := (bind c (fun x => k))
  (at level 61, c at next level, right associativity).
Notation "c ;; k" := (bind c (fun _ => k))
  (at level 61, right associativity).

Definition json_filename : string := "quotes.json".
Definition csv_filename : string := "quotes.csv".
Definition txt_filename : string := "quotes_summary.txt".

Definition fieldnames : list string := ["text"; "author"; "tags"; "page"].

(** Lines 146 to 150: [json.dump(quotes, f, indent=2,
    ensure_ascii=False)] *)
Definition save_json (quotes : list dict) : Out unit :=
  open_w json_filename ;;
  write json_filename (Json.dumps (Json.of_records quotes)) ;;
  print ("Saved " ++ str (List.length quotes) ++ " quotes to "
           ++ json_filename).

(** Lines 161 and 162: the copy of the record with its tags joined. *)
Definition csv_quote (quote : dict) : result dict :=
  match item quote "tags" with
  | Raise e => Raise e
  | Ok tags =>
      match join_value ", " tags with
      | Raise e => Raise e
      | Ok joined => Ok (dict_set "tags" (PStr joined) quote)
      end
  end.

(** [writer.writerow(rowdict)] *)
Definition writerow (rowdict : dict) : Out unit :=
  cells <- lift (Csv.dict_to_list fieldnames rowdict) ;;
  write csv_filename (Csv.write_row cells).

(** [writer.writeheader()]: the row of the field names. *)
Definition writeheader : Out unit :=
  write csv_filename (Csv.write_row fieldnames).

(** Lines 152 to 165 *)
Definition save_csv (quotes : list dict) : Out unit :=
  open_w csv_filename ;;
  match quotes with
  | [] => ret tt
  | _ :: _ =>
      writeheader ;;
      for_each quotes (fun quote =>
        row <- lift (csv_quote quote) ;;
        writerow row)
  end ;;
  print ("Saved " ++ str (List.length quotes) ++ " quotes to "
           ++ csv_filename).

(** [authors.add(a)] on a set kept as the list of its elements. *)
Definition set_add (a : pyval) (authors : list pyval) : list pyval :=
  if existsb (pyval_eqb a) authors then authors else (authors ++ [a])%list.

(** Lines 167 to 181 *)
Definition save_summary (quotes : list dict) : Out unit :=
  open_w txt_filename ;;
  write txt_filename ("QUOTES COLLECTION SUMMARY" ++ nl) ;;
  write txt_filename (repeat_string "=" 30 ++ nl ++ nl) ;;
  write txt_filename ("Total quotes: " ++ str (List.length quotes) ++ nl) ;;
  authors <- for_fold quotes [] (fun authors quote =>
    author <- lift (item quote "author") ;;
    lift (hashable author) ;;
    ret (set_add author authors)) ;;
  write txt_filename
    ("Unique authors: " ++ str (List.length authors) ++ nl ++ nl) ;;
  write txt_filename ("Sample quotes:" ++ nl) ;;
  for_each (enumerate 1 (firstn 5 quotes)) (fun '(i, quote) =>
    text <- lift (item quote "text") ;;
    author <- lift (item quote "author") ;;
    write txt_filename
      (str i ++ ". " ++ dquote ++ format text ++ dquote ++ " - "
         ++ format author ++ nl)) ;;
  print ("Saved summary to " ++ txt_filename).

Definition save_data_to_files (quotes : list dict) : Out unit :=
  print (nl ++ "=== Saving Data ===") ;;
  match quotes with
  | [] => print "No quotes to save!"
  | _ :: _ =>
      save_json quotes ;;
      save_csv quotes ;;
      save_summary quotes
  end.

(** *** Reading the files back *)

(** [json.load(f)] on the content of a file, as a list of records. *)
Definition load_json (content : string) : option (list dict) :=
  match Json.loads content with
  | Some v => Json.to_records v
  | None => None
  end.

(** A record as [scrape_quotes_to_scrape] builds it. *)
Definition record (text author : string) (tags : list string) (page : nat)
  : dict :=
  [("text", PStr text); ("author", PStr author); ("tags", PList tags);
   ("page", PInt page)].

Definition is_record (d : dict) : Prop :=
  exists text author tags page, d = record text author tags page.

(** The row of a record in the CSV file, as [csv.DictReader] gives it. *)
Definition csv_dict (d : dict) : list (string * string) :=
  map (fun key =>
         (key,
          match key, dict_get key d with
          | "tags", Some (PList tags) => join ", " tags
          | _, v => Csv.cell v
          end)) fieldnames.

Definition csv_cells (d : dict) : list string := map snd (csv_dict d).

(** The effect touches the file. *)
Definition touches (file : string) (e : effect) : bool :=
  match e with
  | Opened f => String.eqb f file
  | Written f _ => String.eqb f file
  | Printed _ => false
  end.

(** The effects of the JSON and the CSV stage on a list of records. *)
Definition saved_effects (quotes : list dict) : list effect :=
  ([Printed (nl ++ "=== Saving Data ===");
    Opened json_filename;
    Written json_filename (Json.dumps (Json.of_records quotes));
    Printed ("Saved " ++ str (List.length quotes) ++ " quotes to "
               ++ json_filename);
    Opened csv_filename]
   ++ map (Written csv_filename)
        (map Csv.write_row (fieldnames :: map csv_cells quotes))
   ++ [Printed ("Saved " ++ str (List.length quotes) ++ " quotes to "
                  ++ csv_filename)])%list.

(** A stage that ends well and whose effects all satisfy [P]. *)
Definition calm {A : Type} (P : effect -> Prop) (o : Out A) : Prop :=
  (exists a, snd o = Ok a) /\ Forall P (fst o).

(** The effect leaves the JSON and the CSV file alone. *)
Definition aside (e : effect) : Prop :=
  touches json_filename e = false /\ touches csv_filename e = false.

(** *** Notions the proofs are stated with *)

Definition write_step (file : string) (content : option string) (e : effect)
  : option string :=
  match e, content with
  | Opened f, _ => if String.eqb f file then Some EmptyString else content
  | Written f chunk, Some c =>
      if String.eqb f file then Some (c ++ chunk) else content
  | _, _ => content
  end.

End Save.

(** ** [save_data_to_files]: the text of the summary *)

Module SaveNotions.
Import Py Save AnalysisNotions.
Local Open Scope string_scope.

(** Line 179: the line of the [i]-th sample. *)
Definition sample_line (sample : nat * dict) : string :=
  str (fst sample) ++ ". " ++ dquote ++ text_of (snd sample) ++ dquote
    ++ " - " ++ author_of (snd sample) ++ nl.

(** What lines 170 to 179 write, piece by piece. *)
Definition summary_head (quotes : list dict) : list string :=
  ["QUOTES COLLECTION SUMMARY" ++ nl;
   repeat_string "=" 30 ++ nl ++ nl;
   "Total quotes: " ++ str (List.length quotes) ++ nl;
   "Unique authors: "
     ++ str (List.length (nodup string_dec (map author_of quotes)))
     ++ nl ++ nl;
   "Sample quotes:" ++ nl].

Definition summary_chunks (quotes : list dict) : list string :=
  app (summary_head quotes)
    (map sample_line (enumerate 1 (firstn 5 quotes))).

(** The summary of a list of records: its title, the two counts and the
    first five quotes. *)
Definition summary_text (quotes : list dict) : string :=
  "QUOTES COLLECTION SUMMARY" ++ nl
    ++ repeat_string "=" 30 ++ nl ++ nl
    ++ "Total quotes: " ++ str (List.length quotes) ++ nl
    ++ "Unique authors: "
    ++ str (List.length (nodup string_dec (map author_of quotes)))
    ++ nl ++ nl
    ++ "Sample quotes:" ++ nl
    ++ String.concat EmptyString
         (map sample_line (enumerate 1 (firstn 5 quotes))).

(** The header line of the function. *)
Definition saving_header : effect := Printed (nl ++ "=== Saving Data ===").

End SaveNotions.

(** ** lib/advanced_examples.py: [scrape_with_error_handling] *)

Module Advanced.
Import Py Bs4 Requests.
Local Open Scope string_scope.

Section ErrorHandling.

(** The two marks the lines carry (a check mark and a cross), which lie
    outside the characters of the model. *)
Variables (check_mark cross_mark : string).

Definition urls_to_try : list string :=
  ["https://httpbin.org/html";
   "https://httpbin.org/status/404";
   "https://this-domain-does-not-exist.invalid"].

Definition headers : Requests.headers := [("user-agent", "my-app/0.0.1")].

Definition bind {A B : Type} (r : result A) (k : A -> result B) : result B :=
  match r with
  | Ok a => k a
  | Raise e => Raise e
  end.

(** Lines 162 to 173: the body of [try], which gives the line of the
    success. *)
Definition try_body (w : World) (url : string) : result string :=
  bind (fetched_result (requests_get w url headers (Some 10)))
    (fun response =>
  bind (raise_for_status response) (fun _ =>
  bind (parsed_result (html_parser w (text response))) (fun doc =>
    let title := find "title" doc in
    let title_text :=
      match title with
      | Some t => get_text_strip t
      | None => "No title"
      end in
    let paragraphs := find_all "p" doc in
    Ok ("  " ++ check_mark ++ " Success! Title: '" ++ title_text
          ++ "', Paragraphs: " ++ str (List.length paragraphs))))).

(** Lines 175 to 188: the [except] clauses, in their order. *)
Definition handler (e : exn) : string :=
  match e with
  | RequestException Timeout _ =>
      "  " ++ cross_mark ++ " Timeout - The request took too long"
  | RequestException ConnectionError _ =>
      "  " ++ cross_mark
           ++ " Connection Error - Could not connect to the server"
  | RequestException HTTPError msg =>
      "  " ++ cross_mark ++ " HTTP Error - " ++ msg
  | RequestException OtherRequestError msg =>
      "  " ++ cross_mark ++ " Request Error - " ++ msg
  | other =>
      "  " ++ cross_mark ++ " Unexpected Error - " ++ exn_str other
  end.

(** One turn of the loop over the URLs: the two lines it prints. *)
Definition try_url (w : World) (url : string) : list string :=
  [nl ++ "Trying to scrape: " ++ url;
   match try_body w url with
   | Ok line => line
   | Raise e => handler e
   end].

(** The function: the lines it prints.  It returns nothing, goes on to
    the next URL after a failure, and keeps no record. *)
Definition scrape_with_error_handling (w : World) : list string :=
  (nl ++ "=== Error Handling Examples ===")
    :: flat_map (try_url w) urls_to_try.

End ErrorHandling.

End Advanced.

(** ** lib/practical_example.py: [scrape_with_session] *)

Module Session.
Import Py Bs4 Requests.
Local Open Scope string_scope.

(** What the function does to the outside: the lines it prints, the
    requests it makes through the session, and the closing of the
    session. *)
Inductive event : Type :=
| Output (line : string)
| Get (url : string)
| Close.

Definition urls_to_test : list string :=
  ["http://quotes.toscrape.com/";
   "http://quotes.toscrape.com/page/2/";
   "http://quotes.toscrape.com/random"].

(** [session.headers.update({'user-agent': 'learning-scraper/1.0'})] *)
Definition session_headers : Requests.headers :=
  [("user-agent", "learning-scraper/1.0")].

(** Lines 202 to 211: the body of [try], which gives the line of the
    URL. *)
Definition try_body (w : World) (url : string) : result string :=
  match fetched_result (requests_get w url session_headers None) with
  | Raise e => Raise e
  | Ok response =>
      match raise_for_status response with
      | Raise e => Raise e
      | Ok _ =>
          match parsed_result (html_parser w (text response)) with
          | Raise e => Raise e
          | Ok doc =>
              let quotes := select sel_quote doc in
              Ok ("  " ++ url ++ ": " ++ str (List.length quotes)
                    ++ " quotes found")
          end
      end
  end.

(** Lines 201 to 214: one turn of the loop, with the handler of
    [requests.RequestException]; any other exception leaves the loop. *)
Definition turn (w : World) (url : string) : list event * result unit :=
  match try_body w url with
  | Ok line => ([Get url; Output line], Ok tt)
  | Raise (RequestException _ msg) =>
      ([Get url; Output ("  " ++ url ++ ": Error - " ++ msg)], Ok tt)
  | Raise e => ([Get url], Raise e)
  end.

(** [for url in urls: ...] *)
Fixpoint loop (w : World) (urls : list string) : list event * result unit :=
  match urls with
  | [] => ([], Ok tt)
  | url :: urls' =>
      match turn w url with
      | (events, Ok _) =>
          let (events', r) := loop w urls' in ((events ++ events')%list, r)
      | (events, Raise e) => (events, Raise e)
      end
  end.

(** The function: the header, the loop and, when the loop ends, the
    closing of the session (line 217, outside any [finally]). *)
Definition scrape_with_session (w : World) : list event * result unit :=
  match loop w urls_to_test with
  | (events, Ok _) =>
      ((Output (nl ++ "=== Using Session for Efficient Scraping ===")
          :: events ++ [Close])%list, Ok tt)
  | (events, Raise e) =>
      (Output (nl ++ "=== Using Session for Efficient Scraping ===")
         :: events, Raise e)
  end.

(** The requests of a run, and whether the session was closed. *)
Definition requested (events : list event) : list string :=
  flat_map (fun e => match e with Get url => [url] | _ => [] end) events.

Definition printed (events : list event) : list string :=
  flat_map (fun e => match e with Output line => [line] | _ => [] end)
    events.

Definition closed (events : list event) : bool :=
  existsb (fun e => match e with Close => true | _ => false end) events.

(** The parser rejects what the site serves at [url]. *)
Definition rejected (w : World) (url : string) (msg : string) : Prop :=
  exists response,
    requests_get w url session_headers None = Answer response
    /\ http_error_msg response = None
    /\ html_parser w (text response) = Rejected msg.

(** The parser takes what the site serves at [url], if anything. *)
Definition parses (w : World) (url : string) : Prop :=
  forall response,
    requests_get w url session_headers None = Answer response ->
    http_error_msg response = None ->
    exists doc, html_parser w (text response) = Tree doc.

End Session.

(** ** lib/practical_example.py: [demonstrate_link_extraction] *)

Module LinkDemo.
Import Py Bs4 Requests.
Local Open Scope string_scope.

Notation "x <- c ;; k" := (bind c (fun x => k))
  (at level 61, c at next level, right associativity).
Notation "c ;; k" := (bind c (fun _ => k))
  (at level 61, right associativity).

Definition home_url : string := "http://quotes.toscrape.com/".
Definition base_url : string := "http://quotes.toscrape.com".
Definition headers : Requests.headers :=
  [("user-agent", "learning-scraper/1.0")].

(** [doc.select('a[href]')]: the tags named [a] that have the attribute
    [href], in document order. *)
Definition is_link (n : node) : bool :=
  is_tag n && String.eqb "a" (tag_name n)
  && match get "href" n with Some _ => true | None => false end.

Definition select_links (doc : node) : list node :=
  filter is_link (descendants doc).

Section Urljoin.

(** [urllib.parse.urljoin] on two strings: it gives an address, or it
    raises (a [ValueError] on a reference such as [http://[], which is
    no valid address).  Nothing else is assumed of it. *)
Variable urljoin : string -> string -> result string.

(** [urljoin(base_url, href)] for what [link.get('href')] gives.  A
    reference that is false (nothing, or an empty list) gives the base;
    a list that is not empty is refused; a string goes to [urljoin],
    which may raise. *)
Definition resolve (href : option attr_value) : result string :=
  match href with
  | Some (AStr s) => urljoin base_url s
  | Some (AList []) => Ok base_url
  | None => Ok base_url
  | Some (AList (_ :: _)) =>
      Raise (TypeError "Cannot mix str and non-str arguments")
  end.

(** Line 249 *)
Definition link_line (shown : string * string) : string :=
  "  '" ++ fst shown ++ "' -> " ++ snd shown.

(** Lines 240 to 249: one turn of the loop over the links. *)
Definition visit (unique_links : list string) (link : node)
  : Out (list string) :=
  let href := get "href" link in
  let text := get_text_strip link in
  full_url <- lift (resolve href) ;;
  if negb (existsb (String.eqb full_url) unique_links)
  then
    print (link_line (text, full_url)) ;;
    ret (unique_links ++ [full_url])%list
  else ret unique_links.

(** Lines 228 to 251: the body of [try]. *)
Definition try_body (w : World) : Out unit :=
  response <- lift (fetched_result (requests_get w home_url headers None)) ;;
  lift (raise_for_status response) ;;
  doc <- lift (parsed_result (html_parser w (text response))) ;;
  let links := select_links doc in
  print ("Found " ++ str (List.length links) ++ " links:") ;;
  unique_links <- for_fold links [] visit ;;
  print (nl ++ "Total unique links: " ++ str (List.length unique_links)).

Definition demonstrate_link_extraction (w : World) : Out unit :=
  print (nl ++ "=== Link Extraction Demo ===") ;;
  match try_body w with
  | (lines, Raise (RequestException _ msg)) =>
      (lines, Ok tt) ;;
      print ("Error extracting links: " ++ msg)
  | other => other
  end.

(** *** What the listing shows

    The resolved address of a link, when the resolution returns, and the
    link with its text. *)
Definition address_of (link : node) : string :=
  match resolve (get "href" link) with
  | Ok address => address
  | Raise _ => EmptyString
  end.

Definition link_pair (link : node) : string * string :=
  (get_text_strip link, address_of link).

(** The address of the link can be resolved: [urljoin] returns. *)
Definition resolves (link : node) : Prop :=
  exists address, resolve (get "href" link) = Ok address.

(** The pairs whose address was not seen before. *)
Fixpoint first_by_address (seen : list string)
  (pairs : list (string * string)) : list (string * string) :=
  match pairs with
  | [] => []
  | entry :: pairs' =>
      if existsb (String.eqb (snd entry)) seen
      then first_by_address seen pairs'
      else entry :: first_by_address (seen ++ [snd entry]) pairs'
  end.

End Urljoin.

(** The handler of the function catches the exception. *)
Definition caught (e : exn) : bool :=
  match e with
  | RequestException _ _ => true
  | _ => false
  end.

End LinkDemo.

(** ** lib/scraper.py: [scrape_flatiron_homepage],
    [demonstrate_beautiful_soup_methods], [scrape_example_site], [main] *)

Module Homepage.
Import Py Bs4 Requests.
Local Open Scope string_scope.

Notation "x <- c ;; k" := (bind c (fun x => k))
  (at level 61, c at next level, right associativity).
Notation "c ;; k" := (bind c (fun _ => k))
  (at level 61, right associativity).

Definition homepage_url : string := "https://flatironschool.com/".
Definition example_url : string := "http://httpbin.org/html".

(** *** Queries *)

(** [doc.select('h1, h2, h3')], [doc.select('a')], [doc.select('p')] *)
Definition sel_headings : selector := [ByName "h1"; ByName "h2"; ByName "h3"].
Definition sel_a : selector := [ByName "a"].
Definition sel_p : selector := [ByName "p"].

Definition named (name : string) (n : node) : bool :=
  is_tag n && String.eqb name (tag_name n).

(** [doc.select('nav a')]: the tags named [a] that lie below a tag named
    [nav], in document order.  [inside] says that the node lies below
    such a tag. *)
Fixpoint nav_a (inside : bool) (n : node) : list node :=
  match n with
  | NavigableString _ => []
  | Tag _ _ cs =>
      (fix go (l : list node) : list node :=
         match l with
         | [] => []
         | c :: l' =>
             ((if inside && named "a" c then [c] else [])
                ++ nav_a (inside || named "nav" c) c ++ go l')%list
         end) cs
  end.

Definition select_nav_a (doc : node) : list node := nav_a false doc.

(** [doc.select('[class]')], [doc.select('[id]')]: the tags that have
    the attribute. *)
Definition has_attr (a : string) (n : node) : bool :=
  is_tag n && match get a n with Some _ => true | None => false end.

Definition select_attr (a : string) (doc : node) : list node :=
  filter (has_attr a) (descendants doc).

(** [link.get('href', '')], and its truth value and its text in an
    f-string. *)
Definition get_or_empty (a : string) (n : node) : attr_value :=
  match get a n with
  | Some v => v
  | None => AStr EmptyString
  end.

Definition attr_truthy (v : attr_value) : bool :=
  match v with
  | AStr s => truthy s
  | AList [] => false
  | AList (_ :: _) => true
  end.

Definition attr_format (v : attr_value) : string :=
  match v with
  | AStr s => s
  | AList l => format (PList l)
  end.

(** Every node below [n] with its parent, in document order. *)
Fixpoint with_parent (n : node) : list (node * node) :=
  match n with
  | NavigableString _ => []
  | Tag _ _ cs =>
      (fix go (l : list node) : list (node * node) :=
         match l with
         | [] => []
         | c :: l' => ((n, c) :: with_parent c ++ go l')%list
         end) cs
  end.

(** [doc.find(name)], with the parent of what is found. *)
Definition find_with_parent (name : string) (doc : node)
  : option (node * node) :=
  hd_error (filter (fun pc => matches [ByName name] (snd pc))
              (with_parent doc)).

(** [tag.children], as a list. *)
Definition children (n : node) : list node :=
  match n with
  | Tag _ _ cs => cs
  | NavigableString _ => []
  end.

(** [tag.attrs] in an f-string: the [repr] of the dictionary. *)
Definition attr_repr (kv : string * attr_value) : string :=
  repr (fst kv) ++ ": "
    ++ match snd kv with
       | AStr s => repr s
       | AList l => format (PList l)
       end.

Definition attrs_of (n : node) : list (string * attr_value) :=
  match n with
  | Tag _ attrs _ => attrs
  | NavigableString _ => []
  end.

Definition attrs_repr (n : node) : string :=
  "{" ++ join ", " (map attr_repr (attrs_of n)) ++ "}".

(** [tag.string]: the string of a tag that holds one string, directly or
    through tags that hold one child each. *)
Fixpoint string_of (n : node) : option string :=
  match n with
  | NavigableString s => Some s
  | Tag _ _ [c] => string_of c
  | Tag _ _ _ => None
  end.

(** *** [scrape_flatiron_homepage] *)

(** Lines 31 to 34 *)
Definition show_heading (numbered : nat * node) : Out unit :=
  let (i, heading) := numbered in
  let text := get_text_strip heading in
  if truthy text
  then print (str (i + 1) ++ ". " ++ tag_name heading ++ ": " ++ text)
  else ret tt.

(** Lines 41 to 45 *)
Definition show_nav_link (numbered : nat * node) : Out unit :=
  let (i, link) := numbered in
  let text := get_text_strip link in
  let href := get_or_empty "href" link in
  if truthy text && attr_truthy href
  then print (str (i + 1) ++ ". " ++ text ++ " -> " ++ attr_format href)
  else ret tt.

(** Lines 17 to 47: the body of [try]. *)
Definition homepage_body (w : World) : Out node :=
  html <- lift (fetched_result
                  (requests_get w homepage_url Scraper.headers None)) ;;
  lift (raise_for_status html) ;;
  doc <- lift (parsed_result (html_parser w (text html))) ;;
  print ("Successfully retrieved HTML content ("
           ++ str (String.length (text html)) ++ " characters)") ;;
  let headings := select sel_headings doc in
  match headings with
  | [] => ret tt
  | _ :: _ =>
      print (nl ++ "Found " ++ str (List.length headings) ++ " headings:") ;;
      for_each (enumerate 0 (firstn 5 headings)) show_heading
  end ;;
  let nav_links := select_nav_a doc in
  match nav_links with
  | [] => ret tt
  | _ :: _ =>
      print (nl ++ "Found " ++ str (List.length nav_links)
               ++ " navigation links:") ;;
      for_each (enumerate 0 (firstn 10 nav_links)) show_nav_link
  end ;;
  ret doc.

(** [try: ... except requests.RequestException as e: print(...)], the
    handler giving [fallback]. *)
Definition except_RequestException {A : Type} (body : Out A)
  (line : string -> string) (fallback : A) : Out A :=
  match body with
  | (lines, Raise (RequestException _ msg)) =>
      (lines, Ok tt) ;; print (line msg) ;; ret fallback
  | other => other
  end.

Definition scrape_flatiron_homepage (w : World) : Out (option node) :=
  print "=== Scraping Flatiron School Homepage ===" ;;
  except_RequestException
    (doc <- homepage_body w ;; ret (Some doc))
    (fun msg => "Error fetching webpage: " ++ msg)
    None.

(** *** [demonstrate_beautiful_soup_methods] *)

(** Line 108: [doc.find('h1') or doc.find('h2') or doc.find('h3')] *)
Definition first_heading (doc : node) : option (node * node) :=
  match find_with_parent "h1" doc with
  | Some found => Some found
  | None =>
      match find_with_parent "h2" doc with
      | Some found => Some found
      | None => find_with_parent "h3" doc
      end
  end.

(** Lines 111 to 122 *)
Definition analyse_heading (found : node * node) : Out unit :=
  let (parent, first_heading) := found in
  print (nl ++ "First heading analysis:") ;;
  print ("Tag name: " ++ tag_name first_heading) ;;
  print ("Attributes: " ++ attrs_repr first_heading) ;;
  print ("Text content: '" ++ get_text_strip first_heading ++ "'") ;;
  print ("Parent tag: " ++ tag_name parent) ;;
  print ("Number of children: "
           ++ str (List.length (children first_heading))).

Definition demonstrate_beautiful_soup_methods (doc : option node)
  : Out unit :=
  match doc with
  | None => print "No document to analyze"
  | Some doc =>
      print (nl ++ "=== Beautiful Soup Methods Demonstration ===") ;;
      match first_heading doc with
      | Some found => analyse_heading found
      | None => ret tt
      end ;;
      print (nl ++ "Selector examples:") ;;
      print ("Total links found: "
               ++ str (List.length (select sel_a doc))) ;;
      print ("Elements with classes: "
               ++ str (List.length (select_attr "class" doc))) ;;
      print ("Elements with IDs: "
               ++ str (List.length (select_attr "id" doc)))
  end.

(** *** [scrape_example_site] *)

(** Line 157: [doc.title.string if doc.title else 'No title found'] in
    an f-string. *)
Definition page_title (doc : node) : string :=
  match find "title" doc with
  | Some title =>
      match string_of title with
      | Some s => s
      | None => "None"
      end
  | None => "No title found"
  end.

(** Lines 162 to 165 *)
Definition show_paragraph (numbered : nat * node) : Out unit :=
  let (i, p) := numbered in
  let text := get_text_strip p in
  if truthy text then print (str (i + 1) ++ ". " ++ text) else ret tt.

(** Lines 170 to 173 *)
Definition show_link (numbered : nat * node) : Out unit :=
  let (i, link) := numbered in
  let text := get_text_strip link in
  let href := get_or_empty "href" link in
  print (str (i + 1) ++ ". '" ++ text ++ "' -> " ++ attr_format href).

(** Lines 151 to 173: the body of [try]. *)
Definition example_body (w : World) : Out unit :=
  html <- lift (fetched_result
                  (requests_get w example_url Scraper.headers None)) ;;
  lift (raise_for_status html) ;;
  doc <- lift (parsed_result (html_parser w (text html))) ;;
  print "Successfully scraped httpbin.org/html" ;;
  print ("Page title: " ++ page_title doc) ;;
  let paragraphs := select sel_p doc in
  print (nl ++ "Found " ++ str (List.length paragraphs) ++ " paragraphs:") ;;
  for_each (enumerate 0 paragraphs) show_paragraph ;;
  let links := select sel_a doc in
  print (nl ++ "Found " ++ str (List.length links) ++ " links:") ;;
  for_each (enumerate 0 links) show_link.

Definition scrape_example_site (w : World) : Out unit :=
  print (nl ++ "=== Scraping Example Site (httpbin.org) ===") ;;
  except_RequestException (example_body w)
    (fun msg => "Error fetching example site: " ++ msg) tt.

(** *** [main] *)

Definition takeaways : list string :=
  [nl ++ repeat_string "=" 50;
   "Scraping demonstration completed!";
   nl ++ "Key takeaways:";
   "- Use requests.get() to fetch HTML content";
   "- Use BeautifulSoup() to parse HTML into a navigable structure";
   "- Use CSS selectors with .select() to find specific elements";
   "- Use .get_text() to extract text content from elements";
   "- Use .get() to extract attribute values";
   "- Always handle potential errors with try/except blocks"].

Definition main (w : World) : Out unit :=
  print "Web Scraping with Beautiful Soup - Demonstration" ;;
  print (repeat_string "=" 50) ;;
  doc <- scrape_flatiron_homepage w ;;
  demonstrate_beautiful_soup_methods doc ;;
  Scraper.scrape_flatiron_courses w ;;
  scrape_example_site w ;;
  for_each takeaways print.

(** *** Notions the facts are stated with *)

(** The request for [url] raises a [requests.RequestException] with the
    message [msg]: it fails, or the status of the answer is an error. *)
Definition unreachable (w : World) (url msg : string) : Prop :=
  (exists k, requests_get w url Scraper.headers None = Fails k msg)
  \/ (exists response,
        requests_get w url Scraper.headers None = Answer response
        /\ http_error_msg response = Some msg).

(** What [main] prints when none of its three pages can be fetched. *)
Definition offline_lines (m1 m2 m3 : string) : list string :=
  ["Web Scraping with Beautiful Soup - Demonstration";
   repeat_string "=" 50;
   "=== Scraping Flatiron School Homepage ===";
   "Error fetching webpage: " ++ m1;
   "No document to analyze";
   nl ++ "=== Scraping Flatiron School Courses ===";
   "Error fetching courses page: " ++ m2;
   nl ++ "=== Scraping Example Site (httpbin.org) ===";
   "Error fetching example site: " ++ m3].

(** The example page is fetched and parsed as [doc]. *)
Definition serves (w : World) (url : string) (doc : node) : Prop :=
  exists response,
    requests_get w url Scraper.headers None = Answer response
    /\ http_error_msg response = None
    /\ html_parser w (text response) = Tree doc.

End Homepage.

(** ** lib/practical_example.py: [main] *)

Module PracticalMain.
Import Py Bs4 Requests.
Local Open Scope string_scope.

(** What [main] does to the outside: the events of the scraper, the
    effects of the analysis, of the sinks and of the link demonstration,
    and the events of the session demonstration. *)
Inductive event : Type :=
| Scraping (e : Practical.event)
| Effect (e : effect)
| InSession (e : Session.event).

Definition Run (A : Type) : Type := list event * result A.

Definition effects {A : Type} (o : Out A) : Run A :=
  (map Effect (fst o), snd o).

Definition in_session (o : list Session.event * result unit) : Run unit :=
  (map InSession (fst o), snd o).

(** One statement after another: an exception ends the run. *)
Definition and_then {A B : Type} (c : Run A) (k : A -> Run B) : Run B :=
  match c with
  | (events, Ok a) =>
      let (events', r) := k a in ((events ++ events')%list, r)
  | (events, Raise e) => (events, Raise e)
  end.

Definition opening_lines : list string :=
  ["Practical Web Scraping Example"; repeat_string "=" 50].

Definition closing_lines : list string :=
  [nl ++ repeat_string "=" 50;
   "Practical scraping example completed!";
   nl ++ "Best practices demonstrated:";
   "- Respectful scraping with delays between requests";
   "- Proper error handling for network issues";
   "- Data validation and cleaning";
   "- Multiple output formats (JSON, CSV, TXT)";
   "- Using sessions for efficiency";
   "- Handling relative vs absolute URLs";
   "- Pagination handling";
   "- Data analysis and insights"].

Section Urljoin.

Variable urljoin : string -> string -> result string.

(** What follows the scraper, given the list it returned. *)
Definition after_scraping (w : World) (quotes : list dict) : Run unit :=
  and_then (effects (Analysis.analyze_scraped_data quotes)) (fun _ =>
  and_then (effects (Save.save_data_to_files quotes)) (fun _ =>
  and_then (in_session (Session.scrape_with_session w)) (fun _ =>
  and_then (effects (LinkDemo.demonstrate_link_extraction urljoin w))
    (fun _ =>
  effects (for_each closing_lines print))))).

(** [main], with the fuel of the pagination loop; [None] when the fuel
    is spent before the loop is left. *)
Definition main (w : World) (fuel : nat) : option (Run unit) :=
  match Practical.scrape_quotes_to_scrape_run w fuel with
  | Practical.Running _ => None
  | Practical.Propagates e st =>
      Some ((map Effect (map Printed opening_lines)
               ++ map Scraping (Practical.trace st))%list, Raise e)
  | Practical.Returns _ st =>
      Some (and_then
              ((map Effect (map Printed opening_lines)
                  ++ map Scraping (Practical.trace st))%list, Ok tt)
              (fun _ => after_scraping w (Practical.all_quotes st)))
  end.

End Urljoin.

(** The effects on files and on the terminal among the events. *)
Definition effects_of (events : list event) : list effect :=
  flat_map (fun e => match e with Effect x => [x] | _ => [] end) events.

(** The effect is a printed line. *)
Definition is_printed (e : effect) : Prop := exists line, e = Printed line.

End PracticalMain.

(** ** lib/advanced_examples.py: [demonstrate_iterating_elements] *)

Module Iterating.
Import Py Bs4 Requests.
Local Open Scope string_scope.

(** The exceptions of this function: the parser rejects the markup, or
    an attribute is looked up on a value that has none of that name. *)
Inductive error : Type :=
| MarkupRejected (msg : string)
| AttributeError (msg : string).

(** How a part of the function ends. *)
Inductive ended (A : Type) : Type :=
| Done (a : A)
| Failed (e : error).
Arguments Done {A} a.
Arguments Failed {A} e.

(** The lines printed, and how the part ended. *)
Definition Run (A : Type) : Type := list string * ended A.

Definition ret {A : Type} (a : A) : Run A := ([], Done a).

Definition bind {A B : Type} (c : Run A) (k : A -> Run B) : Run B :=
  match c with
  | (lines, Done a) => let (lines', r) := k a in ((lines ++ lines')%list, r)
  | (lines, Failed e) => (lines, Failed e)
  end.

Notation "x <- c ;; k" := (bind c (fun x => k))
  (at level 61, c at next level, right associativity).
Notation "c ;; k" := (bind c (fun _ => k))
  (at level 61, right associativity).

Definition print (line : string) : Run unit := ([line], Done tt).

Definition fail {A : Type} (e : error) : Run A := ([], Failed e).

Fixpoint for_each {A : Type} (l : list A) (f : A -> Run unit) : Run unit :=
  match l with
  | [] => ret tt
  | x :: l' => f x ;; for_each l' f
  end.

(** The markup of lines 197 to 215, line by line; [q] is the double
    quote. *)
Definition q : string := dquote.

Definition sample_lines : list string :=
  [EmptyString;
   "    <div class=" ++ q ++ "course-catalog" ++ q ++ ">";
   "        <div class=" ++ q ++ "course" ++ q ++ " data-level=" ++ q
     ++ "beginner" ++ q ++ ">";
   "            <h3>Python Basics</h3>";
   "            <p class=" ++ q ++ "duration" ++ q ++ ">4 weeks</p>";
   "            <span class=" ++ q ++ "price" ++ q ++ ">$299</span>";
   "        </div>";
   "        <div class=" ++ q ++ "course" ++ q ++ " data-level=" ++ q
     ++ "intermediate" ++ q ++ ">";
   "            <h3>Web Development</h3>";
   "            <p class=" ++ q ++ "duration" ++ q ++ ">8 weeks</p>";
   "            <span class=" ++ q ++ "price" ++ q ++ ">$599</span>";
   "        </div>";
   "        <div class=" ++ q ++ "course" ++ q ++ " data-level=" ++ q
     ++ "advanced" ++ q ++ ">";
   "            <h3>Machine Learning</h3>";
   "            <p class=" ++ q ++ "duration" ++ q ++ ">12 weeks</p>";
   "            <span class=" ++ q ++ "price" ++ q ++ ">$899</span>";
   "        </div>";
   "    </div>";
   "    "].

Definition sample_html : string := join nl sample_lines.

Definition sel_course : selector := [ByClass "course"].

(** [course.find('h3').get_text(strip=True)]: [find] gives [None] when
    the course holds no [h3]. *)
Definition title_of (course : node) : Run string :=
  match find "h3" course with
  | Some h3 => ret (get_text_strip h3)
  | None =>
      fail (AttributeError "'NoneType' object has no attribute 'get_text'")
  end.

(** The dictionary of lines 244 to 249. *)
Record course_info : Type := {
  title : string;
  duration : string;
  price : string;
  level : attr_value
}.

(** Lines 235 to 249: [find] takes the name of a tag, so that
    ['.duration'] and ['.price'] are looked up as names. *)
Definition info_of (course : node) : course_info :=
  let title_elem := find "h3" course in
  let duration_elem := find ".duration" course in
  let price_elem := find ".price" course in
  {| title := match title_elem with
              | Some e => get_text_strip e
              | None => "No title"
              end;
     duration := match duration_elem with
                 | Some e => get_text_strip e
                 | None => "Duration not specified"
                 end;
     price := match price_elem with
              | Some e => get_text_strip e
              | None => "Price not listed"
              end;
     level := match get "data-level" course with
              | Some v => v
              | None => AStr "Not specified"
              end |}.

Section Text.

(** The mark the lines of the courses carry (an open book), which lies
    outside the characters of the model, and [str.title]. *)
Variable books_mark : string.
Variable title_case : string -> string.

(** [course['level'].title()] *)
Definition level_title (v : attr_value) : Run string :=
  match v with
  | AStr s => ret (title_case s)
  | AList _ =>
      fail (AttributeError "'list' object has no attribute 'title'")
  end.

(** Lines 253 to 258 *)
Definition show_info (course : course_info) : Run unit :=
  print ("   " ++ books_mark ++ " " ++ title course) ;;
  shown <- level_title (level course) ;;
  print ("      Level: " ++ shown) ;;
  print ("      Duration: " ++ duration course) ;;
  print ("      Price: " ++ price course) ;;
  print EmptyString.

(** Lines 225 to 227 *)
Definition show_title (numbered : nat * node) : Run unit :=
  let (i, course) := numbered in
  title <- title_of course ;;
  print ("   Course " ++ str i ++ ": " ++ title).

(** [course.get('data-level')] in an f-string. *)
Definition level_text (course : node) : string :=
  match get "data-level" course with
  | Some (AStr s) => s
  | Some (AList l) => format (PList l)
  | None => "None"
  end.

(** Lines 262 to 265 *)
Definition show_numbered (numbered : nat * node) : Run unit :=
  let (index, course) := numbered in
  title <- title_of course ;;
  print ("   " ++ str (index + 1) ++ ". " ++ title
           ++ " (" ++ level_text course ++ ")").

(** The function from line 220 on, given the document. *)
Definition iterate_courses (doc : node) : Run unit :=
  let courses := select sel_course doc in
  print ("Found " ++ str (List.length courses) ++ " courses:") ;;
  print (nl ++ "1. Simple iteration:") ;;
  for_each (enumerate 1 courses) show_title ;;
  print (nl ++ "2. Detailed course information:") ;;
  let course_data := map info_of courses in
  for_each course_data show_info ;;
  print "3. Numbered list with enumerate:" ;;
  for_each (enumerate 0 courses) show_numbered.

Definition demonstrate_iterating_elements (w : World) : Run unit :=
  print (nl ++ "=== Iterating Over Elements ===") ;;
  match html_parser w sample_html with
  | Rejected msg => fail (MarkupRejected msg)
  | Tree doc => iterate_courses doc
  end.

End Text.

(** *** Notions the facts are stated with *)

(** No tag below the node has the name [name]. *)
Definition no_tag_named (name : string) (n : node) : Prop :=
  Forall (fun d => String.eqb name (tag_name d) = false) (descendants n).

End Iterating.

(** ** Mock sites, for the concrete runs of the facts below *)

Module Mock.
Import Py Bs4 Requests.
Local Open Scope string_scope.

Definition class_ (c : string) : list (string * attr_value) :=
  [("class", AList [c])].

(** A quote block as quotes.toscrape.com writes it; a field given as
    [None] is left out of the block. *)
Definition quote_block (text author : option string) (tags : list string)
  : node :=
  Tag "div" (class_ "quote")
    ((match text with
      | Some t => [Tag "span" (class_ "text") [NavigableString t]]
      | None => []
      end) ++
     (match author with
      | Some a => [Tag "small" (class_ "author") [NavigableString a]]
      | None => []
      end) ++
     [Tag "div" (class_ "tags")
        (map (fun t =>
                Tag "a" [("class", AList ["tag"]); ("href", AStr ("/tag/" ++ t ++ "/"))]
                    [NavigableString t]) tags)])%list.

(** The pager with its link to [href]. *)
Definition next_block (href : string) : node :=
  Tag "li" (class_ "next")
    [Tag "a" [("href", AStr href)] [NavigableString "Next "]].

Definition document (quotes : list node) (next : option string) : node :=
  Tag "[document]" []
    (quotes ++ match next with
               | Some href => [next_block href]
               | None => []
               end)%list.

(** A site serves the listed URLs and answers 404 elsewhere; the body of
    a page is the name of its document, which the parser looks up. *)
Definition not_found (u : string) : Response :=
  {| status_code := 404; reason := "Not Found"; url := u;
     text := EmptyString |}.

Definition ok (u body : string) : fetched :=
  Answer {| status_code := 200; reason := "OK"; url := u; text := body |}.

Definition site (urls : list (string * fetched))
  (bodies : list (string * parsed)) : World :=
  {| requests_get := fun u _ _ =>
       match lookup u urls with
       | Some f => f
       | None => Answer (not_found u)
       end;
     html_parser := fun markup =>
       match lookup markup bodies with
       | Some p => p
       | None => Tree (document [] None)
       end |}.

Definition page1 : string := "http://quotes.toscrape.com/page/1/".
Definition page2 : string := "http://quotes.toscrape.com/page/2/".
Definition page3 : string := "http://quotes.toscrape.com/page/3/".

Definition doc1 : node :=
  document
    [quote_block (Some " Simplicity is a virtue. ") (Some "A. Author")
       ["a"; "b"];
     quote_block (Some "Second.") None []]
    (Some "/page/2/").

Definition doc2 : node :=
  document [quote_block None (Some "B. Author") ["c"]] (Some "/page/3/").

Definition doc3_empty : node := document [] (Some "/page/4/").

Definition doc2_last : node :=
  document [quote_block None (Some "B. Author") ["c"]] None.

(** The first page alone, and the first page with a pager that leads
    elsewhere. *)
Definition doc1_alone : node :=
  document
    [quote_block (Some " Simplicity is a virtue. ") (Some "A. Author")
       ["a"; "b"];
     quote_block (Some "Second.") None []]
    None.

Definition doc1_detour : node :=
  document
    [quote_block (Some " Simplicity is a virtue. ") (Some "A. Author")
       ["a"; "b"];
     quote_block (Some "Second.") None []]
    (Some "/tag/love/page/2/").

Definition bodies : list (string * parsed) :=
  [("one", Tree doc1); ("two", Tree doc2); ("three", Tree doc3_empty);
   ("last", Tree doc2_last); ("alone", Tree doc1_alone);
   ("detour", Tree doc1_detour); ("broken", Rejected "markup rejected")].

(** Three pages, the third without items. *)
Definition three_pages : World :=
  site [(page1, ok page1 "one"); (page2, ok page2 "two");
        (page3, ok page3 "three")] bodies.

(** Two pages, the second without a next element. *)
Definition two_pages : World :=
  site [(page1, ok page1 "one"); (page2, ok page2 "last")] bodies.

(** One page, then a failure of the given kind. *)
Definition then_fails (k : request_kind) (msg : string) : World :=
  site [(page1, ok page1 "one"); (page2, Fails k msg)] bodies.

(** One page, then nothing: the site answers 404. *)
Definition then_404 : World := site [(page1, ok page1 "one")] bodies.

(** No page can be fetched. *)
Definition down : World :=
  site [(page1, Fails Timeout "timed out")] bodies.



(** The pager of the first page leads to a tag listing. *)
Definition detour : World :=
  site [(page1, ok page1 "detour"); (page2, ok page2 "last")] bodies.

(** The world of [scrape_with_error_handling]: the first URL answers, the
    second answers 404, the host of the third does not resolve. *)
Definition httpbin_doc : node :=
  Tag "[document]" []
    [Tag "html" []
       [Tag "head" [] [Tag "title" [] [NavigableString " Moby "]];
        Tag "body" []
          [Tag "h1" [] [NavigableString "Herman Melville - Moby-Dick"];
           Tag "p" [] [NavigableString "Availing himself of the mild"]]]].

Definition httpbin : World :=
  site [("https://httpbin.org/html", ok "https://httpbin.org/html" "moby");
        ("https://this-domain-does-not-exist.invalid",
         Fails ConnectionError "Failed to resolve host")]
       [("moby", Tree httpbin_doc)].

End Mock.

(** ** More mock sites *)

Module MockMore.
Import Py Bs4 Requests Mock.
Local Open Scope string_scope.

(** A courses page: a heading that comes twice, a card that matches by
    its class, and a heading too short to be listed. *)
Definition courses_doc : node :=
  Tag "[document]" []
    [Tag "h2" [] [NavigableString "Software Engineering"];
     Tag "div" (class_ "course-card")
       [Tag "h3" [] [NavigableString " Data Science "];
        Tag "p" [] [NavigableString "AI"]];
     Tag "h2" [] [NavigableString "Software Engineering"];
     Tag "h3" [] [NavigableString "AI"]].

Definition courses_site : World :=
  site [(Scraper.courses_url, ok Scraper.courses_url "courses")]
       [("courses", Tree courses_doc)].

(** The courses page cannot be reached, is not found, or is rejected by
    the parser. *)
Definition courses_down : World :=
  site [(Scraper.courses_url, Fails ConnectionError "no route to host")] [].

Definition courses_missing : World := site [] [].

Definition courses_broken : World :=
  site [(Scraper.courses_url, ok Scraper.courses_url "broken")] bodies.

(** The world of [scrape_with_session]: the first URL answers with two
    quotes, the second is not found, the third times out. *)
Definition session_site : World :=
  site [("http://quotes.toscrape.com/",
         ok "http://quotes.toscrape.com/" "one");
        ("http://quotes.toscrape.com/random", Fails Timeout "timed out")]
       bodies.

(** The same, but the parser rejects what the second URL serves. *)
Definition session_broken : World :=
  site [("http://quotes.toscrape.com/",
         ok "http://quotes.toscrape.com/" "one");
        ("http://quotes.toscrape.com/page/2/",
         ok "http://quotes.toscrape.com/page/2/" "broken")]
       bodies.

(** The home page serves the first mock document; addresses are joined
    as [urljoin] joins an absolute path to a plain base, and the
    reference [http://[] is refused as [urljoin] refuses it. *)
Definition home_site : World :=
  site [(LinkDemo.home_url, ok LinkDemo.home_url "one")] bodies.

Definition join_address (base ref : string) : result string :=
  match Urllib.urljoin base ref with
  | Some address => Ok address
  | None =>
      if String.eqb ref "http://["
      then Raise (ValueError "Invalid IPv6 URL")
      else Ok ref
  end.

(** A page that links twice to the same address. *)
Definition linked_doc : node :=
  Tag "[document]" []
    [Tag "a" [("href", AStr "/login")] [NavigableString "Login"];
     Tag "p" []
       [Tag "a" [("href", AStr "/tag/love/")] [NavigableString "love"];
        Tag "a" [("href", AStr "/login")] [NavigableString "Sign in"];
        Tag "a" [] [NavigableString "no address"]]].

Definition linked_site : World :=
  site [(LinkDemo.home_url, ok LinkDemo.home_url "linked")]
       [("linked", Tree linked_doc)].

(** A page whose second link has a reference that is no address. *)
Definition mislinked_doc : node :=
  Tag "[document]" []
    [Tag "a" [("href", AStr "/login")] [NavigableString "Login"];
     Tag "a" [("href", AStr "http://[")] [NavigableString "broken"];
     Tag "a" [("href", AStr "/tag/love/")] [NavigableString "love"]].

Definition mislinked_site : World :=
  site [(LinkDemo.home_url, ok LinkDemo.home_url "mislinked")]
       [("mislinked", Tree mislinked_doc)].

(** No network: every request fails. *)
Definition offline : World :=
  {| requests_get := fun _ _ _ => Fails ConnectionError "network is down";
     html_parser := fun _ => Tree (document [] None) |}.

(** A page whose [h2] stands before its [h1]. *)
Definition headed_doc : node :=
  Tag "[document]" []
    [Tag "h2" [] [NavigableString "Second"];
     Tag "div" [("id", AStr "top")]
       [Tag "h1" (class_ "title") [NavigableString "First"]]].

(** An example page whose title is empty. *)
Definition untitled_doc : node :=
  Tag "[document]" []
    [Tag "html" []
       [Tag "head" [] [Tag "title" [] []];
        Tag "body" [] [Tag "p" [] [NavigableString "text"]]]].

Definition untitled_site : World :=
  site [(Homepage.example_url, ok Homepage.example_url "untitled")]
       [("untitled", Tree untitled_doc)].

(** A catalog as the sample markup describes it: each course holds a
    heading, a paragraph of class [duration] and a span of class
    [price]; and the same catalog with a course that has no heading. *)
Definition course (level name weeks cost : string) : node :=
  Tag "div" [("class", AList ["course"]); ("data-level", AStr level)]
    [Tag "h3" [] [NavigableString name];
     Tag "p" (class_ "duration") [NavigableString weeks];
     Tag "span" (class_ "price") [NavigableString cost]].


Definition catalog : node :=
  Tag "[document]" []
    [Tag "div" (class_ "course-catalog")
       [course "beginner" "Python Basics" "4 weeks" "$299";
        course "advanced" "Machine Learning" "12 weeks" "$899"]].


(** The site of [scrape_with_error_handling] when the parser rejects
    what the first URL serves. *)
Definition httpbin_broken : World :=
  site [("https://httpbin.org/html", ok "https://httpbin.org/html" "broken")]
       bodies.

End MockMore.

(** * Proof steps used throughout *)

(** Splits a conjunction into its parts, and no more. *)
Ltac split_all := repeat match goal with |- _ /\ _ => split end.

(** Closes a conjunction of closed equations by evaluation. *)
Ltac by_evaluation := split_all; vm_compute; reflexivity.

(** * Facts about strings *)

Module StringFacts.
Import Py.
Local Open Scope string_scope.

Lemma append_nil_r (s : string) : s ++ EmptyString = s.
Proof. induction s as [|c s IH]; simpl; [reflexivity | now rewrite IH]. Qed.

Lemma append_assoc (a b c : string) : (a ++ b) ++ c = a ++ b ++ c.
Proof. induction a as [|x a IH]; simpl; [reflexivity | now rewrite IH]. Qed.

Lemma append_char (s : string) (c : ascii) (t : string) :
  (s ++ String c EmptyString) ++ t = s ++ String c t.
Proof. now rewrite append_assoc. Qed.

Lemma length_append (a b : string) :
  String.length (a ++ b) = String.length a + String.length b.
Proof. induction a as [|x a IH]; simpl; [reflexivity | now rewrite IH]. Qed.

End StringFacts.

(** * Facts about the parse tree *)

Module Bs4Facts.
Import Py Bs4.
Local Open Scope string_scope.

(** Induction on a tree, with the hypothesis for every child. *)
Lemma node_induction (P : node -> Prop) :
  (forall s, P (NavigableString s)) ->
  (forall name attrs cs, Forall P cs -> P (Tag name attrs cs)) ->
  forall n, P n.
Proof.
  intros Hstr Htag.
  fix IH 1. intros [s|name attrs cs].
  - apply Hstr.
  - apply Htag. induction cs as [|c cs IHcs].
    + constructor.
    + constructor; [apply IH | exact IHcs].
Qed.

Lemma descendants_tag (name : string) (attrs : list (string * attr_value))
  (cs : list node) :
  descendants (Tag name attrs cs)
  = flat_map (fun c => c :: descendants c) cs.
Proof.
  simpl. induction cs as [|c cs IH]; simpl; [reflexivity|].
  now rewrite IH.
Qed.

Lemma descendants_map_href (f : string -> string) (n : node) :
  descendants (map_href f n) = map (map_href f) (descendants n).
Proof.
  induction n as [s|name attrs cs IH] using node_induction.
  - reflexivity.
  - cbn [map_href]. rewrite !descendants_tag.
    induction IH as [|c cs Hc _ IHcs]; simpl; [reflexivity|].
    rewrite map_app, Hc, IHcs. reflexivity.
Qed.

Lemma attr_get_rewrite_href (f : string -> string) (k : string)
  (attrs : list (string * attr_value)) :
  String.eqb k "href" = false ->
  attr_get k (map (rewrite_href f) attrs) = attr_get k attrs.
Proof.
  intros Hk. induction attrs as [|[k' v] attrs IH]; simpl; [reflexivity|].
  destruct v as [s|l]; simpl.
  - destruct (String.eqb k' "href") eqn:Hk'; simpl.
    + apply String.eqb_eq in Hk'; subst k'. rewrite Hk. exact IH.
    + destruct (String.eqb k k'); [reflexivity | exact IH].
  - destruct (String.eqb k k'); [reflexivity | exact IH].
Qed.

Lemma classes_map_href (f : string -> string) (n : node) :
  classes (map_href f n) = classes n.
Proof.
  destruct n as [s|name attrs cs]; [reflexivity|].
  unfold classes; simpl. now rewrite attr_get_rewrite_href.
Qed.

Lemma matches_class_map_href (f : string -> string) (c : string) (n : node) :
  matches [ByClass c] (map_href f n) = matches [ByClass c] n.
Proof.
  unfold matches, matches_simple; simpl.
  rewrite classes_map_href. now destruct n.
Qed.

Lemma filter_map_swap {A B : Type} (p : B -> bool) (g : A -> B) (l : list A) :
  filter p (map g l) = map g (filter (fun x => p (g x)) l).
Proof.
  induction l as [|x l IH]; simpl; [reflexivity|].
  destruct (p (g x)); simpl; now rewrite IH.
Qed.

Lemma select_class_map_href (f : string -> string) (c : string) (n : node) :
  select [ByClass c] (map_href f n)
  = map (map_href f) (select [ByClass c] n).
Proof.
  unfold select. rewrite descendants_map_href, filter_map_swap.
  f_equal. apply filter_ext. intros d. apply matches_class_map_href.
Qed.

Lemma select_one_class_map_href (f : string -> string) (c : string)
  (n : node) :
  select_one [ByClass c] (map_href f n)
  = option_map (map_href f) (select_one [ByClass c] n).
Proof.
  unfold select_one. rewrite select_class_map_href.
  now destruct (select [ByClass c] n).
Qed.

Lemma get_text_strip_map_href (f : string -> string) (n : node) :
  get_text_strip (map_href f n) = get_text_strip n.
Proof.
  unfold get_text_strip, stripped_strings. f_equal.
  rewrite descendants_map_href.
  induction (descendants n) as [|d l IH]; simpl; [reflexivity|].
  rewrite IH. now destruct d.
Qed.

End Bs4Facts.

(** * Facts about [scrape_quotes_to_scrape] *)

Module PracticalFacts.
Import Py Bs4 Requests Practical Bs4Facts.
Local Open Scope string_scope.

Lemma for_each_quotes (p : nat) (f : node -> M unit) (quotes : list node) :
  (forall quote st,
      f quote st
      = (Normal tt,
         {| all_quotes := (all_quotes st ++ [quote_data quote p])%list;
            page := page st;
            trace := (trace st ++ [found_line quote])%list |})) ->
  forall st,
    for_each quotes f st
    = (Normal tt,
       {| all_quotes :=
            (all_quotes st ++ map (fun quote => quote_data quote p) quotes)%list;
          page := page st;
          trace := (trace st ++ map found_line quotes)%list |}).
Proof.
  intros Hf. induction quotes as [|q quotes IH]; intros st.
  - simpl. unfold ret. destruct st; simpl. now rewrite !app_nil_r.
  - simpl. unfold bind. rewrite Hf, IH. simpl. now rewrite <- !app_assoc.
Qed.

Lemma iteration_eq (w : World) (st : state) :
  iteration w st = (flow_of (view w (page st)), after_page w st).
Proof.
  unfold iteration, after_page, flow_of, records_of, page_events, view,
    goes_on, except_RequestException, http_get, raise_for_status.
  unfold bind, get_page, print, emit, lift, fetched_result, parsed_result;
    simpl.
  destruct (requests_get w (page_url base_url (page st)) headers None)
    as [response|k msg]; simpl.
  2: { unfold break; simpl. rewrite app_nil_r. now rewrite <- !app_assoc. }
  destruct (http_error_msg response) as [msg|]; simpl.
  { unfold break; simpl. rewrite app_nil_r. now rewrite <- !app_assoc. }
  destruct (html_parser w (text response)) as [doc|msg]; simpl.
  2: { rewrite app_nil_r. now rewrite <- !app_assoc. }
  destruct (select sel_quote doc) as [|q quotes] eqn:Hq.
  { unfold break; simpl. rewrite app_nil_r. now rewrite <- !app_assoc. }
  rewrite (for_each_quotes (page st)) by reflexivity; simpl.
  destruct (select_one sel_next doc) as [btn|]; simpl.
  - unfold set_page; simpl. f_equal. f_equal.
    now rewrite <- !app_assoc.
  - unfold break; simpl. f_equal. f_equal. now rewrite <- !app_assoc.
Qed.

(** A page makes the loop go on, leave, or raise. *)
Lemma goes_on_flow (v : page_view) :
  goes_on v = true -> flow_of v = Normal tt /\ stop_reason v = None.
Proof.
  unfold goes_on, flow_of, stop_reason, items, next_btn.
  destruct v as [k msg|msg|doc]; try discriminate.
  destruct (select sel_quote doc); try discriminate.
  destruct (select_one sel_next doc); try discriminate.
  auto.
Qed.

Lemma stop_reason_flow (v : page_view) (r : terminal) :
  stop_reason v = Some r -> flow_of v = Break r /\ goes_on v = false.
Proof.
  unfold goes_on, flow_of, items, next_btn. intros H. rewrite H. split; auto.
  destruct v as [k msg|msg|doc]; simpl in *; auto.
  destruct (select sel_quote doc); auto.
  destruct (select_one sel_next doc); auto. discriminate.
Qed.

Lemma flow_cases (v : page_view) :
  goes_on v = true
  \/ (exists r, stop_reason v = Some r)
  \/ (exists msg, v = PageRejected msg).
Proof.
  unfold goes_on, stop_reason, items, next_btn.
  destruct v as [k msg|msg|doc]; eauto.
  destruct (select sel_quote doc); eauto.
  destruct (select_one sel_next doc); eauto.
Qed.

Lemma advance_0 (w : World) (st : state) : advance w 0 st = st.
Proof.
  unfold advance, span; destruct st; simpl.
  now rewrite !app_nil_r, Nat.add_0_r.
Qed.

Lemma span_S (w : World) (k m : nat) (st : state) :
  goes_on (view w (page st)) = true ->
  span w (S k) (S m) st = span w k m (after_page w st).
Proof.
  intros H. unfold span, after_page; simpl. rewrite H.
  rewrite <- !app_assoc, Nat.add_1_r, Nat.add_succ_r. reflexivity.
Qed.

Lemma advance_last (w : World) (k : nat) (st : state) :
  goes_on (view w (page st + k)) = false ->
  after_page w (advance w k st) = stopped w k st.
Proof.
  intros H. unfold stopped, advance, span, after_page.
  cbn [page all_quotes trace].
  rewrite H, !seq_S, !flat_map_app. cbn [flat_map].
  now rewrite !app_nil_r, <- !app_assoc.
Qed.

Lemma while_true_go (w : World) (k : nat) :
  forall (fuel : nat) (st : state),
    (forall p, page st <= p < page st + k -> goes_on (view w p) = true) ->
    while_true (k + fuel) (iteration w) st
    = while_true fuel (iteration w) (advance w k st).
Proof.
  induction k as [|k IH]; intros fuel st Hgo.
  - now rewrite advance_0.
  - assert (H0 : goes_on (view w (page st)) = true) by (apply Hgo; lia).
    simpl. rewrite iteration_eq.
    destruct (goes_on_flow _ H0) as [-> _].
    unfold advance. rewrite span_S by assumption. apply IH.
    intros p Hp. apply Hgo. unfold after_page in Hp; simpl in Hp.
    rewrite H0 in Hp. lia.
Qed.

Lemma while_true_returns (w : World) :
  forall (fuel : nat) (st : state) (r : terminal) (st' : state),
    while_true fuel (iteration w) st = Returns r st' ->
    exists k,
      k < fuel
      /\ (forall p, page st <= p < page st + k -> goes_on (view w p) = true)
      /\ stop_reason (view w (page st + k)) = Some r
      /\ st' = stopped w k st.
Proof.
  induction fuel as [|fuel IH]; intros st r st' H; [discriminate|].
  simpl in H. rewrite iteration_eq in H.
  destruct (flow_cases (view w (page st))) as [Hgo|[[r0 Hr]|[msg Hm]]].
  - destruct (goes_on_flow _ Hgo) as [Hf _]. rewrite Hf in H.
    apply IH in H. destruct H as (k & Hk & Hall & Hstop & ->).
    assert (Hp : page (after_page w st) = S (page st)).
    { unfold after_page; simpl. rewrite Hgo. lia. }
    rewrite Hp in *.
    exists (S k). repeat split.
    + lia.
    + intros p Hlt. destruct (Nat.eq_dec p (page st)) as [->|Hne]; auto.
      apply Hall. lia.
    + now rewrite Nat.add_succ_r.
    + symmetry. now apply span_S.
  - destruct (stop_reason_flow _ Hr) as [Hf Hno]. rewrite Hf in H.
    inversion H; subst. exists 0. repeat split.
    + lia.
    + intros p Hp. lia.
    + now rewrite Nat.add_0_r.
    + rewrite <- (advance_0 w st) at 1. apply advance_last.
      now rewrite Nat.add_0_r.
  - unfold flow_of in H. rewrite Hm in H. simpl in H. discriminate.
Qed.

Lemma while_true_stop (w : World) (fuel k : nat) (st : state) (r : terminal) :
  (forall p, page st <= p < page st + k -> goes_on (view w p) = true) ->
  stop_reason (view w (page st + k)) = Some r ->
  while_true (k + S fuel) (iteration w) st = Returns r (stopped w k st).
Proof.
  intros Hgo Hstop. rewrite while_true_go by assumption.
  simpl. rewrite iteration_eq. simpl page.
  destruct (stop_reason_flow _ Hstop) as [-> Hno].
  now rewrite advance_last.
Qed.

Lemma stopped_initial (w : World) (k : nat) :
  completed (stopped w k initial_state) = final_state w (S k).
Proof. reflexivity. Qed.

(** The function returns exactly when some page [n] within the fuel is
    the first that does not make the loop go on, and that page leads to a
    [break]. *)
Lemma run_returns_iff (w : World) (fuel : nat) (r : terminal) (st : state) :
  scrape_quotes_to_scrape_run w fuel = Returns r st
  <-> exists n,
      1 <= n <= fuel
      /\ (forall p, 1 <= p < n -> goes_on (view w p) = true)
      /\ stop_reason (view w n) = Some r
      /\ st = final_state w n.
Proof.
  unfold scrape_quotes_to_scrape_run. split.
  - destruct (while_true fuel (iteration w) initial_state)
      as [r0 st0|e st0|st0] eqn:Hloop; try discriminate.
    intros H; inversion H; subst.
    apply while_true_returns in Hloop.
    destruct Hloop as (k & Hk & Hall & Hstop & ->).
    simpl in Hall, Hstop.
    exists (S k). repeat split; try lia.
    + intros p Hp. apply Hall. lia.
    + assumption.
  - intros (n & Hn & Hall & Hstop & ->).
    destruct n as [|k]; [lia|].
    replace fuel with (k + S (fuel - S k)) by lia.
    rewrite (@while_true_stop w _ k initial_state r).
    + reflexivity.
    + intros p Hp. apply Hall. simpl in Hp. lia.
    + exact Hstop.
Qed.

(** Whatever the outcome, the loop has gone through the pages from
    [page st] on, one after the other. *)
Lemma while_true_pages (w : World) :
  forall (fuel : nat) (st : state),
  exists k,
    k <= fuel
    /\ trace (outcome_state (while_true fuel (iteration w) st))
       = (trace st ++ flat_map (page_events w) (seq (page st) k))%list
    /\ all_quotes (outcome_state (while_true fuel (iteration w) st))
       = (all_quotes st ++ flat_map (records_of w) (seq (page st) k))%list.
Proof.
  induction fuel as [|fuel IH]; intros st.
  - exists 0. simpl. now rewrite !app_nil_r.
  - simpl. rewrite iteration_eq.
    destruct (flow_cases (view w (page st))) as [Hgo|[[r Hr]|[msg Hm]]].
    + destruct (goes_on_flow _ Hgo) as [-> _].
      destruct (IH (after_page w st)) as (k & Hk & Htr & Hq).
      exists (S k). rewrite Htr, Hq. unfold after_page; simpl.
      rewrite Hgo, Nat.add_1_r, <- !app_assoc. repeat split. lia.
    + destruct (stop_reason_flow _ Hr) as [-> _].
      exists 1. simpl. rewrite !app_nil_r. repeat split. lia.
    + unfold flow_of. rewrite Hm. simpl.
      exists 1. simpl. rewrite !app_nil_r. repeat split. lia.
Qed.

Lemma requested_app (a b : list event) :
  requested (a ++ b) = (requested a ++ requested b)%list.
Proof. apply flat_map_app. Qed.

Lemma requested_page_events (w : World) (p : nat) :
  requested (page_events w p) = [page_url base_url p].
Proof.
  unfold page_events. rewrite requested_app.
  assert (H : forall l, requested (map found_line l) = []).
  { induction l as [|q l IH]; simpl; auto. }
  cbn [requested flat_map app]. f_equal.
  destruct (view w p) as [k msg|msg|doc]; try reflexivity.
  destruct (select sel_quote doc) as [|q quotes]; try reflexivity.
  fold found_line.
  change (flat_map (fun e => match e with Request u => [u] | _ => [] end))
    with requested.
  rewrite requested_app, H.
  now destruct (select_one sel_next doc).
Qed.

Lemma requested_pages (w : World) (l : list nat) :
  requested (flat_map (page_events w) l) = map (page_url base_url) l.
Proof.
  induction l as [|p l IH]; [reflexivity|].
  cbn [flat_map map].
  rewrite requested_app, requested_page_events, IH. reflexivity.
Qed.

Lemma run_pages (w : World) (fuel : nat) :
  exists k,
    k <= fuel
    /\ requested (trace (outcome_state (scrape_quotes_to_scrape_run w fuel)))
       = map (page_url base_url) (seq 1 k)
    /\ all_quotes (outcome_state (scrape_quotes_to_scrape_run w fuel))
       = flat_map (records_of w) (seq 1 k).
Proof.
  destruct (while_true_pages w fuel initial_state) as (k & Hk & Htr & Hq).
  exists k. split; [exact Hk|].
  unfold scrape_quotes_to_scrape_run.
  destruct (while_true fuel (iteration w) initial_state) as [r st|e st|st];
    simpl in *; rewrite ?Htr, ?Hq; simpl;
    rewrite ?requested_app, ?requested_pages, ?app_nil_r; auto.
Qed.

(** One turn of the loop requests the page of the counter, once. *)
Lemma turn_requests (w : World) (st : state) :
  requested (trace (snd (iteration w st)))
  = (requested (trace st) ++ [page_url base_url (page st)])%list.
Proof.
  rewrite iteration_eq. unfold after_page; simpl.
  now rewrite requested_app, requested_page_events.
Qed.

(** The turns of the loop and the page counter: as long as the loop goes
    on the counter moves with each turn; the turn that leaves the loop
    leaves the counter at the page it fetched. *)
Lemma while_true_turns (w : World) :
  forall (fuel : nat) (st : state),
  exists k,
    k <= fuel
    /\ trace (outcome_state (while_true fuel (iteration w) st))
       = (trace st ++ flat_map (page_events w) (seq (page st) k))%list
    /\ match while_true fuel (iteration w) st with
       | Running st' => k = fuel /\ page st' = page st + k
       | Returns _ st' | Propagates _ st' =>
           1 <= k /\ page st' + 1 = page st + k
       end.
Proof.
  induction fuel as [|fuel IH]; intros st.
  - exists 0. simpl. rewrite !app_nil_r. repeat split; lia.
  - simpl. rewrite iteration_eq.
    destruct (flow_cases (view w (page st))) as [Hgo|[[r Hr]|[msg Hm]]].
    + destruct (goes_on_flow _ Hgo) as [-> _].
      destruct (IH (after_page w st)) as (k & Hk & Htr & Hend).
      exists (S k). rewrite Htr.
      assert (Hpage : page (after_page w st) = page st + 1).
      { unfold after_page; simpl. now rewrite Hgo. }
      rewrite Hpage in *. split; [lia|]. split.
      * unfold after_page; simpl.
        now rewrite Nat.add_1_r, <- !app_assoc.
      * destruct (while_true fuel (iteration w) (after_page w st));
          lia.
    + destruct (stop_reason_flow _ Hr) as [-> Hstop].
      exists 1. cbn [outcome_state]. unfold after_page.
      cbn [trace page seq flat_map]. rewrite Hstop, app_nil_r.
      repeat split; lia.
    + assert (Hstop : goes_on (view w (page st)) = false)
        by (rewrite Hm; reflexivity).
      assert (Hflow : flow_of (view w (page st))
                      = Raised (ParserRejectedMarkup msg))
        by (unfold flow_of; rewrite Hm; reflexivity).
      rewrite Hflow.
      exists 1. cbn [outcome_state]. unfold after_page.
      cbn [trace page seq flat_map]. rewrite Hstop, app_nil_r.
      repeat split; lia.
Qed.

Lemma run_turns (w : World) (fuel : nat) :
  exists k,
    k <= fuel
    /\ requested (trace (outcome_state (scrape_quotes_to_scrape_run w fuel)))
       = map (page_url base_url) (seq 1 k)
    /\ match scrape_quotes_to_scrape_run w fuel with
       | Running st => k = fuel /\ page st = fuel + 1
       | Returns _ st | Propagates _ st => 1 <= k /\ page st = k
       end.
Proof.
  destruct (while_true_turns w fuel initial_state) as (k & Hk & Htr & Hend).
  exists k. split; [exact Hk|].
  unfold scrape_quotes_to_scrape_run.
  destruct (while_true fuel (iteration w) initial_state) as [r st|e st|st];
    simpl in *; rewrite ?Htr; simpl;
    rewrite ?requested_app, ?requested_pages, ?app_nil_r; simpl;
    rewrite ?app_nil_r; split; auto; lia.
Qed.

(** *** Rewriting the link targets changes nothing *)

Lemma quote_author_map_href (f : string -> string) (q : node) :
  quote_author (map_href f q) = quote_author q.
Proof.
  unfold quote_author, sel_author. rewrite select_one_class_map_href.
  destruct (select_one [ByClass "author"] q); simpl; [|reflexivity].
  apply get_text_strip_map_href.
Qed.

Lemma quote_data_map_href (f : string -> string) (q : node) (p : nat) :
  quote_data (map_href f q) p = quote_data q p.
Proof.
  unfold quote_data. rewrite quote_author_map_href.
  replace (quote_text (map_href f q)) with (quote_text q).
  replace (quote_tags (map_href f q)) with (quote_tags q).
  - reflexivity.
  - unfold quote_tags, sel_tag. rewrite select_class_map_href, map_map.
    apply map_ext. intros d. symmetry. apply get_text_strip_map_href.
  - unfold quote_text, sel_text. rewrite select_one_class_map_href.
    destruct (select_one [ByClass "text"] q); simpl; [|reflexivity].
    symmetry. apply get_text_strip_map_href.
Qed.

Lemma view_retarget (f : string -> string) (w : World) (p : nat) :
  view (retarget f w) p = view_map_href f (view w p).
Proof.
  unfold view, retarget; simpl.
  destruct (requests_get w (page_url base_url p) headers None)
    as [response|k msg]; [|reflexivity].
  destruct (http_error_msg response); [reflexivity|].
  now destruct (html_parser w (text response)).
Qed.

Lemma items_map_href (f : string -> string) (v : page_view) :
  items (view_map_href f v) = map (map_href f) (items v).
Proof.
  destruct v; simpl; try reflexivity. apply select_class_map_href.
Qed.

Lemma next_btn_map_href (f : string -> string) (v : page_view) :
  next_btn (view_map_href f v) = option_map (map_href f) (next_btn v).
Proof.
  destruct v; simpl; try reflexivity. apply select_one_class_map_href.
Qed.

Lemma goes_on_map_href (f : string -> string) (v : page_view) :
  goes_on (view_map_href f v) = goes_on v.
Proof.
  unfold goes_on. rewrite items_map_href, next_btn_map_href.
  destruct (items v), (next_btn v); reflexivity.
Qed.

Lemma stop_reason_map_href (f : string -> string) (v : page_view) :
  stop_reason (view_map_href f v) = stop_reason v.
Proof.
  destruct v as [k msg|msg|doc]; simpl; try reflexivity.
  unfold sel_quote, sel_next.
  rewrite select_class_map_href, select_one_class_map_href.
  destruct (select [ByClass "quote"] doc),
    (select_one [ByClass "next"] doc); reflexivity.
Qed.

Lemma flow_of_map_href (f : string -> string) (v : page_view) :
  flow_of (view_map_href f v) = flow_of v.
Proof.
  unfold flow_of. rewrite stop_reason_map_href. now destruct v.
Qed.

Lemma records_of_retarget (f : string -> string) (w : World) (p : nat) :
  records_of (retarget f w) p = records_of w p.
Proof.
  unfold records_of. rewrite view_retarget, items_map_href, map_map.
  apply map_ext. intros q. apply quote_data_map_href.
Qed.

Lemma page_events_retarget (f : string -> string) (w : World) (p : nat) :
  page_events (retarget f w) p = page_events w p.
Proof.
  unfold page_events. rewrite view_retarget. f_equal.
  destruct (view w p) as [k msg|msg|doc]; simpl; try reflexivity.
  unfold sel_quote, sel_next.
  rewrite select_class_map_href, select_one_class_map_href.
  destruct (select [ByClass "quote"] doc) as [|q quotes]; [reflexivity|].
  cbn [map]. rewrite quote_author_map_href, map_map.
  f_equal. f_equal.
  - apply map_ext. intros d. now rewrite quote_author_map_href.
  - now destruct (select_one [ByClass "next"] doc).
Qed.

Lemma iteration_retarget (f : string -> string) (w : World) (st : state) :
  iteration (retarget f w) st = iteration w st.
Proof.
  rewrite !iteration_eq. unfold after_page.
  now rewrite view_retarget, flow_of_map_href, goes_on_map_href,
    records_of_retarget, page_events_retarget.
Qed.

Lemma while_true_ext (b1 b2 : M unit) :
  (forall st, b1 st = b2 st) ->
  forall fuel st, while_true fuel b1 st = while_true fuel b2 st.
Proof.
  intros Hb. induction fuel as [|fuel IH]; intros st; simpl; [reflexivity|].
  rewrite Hb. destruct (b2 st) as [[u|r|e] st']; auto.
Qed.

Lemma run_retarget (f : string -> string) (w : World) (fuel : nat) :
  scrape_quotes_to_scrape_run (retarget f w) fuel
  = scrape_quotes_to_scrape_run w fuel.
Proof.
  unfold scrape_quotes_to_scrape_run.
  now rewrite (while_true_ext (iteration (retarget f w)) (iteration w)
                 (iteration_retarget f w)).
Qed.

(** *** The pages of the records *)

Lemma records_of_length (w : World) (p : nat) :
  List.length (records_of w p) = item_count w p.
Proof. unfold records_of, item_count. apply length_map. Qed.

Lemma records_length (w : World) (l : list nat) :
  List.length (flat_map (records_of w) l)
  = list_sum (map (item_count w)
                (filter (fun p => processed (view w p)) l)).
Proof.
  induction l as [|p l IH]; [reflexivity|].
  cbn [flat_map filter]. rewrite length_app, records_of_length, IH.
  destruct (processed (view w p)) eqn:Hp; [reflexivity|].
  unfold item_count. destruct (view w p); try discriminate; reflexivity.
Qed.

Lemma records_pages (w : World) (l : list nat) :
  map record_page (flat_map (records_of w) l)
  = map Some (flat_map (fun p => repeat p (item_count w p)) l).
Proof.
  induction l as [|p l IH]; [reflexivity|].
  cbn [flat_map]. rewrite !map_app, IH. f_equal.
  unfold records_of, item_count. rewrite map_map.
  induction (items (view w p)) as [|q qs IHq]; [reflexivity|].
  cbn [map List.length repeat]. now rewrite IHq.
Qed.

Lemma StronglySorted_app (l1 l2 : list nat) :
  StronglySorted le l1 -> StronglySorted le l2 ->
  (forall x y, In x l1 -> In y l2 -> x <= y) ->
  StronglySorted le (l1 ++ l2).
Proof.
  induction l1 as [|a l1 IH]; intros H1 H2 H; [exact H2|].
  inversion H1; subst. simpl. constructor.
  - apply IH; auto. intros x y Hx Hy. apply H; [now right | exact Hy].
  - apply Forall_app. split; [assumption|].
    apply Forall_forall. intros y Hy. apply H; [now left | exact Hy].
Qed.

Lemma StronglySorted_repeat (a n : nat) : StronglySorted le (repeat a n).
Proof.
  induction n as [|n IH]; simpl; constructor; auto.
  apply Forall_forall. intros x Hx. apply repeat_spec in Hx. lia.
Qed.

Lemma pages_in_range (c : nat -> nat) (k a x : nat) :
  In x (flat_map (fun p => repeat p (c p)) (seq a k)) -> a <= x < a + k.
Proof.
  intros H. apply in_flat_map in H. destruct H as (p & Hp & Hx).
  apply in_seq in Hp. apply repeat_spec in Hx. lia.
Qed.

Lemma pages_sorted (c : nat -> nat) (k : nat) :
  forall a, StronglySorted le (flat_map (fun p => repeat p (c p)) (seq a k)).
Proof.
  induction k as [|k IH]; intros a; [constructor|].
  cbn [seq flat_map]. apply StronglySorted_app.
  - apply StronglySorted_repeat.
  - apply IH.
  - intros x y Hx Hy. apply repeat_spec in Hx. apply pages_in_range in Hy.
    lia.
Qed.

(** *** Exceptions and printed lines *)





Lemma records_before_failure (w : World) (n : nat) :
  items (view w (S n)) = [] ->
  flat_map (records_of w) (seq 1 (S n)) = flat_map (records_of w) (seq 1 n).
Proof.
  intros H. rewrite seq_S, flat_map_app. cbn [flat_map].
  unfold records_of at 2. simpl. rewrite H. simpl. now rewrite !app_nil_r.
Qed.

End PracticalFacts.

(** * The pagination loop: claims C1, C2 and C8 *)

Module Pagination.
Import Py Bs4 Requests Practical PracticalFacts.
Local Open Scope string_scope.

Lemma stop_reason_cases (v : page_view) :
  (stop_reason v = Some NoItemsOnPage <-> processed v = true /\ items v = [])
  /\ (stop_reason v = Some NoNextPage
      <-> processed v = true /\ items v <> [] /\ next_btn v = None)
  /\ (forall k msg, stop_reason v = Some (FetchFailed k msg)
                    <-> v = PageFails k msg)
  /\ (goes_on v = true
      <-> processed v = true /\ items v <> [] /\ next_btn v <> None).
Proof.
  unfold goes_on.
  destruct v as [k0 msg0|msg0|doc]; simpl;
    [| |destruct (select sel_quote doc) as [|q quotes],
          (select_one sel_next doc) as [btn|]];
    repeat split; intros; intuition (try discriminate; try congruence).
Qed.

(** C1, as amended.  The function returns exactly when a page is reached
    that leads to one of the three [break]s, all pages before it having
    had items and a next element: the page has no item
    ([NoItemsOnPage]), or it has items and no next element
    ([NoNextPage]), or its fetch fails ([FetchFailed], through the handler
    of [requests.RequestException]); the loop stops at the first such
    page, for any fuel that reaches it.  For a site whose pages 1 and 2
    go on and whose page 3 has no item, the run stops at page 3 with
    [NoItemsOnPage] and returns the records of pages 1 and 2 only. *)
Theorem pagination_stops_at_first_stop_page (w : World) :
  (forall fuel r st,
      scrape_quotes_to_scrape_run w fuel = Returns r st ->
      1 <= page st <= fuel
      /\ (forall p, 1 <= p < page st -> goes_on (view w p) = true)
      /\ stop_reason (view w (page st)) = Some r
      /\ st = final_state w (page st))
  /\ (forall n r,
        1 <= n ->
        (forall p, 1 <= p < n -> goes_on (view w p) = true) ->
        stop_reason (view w n) = Some r ->
        forall fuel, n <= fuel ->
          scrape_quotes_to_scrape_run w fuel = Returns r (final_state w n))
  /\ (forall v,
        (stop_reason v = Some NoItemsOnPage
         <-> processed v = true /\ items v = [])
        /\ (stop_reason v = Some NoNextPage
            <-> processed v = true /\ items v <> [] /\ next_btn v = None)
        /\ (forall k msg, stop_reason v = Some (FetchFailed k msg)
                          <-> v = PageFails k msg)
        /\ (goes_on v = true
            <-> processed v = true /\ items v <> [] /\ next_btn v <> None))
  /\ (goes_on (view w 1) = true ->
      goes_on (view w 2) = true ->
      processed (view w 3) = true ->
      items (view w 3) = [] ->
      forall fuel, 3 <= fuel ->
        scrape_quotes_to_scrape_run w fuel
        = Returns NoItemsOnPage (final_state w 3)
        /\ scrape_quotes_to_scrape w fuel
           = Some (records_of w 1 ++ records_of w 2)%list).
Proof.
  assert (Hback : forall n r,
        1 <= n ->
        (forall p, 1 <= p < n -> goes_on (view w p) = true) ->
        stop_reason (view w n) = Some r ->
        forall fuel, n <= fuel ->
          scrape_quotes_to_scrape_run w fuel = Returns r (final_state w n)).
  { intros n r Hn Hall Hstop fuel Hfuel. apply run_returns_iff.
    exists n. repeat split; auto. }
  split; [|split; [exact Hback|split; [exact stop_reason_cases|]]].
  - intros fuel r st H. apply run_returns_iff in H.
    destruct H as (n & Hn & Hall & Hstop & ->). simpl page.
    repeat split; auto; lia.
  - intros H1 H2 H3 H3' fuel Hfuel.
    assert (Hrun : scrape_quotes_to_scrape_run w fuel
                   = Returns NoItemsOnPage (final_state w 3)).
    { apply Hback; auto.
      - intros p Hp. assert (Hc : p = 1 \/ p = 2) by lia.
        destruct Hc as [->| ->]; assumption.
      - apply stop_reason_cases. auto. }
    split; [exact Hrun|].
    unfold scrape_quotes_to_scrape. rewrite Hrun. simpl.
    unfold records_of at 3. rewrite H3'. simpl. now rewrite !app_nil_r.
Qed.

(** The mock paginator of C1: three pages, the third without items. *)
Lemma pagination_three_pages :
  scrape_quotes_to_scrape_run Mock.three_pages 3
  = Returns NoItemsOnPage (final_state Mock.three_pages 3)
  /\ scrape_quotes_to_scrape Mock.three_pages 3
     = Some (records_of Mock.three_pages 1 ++ records_of Mock.three_pages 2)%list.
Proof.
  apply (pagination_stops_at_first_stop_page Mock.three_pages);
    solve [reflexivity | lia].
Defined.

(** C1, as stated, fails: when the first fetch times out the loop is left
    at page 1, where neither selector was ever evaluated, and the reason
    is neither [NoItemsOnPage] nor [NoNextPage]. *)
Lemma pagination_ends_on_fetch_failure :
  exists r st,
    scrape_quotes_to_scrape_run Mock.down 1 = Returns r st
    /\ page st = 1
    /\ view Mock.down 1 = PageFails Timeout "timed out"
    /\ r <> NoItemsOnPage
    /\ r <> NoNextPage.
Proof.
  exists (FetchFailed Timeout "timed out").
  exists (outcome_state (scrape_quotes_to_scrape_run Mock.down 1)).
  split; [vm_compute; reflexivity|].
  repeat split; try discriminate; vm_compute; reflexivity.
Qed.

(** C2.  When the function returns, the number of records is the sum,
    over the pages that were fetched and parsed, of the number of items
    matched on the page; the records are those of page 1, then page 2,
    and so on, each carrying the number of its page, so that the page
    fields are non-decreasing and lie between 1 and the last page; and
    the pages fetched are 1, 2, ..., one more at each turn. *)
Theorem records_count_and_page_order
  (w : World) (fuel : nat) (r : terminal) (st : state) :
  scrape_quotes_to_scrape_run w fuel = Returns r st ->
  List.length (all_quotes st)
  = list_sum (map (fun p => List.length (items (view w p)))
                (filter (fun p => processed (view w p)) (seq 1 (page st))))
  /\ all_quotes st
     = flat_map (fun p => map (fun quote => quote_data quote p)
                            (items (view w p))) (seq 1 (page st))
  /\ (exists ps,
         map record_page (all_quotes st) = map Some ps
         /\ StronglySorted le ps
         /\ Forall (fun p => 1 <= p <= page st) ps)
  /\ requested (trace st) = map (page_url base_url) (seq 1 (page st)).
Proof.
  intros H. apply run_returns_iff in H.
  destruct H as (n & Hn & Hall & Hstop & ->).
  cbn [final_state completed all_quotes page trace].
  repeat split.
  - apply records_length.
  - exists (flat_map (fun p => repeat p (item_count w p)) (seq 1 n)).
    repeat split.
    + apply records_pages.
    + apply pages_sorted.
    + apply Forall_forall. intros x Hx. apply pages_in_range in Hx. lia.
  - rewrite !requested_app, requested_pages. simpl. now rewrite app_nil_r.
Qed.

Lemma records_count_and_page_order_three_pages :
  List.length (all_quotes (final_state Mock.three_pages 3)) = 3
  /\ map record_page (all_quotes (final_state Mock.three_pages 3))
     = [Some 1; Some 1; Some 2].
Proof.
  destruct (@records_count_and_page_order Mock.three_pages 3 NoItemsOnPage
              (final_state Mock.three_pages 3) eq_refl)
    as (Hlen & Hrec & Hpages & Hreq).
  split.
  - exact Hlen.
  - rewrite Hrec. reflexivity.
Defined.

(** C8.  The URL fetched for page n is [base_url + "/page/" + n + "/"].
    Each turn of the loop makes one request, for the page of the
    counter.  A run makes its requests for the pages 1, 2, ..., k in
    this order and no other: a run that has turns fetches page 1 first;
    when the function returns or an exception leaves it, k is the page
    the counter stands at, and when the turns are used up k is their
    number and the counter stands at the page after.  The next element
    is tested for existence only, so that a site whose link targets are
    rewritten in any way gives the same run. *)
Theorem fetched_urls_follow_page_counter (w : World) (fuel : nat) :
  (forall st,
      requested (trace (snd (iteration w st)))
      = app (requested (trace st))
          ["http://quotes.toscrape.com" ++ "/page/"
             ++ str (page st) ++ "/"])
  /\ (exists k,
         k <= fuel
         /\ (1 <= fuel -> 1 <= k)
         /\ requested
              (trace (outcome_state (scrape_quotes_to_scrape_run w fuel)))
            = map (page_url base_url) (seq 1 k)
         /\ match scrape_quotes_to_scrape_run w fuel with
            | Running st => k = fuel /\ page st = fuel + 1
            | Returns _ st | Propagates _ st => 1 <= k /\ page st = k
            end)
  /\ (forall i u,
         nth_error
           (requested
              (trace (outcome_state (scrape_quotes_to_scrape_run w fuel)))) i
         = Some u ->
         u = "http://quotes.toscrape.com" ++ "/page/" ++ str (S i) ++ "/")
  /\ (forall f : string -> string,
         scrape_quotes_to_scrape_run (retarget f w) fuel
         = scrape_quotes_to_scrape_run w fuel).
Proof.
  destruct (run_turns w fuel) as (k & Hk & Hreq & Hend).
  split; [|split; [|split]].
  - intros st. apply turn_requests.
  - exists k. split; [exact Hk|]. split; [|split].
    + destruct (scrape_quotes_to_scrape_run w fuel); lia.
    + exact Hreq.
    + exact Hend.
  - intros i u Hi. rewrite Hreq in Hi.
    rewrite nth_error_map in Hi.
    destruct (nth_error (seq 1 k) i) as [p|] eqn:Hp; [|discriminate].
    assert (Hlt : i < k).
    { rewrite <- (length_seq k 1). apply nth_error_Some. congruence. }
    rewrite (nth_error_nth' _ 0) in Hp by (now rewrite length_seq).
    rewrite seq_nth in Hp by assumption.
    inversion Hp; subst p. inversion Hi; subst u. reflexivity.
  - intros f. apply run_retarget.
Qed.

(** A site of three pages: the first turn fetches page 1, and the run
    fetches the pages 1, 2 and 3 and stops with the counter at 3. *)
Lemma fetched_urls_of_three_pages :
  requested (trace (snd (iteration Mock.three_pages initial_state)))
  = ["http://quotes.toscrape.com/page/1/"]
  /\ requested
       (trace (outcome_state (scrape_quotes_to_scrape_run Mock.three_pages 5)))
     = ["http://quotes.toscrape.com/page/1/";
        "http://quotes.toscrape.com/page/2/";
        "http://quotes.toscrape.com/page/3/"]
  /\ page (outcome_state (scrape_quotes_to_scrape_run Mock.three_pages 5))
     = 3.
Proof.
  destruct (fetched_urls_follow_page_counter Mock.three_pages 5)
    as (Hturn & (k & _ & _ & Hreq & Hend) & _).
  split; [exact (Hturn initial_state)|].
  vm_compute in Hend. destruct Hend as [_ <-].
  split; [rewrite Hreq|]; reflexivity.
Defined.

End Pagination.

(** * Failures, records and links: claims C3 to C6 *)

Module Failures.
Import Py Bs4 Requests Practical PracticalFacts.
Local Open Scope string_scope.


(** A failed fetch of page [n], after pages that all went on, ends the
    run with the records of the pages before [n]. *)
Lemma failed_fetch_run
  (w : World) (n : nat) (k : request_kind) (msg : string) :
  1 <= n ->
  (forall p, 1 <= p < n -> goes_on (view w p) = true) ->
  view w n = PageFails k msg ->
  forall fuel, n <= fuel ->
    scrape_quotes_to_scrape_run w fuel
    = Returns (FetchFailed k msg) (final_state w n)
    /\ scrape_quotes_to_scrape w fuel
       = Some (flat_map (records_of w) (seq 1 (n - 1))).
Proof.
  intros Hn Hall Hv fuel Hfuel.
  destruct n as [|n]; [lia|]. replace (S n - 1) with n by lia.
  assert (Hrun : scrape_quotes_to_scrape_run w fuel
                 = Returns (FetchFailed k msg) (final_state w (S n))).
  { apply run_returns_iff. exists (S n).
    repeat split; auto. now rewrite Hv. }
  split; [exact Hrun|].
  unfold scrape_quotes_to_scrape. rewrite Hrun.
  cbn [final_state completed all_quotes]. f_equal.
  apply records_before_failure. now rewrite Hv.
Qed.




(** The page fails: the request raises, or the status check does. *)
Lemma view_fails (w : World) (n : nat) :
  (exists k msg,
      requests_get w (page_url base_url n) headers None = Fails k msg)
  \/ (exists response,
        requests_get w (page_url base_url n) headers None = Answer response
        /\ 400 <= status_code response < 600) ->
  exists k msg, view w n = PageFails k msg.
Proof.
  unfold view. intros [(k & msg & ->)|(response & -> & Hcode)]; eauto.
  unfold http_error_msg.
  destruct (Nat.lt_ge_cases (status_code response) 500) as [Hlt|Hge].
  - replace ((400 <=? status_code response)
             && (status_code response <? 500))%nat with true; eauto.
    symmetry. apply andb_true_iff. split.
    + apply Nat.leb_le; lia.
    + apply Nat.ltb_lt; lia.
  - replace ((400 <=? status_code response)
             && (status_code response <? 500))%nat with false.
    2: { symmetry. apply andb_false_iff. right. apply Nat.ltb_ge; lia. }
    replace ((500 <=? status_code response)
             && (status_code response <? 600))%nat with true; eauto.
    symmetry. apply andb_true_iff. split.
    + apply Nat.leb_le; lia.
    + apply Nat.ltb_lt; lia.
Qed.

Lemma records_agree (w w' : World) (n : nat) :
  (forall p, 1 <= p < S n -> view w' p = view w p) ->
  flat_map (records_of w') (seq 1 n) = flat_map (records_of w) (seq 1 n).
Proof.
  intros H. rewrite !flat_map_concat_map. f_equal.
  apply map_ext_in. intros p Hp. apply in_seq in Hp.
  unfold records_of. rewrite H by lia. reflexivity.
Qed.

Lemma append_cancel_l (s a b : string) : s ++ a = s ++ b -> a = b.
Proof.
  induction s as [|c s IH]; simpl; intros H; [exact H|].
  inversion H. auto.
Qed.

(** C4, as amended.  In [scrape_quotes_to_scrape] a fetch that fails with
    a timeout, with a connection error or with a 4xx or 5xx status (404
    among them) is handled by the one handler of
    [requests.RequestException]: the function returns the records of the
    pages before the failure; what it returns does not depend on the kind
    of the failure nor on its message, which only appears in the printed
    line.  The four kinds are told apart in [scrape_with_error_handling],
    which prints a different line for each and keeps no record. *)
Theorem failure_kind_is_printed_not_returned (w : World) (n : nat) :
  (1 <= n ->
   (forall p, 1 <= p < n -> goes_on (view w p) = true) ->
   ((exists k msg,
        requests_get w (page_url base_url n) headers None = Fails k msg)
    \/ (exists response,
          requests_get w (page_url base_url n) headers None = Answer response
          /\ 400 <= status_code response < 600)) ->
   forall fuel, n <= fuel ->
     scrape_quotes_to_scrape w fuel
     = Some (flat_map (records_of w) (seq 1 (n - 1))))
  /\ (forall w' : World,
        1 <= n ->
        (forall p, 1 <= p < n ->
                   goes_on (view w p) = true /\ view w' p = view w p) ->
        (exists k msg, view w n = PageFails k msg) ->
        (exists k' msg', view w' n = PageFails k' msg') ->
        forall fuel, n <= fuel ->
          scrape_quotes_to_scrape w' fuel = scrape_quotes_to_scrape w fuel)
  /\ (forall (check_mark cross_mark m1 m2 m3 m4 : string),
        let line := Advanced.handler cross_mark in
        line (RequestException Timeout m1)
        <> line (RequestException ConnectionError m2)
        /\ line (RequestException Timeout m1)
           <> line (RequestException HTTPError m3)
        /\ line (RequestException Timeout m1)
           <> line (RequestException OtherRequestError m4)
        /\ line (RequestException ConnectionError m2)
           <> line (RequestException HTTPError m3)
        /\ line (RequestException ConnectionError m2)
           <> line (RequestException OtherRequestError m4)
        /\ line (RequestException HTTPError m3)
           <> line (RequestException OtherRequestError m4))
  /\ (forall (check_mark cross_mark url : string) (k : request_kind)
             (msg : string),
        requests_get w url Advanced.headers (Some 10) = Fails k msg ->
        Advanced.try_url check_mark cross_mark w url
        = [nl ++ "Trying to scrape: " ++ url;
           Advanced.handler cross_mark (RequestException k msg)]).
Proof.
  assert (Hret : forall w0 : World,
            1 <= n ->
            (forall p, 1 <= p < n -> goes_on (view w0 p) = true) ->
            (exists k msg, view w0 n = PageFails k msg) ->
            forall fuel, n <= fuel ->
              scrape_quotes_to_scrape w0 fuel
              = Some (flat_map (records_of w0) (seq 1 (n - 1)))).
  { intros w0 Hn Hall (k & msg & Hv) fuel Hfuel.
    exact (proj2 (failed_fetch_run w0 Hn Hall Hv Hfuel)). }
  split; [|split; [|split]].
  - intros Hn Hall Hfail fuel Hfuel.
    apply Hret; auto. now apply view_fails.
  - intros w' Hn Hsame Hf Hf' fuel Hfuel.
    rewrite (Hret w), (Hret w'); auto.
    + f_equal. apply records_agree. intros p Hp.
      assert (Hp' : 1 <= p < n) by lia.
      now destruct (Hsame p Hp').
    + intros p Hp. destruct (Hsame p Hp) as [Hg ->]. exact Hg.
    + intros p Hp. now destruct (Hsame p Hp).
  - intros check_mark cross_mark m1 m2 m3 m4 line. subst line.
    repeat split; intros H; simpl in H; inversion H as [H'];
      apply append_cancel_l in H'; discriminate.
  - intros check_mark cross_mark url k msg H.
    unfold Advanced.try_url, Advanced.try_body. rewrite H. reflexivity.
Qed.

(** C4, as stated, fails: a timeout, a connection error and a 404 on
    page 2 leave the function in the same state and give the caller the
    same list; with the message of the 404 on all three, the printed
    lines are the same too. *)
Lemma failure_kinds_look_alike :
  scrape_quotes_to_scrape (Mock.then_fails Timeout "timed out") 2
  = scrape_quotes_to_scrape (Mock.then_fails ConnectionError "refused") 2
  /\ scrape_quotes_to_scrape (Mock.then_fails ConnectionError "refused") 2
     = scrape_quotes_to_scrape Mock.then_404 2
  /\ scrape_quotes_to_scrape Mock.then_404 2
     = Some (records_of Mock.then_404 1)
  /\ outcome_state
       (scrape_quotes_to_scrape_run (Mock.then_fails Timeout not_found_msg) 2)
     = outcome_state (scrape_quotes_to_scrape_run Mock.then_404 2)
  /\ outcome_state
       (scrape_quotes_to_scrape_run
          (Mock.then_fails ConnectionError not_found_msg) 2)
     = outcome_state (scrape_quotes_to_scrape_run Mock.then_404 2).
Proof.
  by_evaluation.
Qed.

End Failures.

Module Records.
Import Py Bs4 Requests Practical.
Local Open Scope string_scope.

(** C5, as amended.  The record of an item always has the four keys
    [text], [author], [tags] and [page], in this order.  When the
    selector of a field matches nothing within the item, [text] is
    ["No text"], [author] is ["Unknown"] and [tags] is the empty list;
    otherwise [text] and [author] are the stripped text of the first
    match and [tags] the stripped texts of all matches. *)
Theorem record_has_every_field (quote : node) (page : nat) :
  keys (quote_data quote page) = ["text"; "author"; "tags"; "page"]
  /\ dict_get "page" (quote_data quote page) = Some (PInt page)
  /\ (select sel_text quote = [] ->
      dict_get "text" (quote_data quote page) = Some (PStr "No text"))
  /\ (select sel_author quote = [] ->
      dict_get "author" (quote_data quote page) = Some (PStr "Unknown"))
  /\ (select sel_tag quote = [] ->
      dict_get "tags" (quote_data quote page) = Some (PList []))
  /\ (forall first rest, select sel_text quote = first :: rest ->
      dict_get "text" (quote_data quote page)
      = Some (PStr (get_text_strip first)))
  /\ (forall first rest, select sel_author quote = first :: rest ->
      dict_get "author" (quote_data quote page)
      = Some (PStr (get_text_strip first)))
  /\ dict_get "tags" (quote_data quote page)
     = Some (PList (map get_text_strip (select sel_tag quote))).
Proof.
  unfold quote_data, quote_text, quote_author, quote_tags, select_one.
  repeat split; simpl.
  - intros ->. reflexivity.
  - intros ->. reflexivity.
  - intros ->. reflexivity.
  - intros first rest ->. reflexivity.
  - intros first rest ->. reflexivity.
Qed.

(** C5, as stated, fails for [author]: an item without an author element
    gets ["Unknown"], not ["No author"]. *)
Lemma missing_author_is_Unknown :
  select sel_author (Mock.quote_block (Some "Second.") None []) = []
  /\ dict_get "author"
       (quote_data (Mock.quote_block (Some "Second.") None []) 1)
     = Some (PStr "Unknown")
  /\ String.eqb "Unknown" "No author" = false.
Proof. by_evaluation. Qed.

End Records.

Module Links.
Import Py Bs4 Requests Practical PracticalFacts.
Local Open Scope string_scope.

(** C6, as amended.  The pipeline does not resolve the link of the next
    element: when a page has items and a next element, the page counter
    moves by one and the next turn requests
    [base_url + "/page/" + (page + 1) + "/"], whatever the link says;
    rewriting the link targets changes no turn of the loop.  [urljoin],
    which resolves a relative link against a base, gives
    [http://example.test/page/2/] for [/page/2/] against
    [http://example.test/]. *)
Theorem next_url_is_built_from_the_page_counter (w : World) (st : state) :
  (goes_on (view w (page st)) = true ->
   exists st',
     iteration w st = (Normal tt, st')
     /\ page st' = page st + 1
     /\ requested (trace (snd (iteration w st')))
        = (requested (trace st')
           ++ [(base_url ++ "/page/" ++ str (page st + 1) ++ "/")%string])%list)
  /\ (forall f : string -> string,
         iteration (retarget f w) st = iteration w st)
  /\ Urllib.urljoin "http://example.test/" "/page/2/"
     = Some "http://example.test/page/2/".
Proof.
  repeat split.
  - intros Hgo. exists (after_page w st).
    rewrite !iteration_eq. destruct (goes_on_flow _ Hgo) as [-> _].
    repeat split.
    + unfold after_page; simpl. now rewrite Hgo.
    + cbn [snd]. unfold after_page at 1. cbn [trace].
      rewrite requested_app, requested_page_events.
      unfold after_page; cbn [page]. now rewrite Hgo.
  - intros f. apply iteration_retarget.
Qed.

(** C6, as stated, fails: the pager of page 1 links to
    [/tag/love/page/2/], which resolves against the URL of the page to
    [http://quotes.toscrape.com/tag/love/page/2/]; the second request of
    the run goes to [http://quotes.toscrape.com/page/2/]. *)
Lemma next_link_is_not_followed :
  next_btn (view Mock.detour 1)
  = Some (Mock.next_block "/tag/love/page/2/")
  /\ Urllib.urljoin Mock.page1 "/tag/love/page/2/"
     = Some "http://quotes.toscrape.com/tag/love/page/2/"
  /\ requested
       (trace (outcome_state (scrape_quotes_to_scrape_run Mock.detour 2)))
     = [Mock.page1; "http://quotes.toscrape.com/page/2/"]
  /\ String.eqb "http://quotes.toscrape.com/page/2/"
       "http://quotes.toscrape.com/tag/love/page/2/" = false.
Proof. by_evaluation. Qed.

End Links.

(** * Duplicate removal in [scrape_flatiron_courses]: claim C10 *)

Module ScraperFacts.
Import Py Scraper.
Local Open Scope string_scope.

Lemma member_In (x : string) (l : list string) :
  member x l = true <-> In x l.
Proof.
  unfold member. rewrite existsb_exists. split.
  - intros (y & Hy & Heq). apply String.eqb_eq in Heq. now subst.
  - intros H. exists x. split; [exact H | apply String.eqb_refl].
Qed.

Lemma member_not_In (x : string) (l : list string) :
  member x l = false <-> ~ In x l.
Proof.
  rewrite <- member_In. destruct (member x l); split; intros H;
    try discriminate; auto. now elim H.
Qed.

(** The loop keeps what it has and adds the fresh elements. *)
Lemma loop_fresh (l : list string) :
  forall unique_courses,
    fold_left
      (fun unique_courses course =>
         if negb (member course unique_courses)
         then (unique_courses ++ [course])%list
         else unique_courses) l unique_courses
    = (unique_courses ++ fresh unique_courses l)%list.
Proof.
  induction l as [|x l IH]; intros acc; simpl.
  - now rewrite app_nil_r.
  - destruct (member x acc); simpl; rewrite IH; [reflexivity|].
    now rewrite <- app_assoc.
Qed.

Lemma fresh_In (l : list string) :
  forall seen y, In y (fresh seen l) <-> In y l /\ ~ In y seen.
Proof.
  induction l as [|x l IH]; intros seen y; simpl; [tauto|].
  destruct (member x seen) eqn:Hm.
  - apply member_In in Hm. rewrite IH. split.
    + intros [H1 H2]. auto.
    + intros [[->|H1] H2]; [contradiction | auto].
  - apply member_not_In in Hm. simpl. rewrite IH. split.
    + intros [->|[H1 H2]]; [auto|].
      split; [auto|]. intros H. apply H2. apply in_or_app. now left.
    + intros [[->|H1] H2]; [auto|].
      destruct (string_dec x y) as [->|Hne]; [auto|].
      right. split; [exact H1|]. intros H. apply in_app_or in H.
      destruct H as [H|[H|[]]]; auto.
Qed.

Lemma fresh_NoDup (l : list string) : forall seen, NoDup (fresh seen l).
Proof.
  induction l as [|x l IH]; intros seen; simpl; [constructor|].
  destruct (member x seen); [apply IH|].
  constructor; [|apply IH].
  rewrite fresh_In. intros [_ H]. apply H. apply in_or_app. right. now left.
Qed.

Lemma fresh_order (l : list string) :
  forall seen x y,
    In x l -> In y l -> ~ In x seen -> ~ In y seen ->
    (index_of x (fresh seen l) < index_of y (fresh seen l)
     <-> index_of x l < index_of y l).
Proof.
  induction l as [|h l IH]; intros seen x y Hx Hy Hxs Hys; [destruct Hx|].
  simpl fresh. destruct (member h seen) eqn:Hm.
  - apply member_In in Hm.
    assert (Hxh : x <> h) by (intros ->; contradiction).
    assert (Hyh : y <> h) by (intros ->; contradiction).
    destruct Hx as [Hx|Hx]; [congruence|].
    destruct Hy as [Hy|Hy]; [congruence|].
    simpl. apply String.eqb_neq in Hxh, Hyh. rewrite Hxh, Hyh.
    rewrite <- !Nat.succ_lt_mono. now apply IH.
  - simpl.
    destruct (String.eqb x h) eqn:Exh, (String.eqb y h) eqn:Eyh;
      try lia.
    apply String.eqb_neq in Exh, Eyh.
    destruct Hx as [Hx|Hx]; [congruence|].
    destruct Hy as [Hy|Hy]; [congruence|].
    rewrite <- !Nat.succ_lt_mono. apply IH; try assumption.
    + intros H. apply in_app_or in H. destruct H as [H|[H|[]]]; auto.
    + intros H. apply in_app_or in H. destruct H as [H|[H|[]]]; auto.
Qed.

(** C10.  The list the loop builds holds each string of the input once,
    where it first occurs: it is the list of the first occurrences, it
    has no duplicate, it has the elements of the input, and two of them
    stand in the order of their first occurrences in the input. *)
Theorem duplicates_removed_in_first_occurrence_order
  (courses_found : list string) :
  remove_duplicates courses_found = first_occurrences courses_found
  /\ NoDup (remove_duplicates courses_found)
  /\ (forall x, In x (remove_duplicates courses_found) <-> In x courses_found)
  /\ (forall x y,
         In x courses_found -> In y courses_found ->
         (index_of x (remove_duplicates courses_found)
          < index_of y (remove_duplicates courses_found)
          <-> index_of x courses_found < index_of y courses_found)).
Proof.
  assert (Heq : remove_duplicates courses_found
                = first_occurrences courses_found).
  { unfold remove_duplicates, first_occurrences. now rewrite loop_fresh. }
  rewrite Heq. unfold first_occurrences. split_all.
  - reflexivity.
  - apply fresh_NoDup.
  - intros x. rewrite fresh_In. simpl. tauto.
  - intros x y Hx Hy. apply fresh_order; auto.
Qed.

End ScraperFacts.

(** * [analyze_scraped_data]: claim C9 *)

Module AnalysisFacts.
Import Py Analysis.
Local Open Scope string_scope.

Lemma in_bounds_bind {A B : Type} (c : Out A) (k : A -> Out B) :
  in_bounds c -> (forall a, in_bounds (k a)) -> in_bounds (bind c k).
Proof.
  intros Hc Hk msg. unfold bind.
  destruct c as [lines [a|e]]; simpl.
  - specialize (Hk a msg). destruct (k a) as [lines' r]. exact Hk.
  - specialize (Hc msg). simpl in Hc. intros H. apply Hc.
    inversion H. reflexivity.
Qed.

Lemma in_bounds_print (line : string) : in_bounds (print line).
Proof. intros msg; discriminate. Qed.

Lemma in_bounds_ret {A : Type} (a : A) : in_bounds (ret a).
Proof. intros msg; discriminate. Qed.

Lemma in_bounds_item (d : dict) (k : string) : in_bounds (lift (item d k)).
Proof. intros msg. unfold item; simpl. destruct (dict_get k d); discriminate. Qed.

Lemma in_bounds_len (v : pyval) : in_bounds (lift (len v)).
Proof. intros msg. destruct v; discriminate. Qed.

Lemma in_bounds_iterate (v : pyval) : in_bounds (lift (iterate v)).
Proof. intros msg. destruct v; discriminate. Qed.

Lemma in_bounds_hashable (v : pyval) : in_bounds (lift (hashable v)).
Proof. intros msg. destruct v; discriminate. Qed.

Lemma in_bounds_slice_to (n : nat) (v : pyval) :
  in_bounds (lift (slice_to n v)).
Proof. intros msg. destruct v; discriminate. Qed.

Lemma in_bounds_for_each {A : Type} (l : list A) (f : A -> Out unit) :
  (forall x, in_bounds (f x)) -> in_bounds (for_each l f).
Proof.
  intros Hf. induction l as [|x l IH]; simpl.
  - apply in_bounds_ret.
  - apply in_bounds_bind; auto.
Qed.

Lemma in_bounds_for_fold {A S : Type} (l : list A) (f : S -> A -> Out S) :
  (forall acc x, in_bounds (f acc x)) ->
  forall acc, in_bounds (for_fold l acc f).
Proof.
  intros Hf. induction l as [|x l IH]; intros acc; simpl.
  - apply in_bounds_ret.
  - apply in_bounds_bind; auto.
Qed.

Lemma in_bounds_for_map {A B : Type} (l : list A) (f : A -> Out B) :
  (forall x, in_bounds (f x)) -> in_bounds (for_map l f).
Proof.
  intros Hf. induction l as [|x l IH]; simpl.
  - apply in_bounds_ret.
  - apply in_bounds_bind; auto. intros y.
    apply in_bounds_bind; auto. intros ys. apply in_bounds_ret.
Qed.

Create HintDb bounds.
#[local] Hint Resolve in_bounds_bind in_bounds_print in_bounds_ret in_bounds_item
  in_bounds_len in_bounds_iterate in_bounds_hashable in_bounds_slice_to
  : bounds.

(** *** One triple per quote *)

Lemma for_map_length {A B : Type} (f : A -> Out B) (l : list A) :
  forall lines ys,
    for_map l f = (lines, Ok ys) -> List.length ys = List.length l.
Proof.
  induction l as [|x l IH]; intros lines ys H; simpl in H.
  - inversion H. reflexivity.
  - unfold bind in H. destruct (f x) as [l1 [y|e]]; [|discriminate].
    destruct (for_map l f) as [l2 [ys'|e]]; [|discriminate].
    simpl in H. inversion H; subst. simpl. f_equal. eapply IH. reflexivity.
Qed.

Lemma insert_by_length {A : Type} (le : A -> A -> bool) (x : A) (l : list A) :
  List.length (insert_by le x l) = S (List.length l).
Proof.
  induction l as [|y l IH]; simpl; [reflexivity|].
  destruct (le x y); simpl; [reflexivity | now rewrite IH].
Qed.

Lemma sort_by_length_eq {A : Type} (le : A -> A -> bool) (l : list A) :
  List.length (sort_by le l) = List.length l.
Proof.
  induction l as [|x l IH]; simpl; [reflexivity|].
  now rewrite insert_by_length, IH.
Qed.

(** *** Indexing a list that is not empty *)

Lemma list_index_first {A : Type} (l : list A) :
  l <> [] -> exists x, list_index l 0 = Ok x /\ hd_error l = Some x.
Proof.
  destruct l as [|x l]; [congruence|]. intros _. exists x.
  unfold list_index. cbn [List.length].
  replace (0 <? 0)%Z with false by reflexivity.
  replace ((0 <? 0) || (Z.of_nat (S (List.length l)) <=? 0))%Z with false.
  - auto.
  - symmetry. apply orb_false_iff. split; [reflexivity|].
    apply Z.leb_gt. lia.
Qed.

Lemma list_index_last {A : Type} (l : list A) :
  l <> [] ->
  exists x, list_index l (-1) = Ok x
            /\ nth_error l (List.length l - 1) = Some x.
Proof.
  intros Hl.
  assert (Hlen : 0 < List.length l) by (destruct l; simpl; [congruence|lia]).
  destruct (nth_error l (List.length l - 1)) as [x|] eqn:Hx.
  2: { apply nth_error_None in Hx. lia. }
  exists x. unfold list_index.
  replace (-1 <? 0)%Z with true by reflexivity.
  replace ((-1 + Z.of_nat (List.length l) <? 0)
           || (Z.of_nat (List.length l)
                 <=? -1 + Z.of_nat (List.length l)))%Z with false.
  - replace (Z.to_nat (-1 + Z.of_nat (List.length l)))
      with (List.length l - 1) by lia.
    now rewrite Hx.
  - symmetry. apply orb_false_iff. split.
    + apply Z.ltb_ge. lia.
    + apply Z.leb_gt. lia.
Qed.

Lemma in_bounds_report_extremes (quote_lengths : list (nat * pyval * pyval)) :
  quote_lengths <> [] -> in_bounds (report_extremes quote_lengths).
Proof.
  intros Hl. unfold report_extremes.
  destruct (list_index_first Hl) as (shortest & -> & _).
  destruct (list_index_last Hl) as (longest & -> & _).
  apply in_bounds_bind; [intros msg; discriminate|]. intros s.
  apply in_bounds_bind; [intros msg; discriminate|]. intros g.
  repeat (apply in_bounds_bind; [auto with bounds|]; intros ?).
  destruct (100 <? a2)%nat; auto with bounds.
Qed.

Lemma in_bounds_measure (quotes : list dict) : in_bounds (measure quotes).
Proof.
  apply in_bounds_for_map. intros quote.
  repeat (apply in_bounds_bind; [auto with bounds|]; intros ?).
  auto with bounds.
Qed.

Lemma in_bounds_count_authors (quotes : list dict) :
  in_bounds (count_authors quotes).
Proof.
  apply in_bounds_for_fold. intros acc quote.
  repeat (apply in_bounds_bind; [auto with bounds|]; intros ?).
  auto with bounds.
Qed.

Lemma in_bounds_collect_tags (quotes : list dict) :
  in_bounds (collect_tags quotes).
Proof.
  apply in_bounds_for_fold. intros acc quote.
  repeat (apply in_bounds_bind; [auto with bounds|]; intros ?).
  auto with bounds.
Qed.

(** C9.  [analyze_scraped_data] never ends in an [IndexError].  On the
    empty list it returns after its second line, before any list is
    indexed.  Otherwise [quote_lengths], when it is built, has one entry
    per quote, sorted or not, so that [quote_lengths[0]] and
    [quote_lengths[-1]] both exist; on an empty list either access
    would raise. *)
Theorem analysis_stays_in_bounds (quotes : list dict) :
  (forall msg, snd (analyze_scraped_data quotes) <> Raise (IndexError msg))
  /\ (quotes = [] ->
      analyze_scraped_data quotes
      = ([Printed (nl ++ "=== Data Analysis ===");
          Printed "No quotes to analyze!"], Ok tt))
  /\ (forall lines quote_lengths,
        measure quotes = (lines, Ok quote_lengths) ->
        List.length quote_lengths = List.length quotes
        /\ List.length (sort_by_length quote_lengths) = List.length quotes
        /\ (quotes <> [] ->
            exists shortest longest,
              list_index (sort_by_length quote_lengths) 0 = Ok shortest
              /\ list_index (sort_by_length quote_lengths) (-1) = Ok longest))
  /\ list_index (sort_by_length []) 0
     = Raise (IndexError "list index out of range")
  /\ list_index (sort_by_length []) (-1)
     = Raise (IndexError "list index out of range").
Proof.
  split_all.
  - fold (in_bounds (analyze_scraped_data quotes)).
    unfold analyze_scraped_data.
    apply in_bounds_bind; [auto with bounds|]. intros _.
    destruct quotes as [|quote quotes]; [auto with bounds|].
    apply in_bounds_bind; [apply in_bounds_count_authors|]. intros counts.
    apply in_bounds_bind; [auto with bounds|]. intros _.
    apply in_bounds_bind.
    { apply in_bounds_for_each. intros [author count]. auto with bounds. }
    intros _.
    apply in_bounds_bind; [apply in_bounds_collect_tags|]. intros all_tags.
    apply in_bounds_bind; [auto with bounds|]. intros _.
    apply in_bounds_bind.
    { apply in_bounds_for_each. intros [tag count]. auto with bounds. }
    intros _.
    remember (quote :: quotes) as qs eqn:Hqs.
    destruct (measure qs) as [lines [ql|e]] eqn:Hm.
    + assert (Hlen : List.length ql = List.length qs)
        by (eapply for_map_length; exact Hm).
      intros msg. unfold bind. simpl.
      assert (Hne : sort_by_length ql <> []).
      { intros H. apply (f_equal (@List.length _)) in H.
        unfold sort_by_length in H. rewrite sort_by_length_eq in H.
        subst qs. simpl in *. lia. }
      pose proof (in_bounds_report_extremes Hne) as Hr.
      unfold in_bounds in Hr. specialize (Hr msg).
      destruct (report_extremes (sort_by_length ql)) as [lines' r].
      exact Hr.
    + intros msg. unfold bind. simpl.
      pose proof (in_bounds_measure qs) as Hr.
      unfold in_bounds in Hr. specialize (Hr msg). rewrite Hm in Hr.
      simpl in Hr. intros H. apply Hr. inversion H. reflexivity.
  - intros ->. reflexivity.
  - intros lines quote_lengths H.
    assert (Hlen : List.length quote_lengths = List.length quotes)
      by (eapply for_map_length; exact H).
    split_all.
    + exact Hlen.
    + unfold sort_by_length. now rewrite sort_by_length_eq.
    + intros Hne.
      assert (Hl : sort_by_length quote_lengths <> []).
      { intros Hs. apply (f_equal (@List.length _)) in Hs.
        unfold sort_by_length in Hs. rewrite sort_by_length_eq in Hs.
        rewrite Hlen in Hs.
        destruct quotes; simpl in Hs; [congruence | lia]. }
      destruct (list_index_first Hl) as (shortest & Hs & _).
      destruct (list_index_last Hl) as (longest & Hg & _).
      eauto.
  - reflexivity.
  - reflexivity.
Qed.

End AnalysisFacts.

(** * The CSV writer and reader: what is written is read back *)

Module CsvFacts.
Import Py Csv StringFacts.
Local Open Scope string_scope.

(** A character that is not special is neither a newline, a quote nor a
    delimiter. *)
Lemma special_false (c : ascii) :
  special c = false ->
  Ascii.eqb c delimiter = false /\ Ascii.eqb c quotechar = false
  /\ Ascii.eqb c cr = false /\ Ascii.eqb c lf = false.
Proof.
  unfold special. intros H.
  apply orb_false_iff in H. destruct H as [H Hlf].
  apply orb_false_iff in H. destruct H as [H Hcr].
  apply orb_false_iff in H. destruct H as [Hd Hq]. auto.
Qed.

Lemma quotechar_plain :
  Ascii.eqb quotechar lf = false /\ Ascii.eqb quotechar cr = false
  /\ Ascii.eqb quotechar delimiter = false.
Proof. repeat split. Qed.

(** Inside quotes, the end of a line changes nothing. *)
Lemma end_line_quoted (rows : list (list string)) (b : string)
  (fs : list string) :
  end_line (rows, reader_at IN_QUOTED_FIELD b fs)
  = Ok (rows, reader_at IN_QUOTED_FIELD b fs).
Proof. reflexivity. Qed.

Lemma feed_step (c : ascii) (s : string) (fl : bool)
  (rows : list (list string)) (r r' : reader) :
  process r (Char c) = Ok r' ->
  feed (String c s) fl (rows, r)
  = if line_ends c s
    then match end_line (rows, r') with
         | Raise e => Raise e
         | Ok rd' => feed s true rd'
         end
    else feed s false (rows, r').
Proof. intros H. cbn [feed snd fst]. now rewrite H. Qed.

(** A character within the line. *)
Lemma feed_inline (c : ascii) (s : string) (fl : bool)
  (rows : list (list string)) (r r' : reader) :
  process r (Char c) = Ok r' ->
  Ascii.eqb c lf = false -> Ascii.eqb c cr = false ->
  feed (String c s) fl (rows, r) = feed s false (rows, r').
Proof.
  intros H Hlf Hcr. erewrite feed_step by exact H.
  unfold line_ends. now rewrite Hlf, Hcr.
Qed.

Lemma process_quoted (c : ascii) (b : string) (fs : list string) :
  Ascii.eqb c quotechar = false ->
  process (reader_at IN_QUOTED_FIELD b fs) (Char c)
  = Ok (reader_at IN_QUOTED_FIELD (b ++ String c EmptyString) fs).
Proof.
  intros H. unfold process, reader_at. cbn [state]. now rewrite H.
Qed.

Lemma process_closing_quote (b : string) (fs : list string) :
  process (reader_at IN_QUOTED_FIELD b fs) (Char quotechar)
  = Ok (reader_at QUOTE_IN_QUOTED_FIELD b fs).
Proof. reflexivity. Qed.

Lemma process_doubled_quote (b : string) (fs : list string) :
  process (reader_at QUOTE_IN_QUOTED_FIELD b fs) (Char quotechar)
  = Ok (reader_at IN_QUOTED_FIELD (b ++ String quotechar EmptyString) fs).
Proof. reflexivity. Qed.

(** The body of a quoted field and its closing quote. *)
Lemma feed_quoted_body (s : string) :
  forall (tail b : string) (fs : list string) (rows : list (list string))
         (fl : bool),
    feed (double_quotes s ++ String quotechar tail) fl
      (rows, reader_at IN_QUOTED_FIELD b fs)
    = feed tail false (rows, reader_at QUOTE_IN_QUOTED_FIELD (b ++ s) fs).
Proof.
  induction s as [|c s IH]; intros tail b fs rows fl.
  - cbn [double_quotes append].
    erewrite feed_inline
      by (first [apply process_closing_quote | reflexivity]).
    now rewrite append_nil_r.
  - cbn [double_quotes].
    destruct (Ascii.eqb c quotechar) eqn:Hq.
    + apply Ascii.eqb_eq in Hq. subst c. cbn [append].
      erewrite feed_inline
        by (first [apply process_closing_quote | reflexivity]).
      erewrite feed_inline
        by (first [apply process_doubled_quote | reflexivity]).
      rewrite IH. now rewrite append_char.
    + cbn [append]. erewrite feed_step by (apply process_quoted; exact Hq).
      destruct (line_ends c (double_quotes s ++ String quotechar tail)).
      * rewrite end_line_quoted, IH. now rewrite append_char.
      * rewrite IH. now rewrite append_char.
Qed.

(** The body of a field that needs no quotes. *)
Lemma feed_plain_body (s : string) :
  forall (tail b : string) (fs : list string) (rows : list (list string))
         (fl : bool),
    needs_quotes s = false ->
    feed (s ++ tail) fl (rows, reader_at IN_FIELD b fs)
    = feed tail (match s with EmptyString => fl | _ => false end)
        (rows, reader_at IN_FIELD (b ++ s) fs).
Proof.
  induction s as [|c s IH]; intros tail b fs rows fl Hs.
  - cbn [append]. now rewrite append_nil_r.
  - cbn [needs_quotes] in Hs. apply orb_false_iff in Hs.
    destruct Hs as [Hc Hs].
    destruct (special_false _ Hc) as (Hd & Hq & Hcr & Hlf).
    cbn [append].
    erewrite feed_inline
      with (r' := reader_at IN_FIELD (b ++ String c EmptyString) fs); [|
      unfold process, reader_at, is_newline; cbn [state];
      rewrite Hlf, Hcr, Hd; reflexivity | exact Hlf | exact Hcr].
    rewrite IH by exact Hs. rewrite append_char.
    now destruct s.
Qed.

(** A field that is not empty, as the writer writes it. *)
Lemma feed_field (f tail : string) (st : parser_state) (fs : list string)
  (rows : list (list string)) (fl : bool) :
  starting st -> f <> EmptyString ->
  exists st',
    (st' = IN_FIELD \/ st' = QUOTE_IN_QUOTED_FIELD)
    /\ feed (write_field f ++ tail) fl (rows, reader_at st EmptyString fs)
       = feed tail false (rows, reader_at st' f fs).
Proof.
  intros Hst Hf. unfold write_field.
  destruct (needs_quotes f) eqn:Hn.
  - exists QUOTE_IN_QUOTED_FIELD. split; [auto|].
    cbn [append]. rewrite append_assoc. cbn [append].
    erewrite feed_inline
      with (r' := reader_at IN_QUOTED_FIELD EmptyString fs);
      [| destruct Hst as [-> | ->]; reflexivity | reflexivity | reflexivity].
    now rewrite feed_quoted_body.
  - exists IN_FIELD. split; [auto|].
    destruct f as [|c f]; [congruence|].
    cbn [needs_quotes] in Hn. apply orb_false_iff in Hn.
    destruct Hn as [Hc Hn].
    destruct (special_false _ Hc) as (Hd & Hq & Hcr & Hlf).
    cbn [append].
    erewrite feed_inline
      with (r' := reader_at IN_FIELD (String c EmptyString) fs); [|
      destruct Hst as [-> | ->];
      unfold process, start_field, reader_at, is_newline; cbn [state];
      rewrite Hlf, Hcr, ?Hq, ?Hd; cbn [orb]; rewrite ?Hq, ?Hd; reflexivity
      | exact Hlf | exact Hcr].
    rewrite feed_plain_body by exact Hn. cbn [append].
    now destruct f.
Qed.

(** The delimiter after a field. *)
Lemma feed_delimiter (f tail : string) (st : parser_state)
  (fs : list string) (rows : list (list string)) (fl : bool) :
  read st \/ st = START_RECORD ->
  feed (String delimiter tail) fl (rows, reader_at st f fs)
  = feed tail false (rows, reader_at START_FIELD EmptyString (fs ++ [f])).
Proof.
  intros Hst.
  erewrite feed_inline
    with (r' := reader_at START_FIELD EmptyString (fs ++ [f]));
    [reflexivity | | reflexivity | reflexivity].
  destruct Hst as [[-> | [-> | ->]] | ->]; reflexivity.
Qed.

(** The line terminator after the last field. *)
Lemma feed_terminator (f tail : string) (st : parser_state)
  (fs : list string) (rows : list (list string)) (fl : bool) :
  read st ->
  feed (lineterminator ++ tail) fl (rows, reader_at st f fs)
  = feed tail true (rows ++ [fs ++ [f]], start)%list.
Proof.
  intros Hst. unfold lineterminator. cbn [append].
  erewrite feed_step with (r' := reader_at EAT_CRNL EmptyString (fs ++ [f])).
  2: { destruct Hst as [-> | [-> | ->]]; reflexivity. }
  unfold line_ends at 1.
  change (Ascii.eqb cr lf) with false. change (Ascii.eqb cr cr) with true.
  change (Ascii.eqb lf lf) with true. cbn [orb andb negb].
  erewrite feed_step by reflexivity.
  unfold line_ends. change (Ascii.eqb lf lf) with true. cbn [orb].
  reflexivity.
Qed.

Lemma feed_empty_row (tail : string) (rows : list (list string)) (fl : bool) :
  feed (lineterminator ++ tail) fl (rows, start)
  = feed tail true (rows ++ [[]], start)%list.
Proof.
  unfold lineterminator. cbn [append].
  erewrite feed_step with (r' := reader_at EAT_CRNL EmptyString []).
  2: reflexivity.
  unfold line_ends at 1.
  change (Ascii.eqb cr lf) with false. change (Ascii.eqb cr cr) with true.
  change (Ascii.eqb lf lf) with true. cbn [orb andb negb].
  erewrite feed_step by reflexivity.
  unfold line_ends. change (Ascii.eqb lf lf) with true. cbn [orb].
  reflexivity.
Qed.

Lemma write_field_empty : write_field EmptyString = EmptyString.
Proof. reflexivity. Qed.

(** The fields after a delimiter, up to the end of the row. *)
Lemma feed_fields (fs : list string) :
  fs <> [] ->
  forall (done : list string) (tail : string) (rows : list (list string))
         (fl : bool),
    feed ((join comma (map write_field fs) ++ lineterminator) ++ tail) fl
      (rows, reader_at START_FIELD EmptyString done)
    = feed tail true (rows ++ [done ++ fs], start)%list.
Proof.
  induction fs as [|f fs IH]; [congruence|]. intros _ done tail rows fl.
  destruct fs as [|g fs].
  - cbn [map join]. rewrite append_assoc.
    destruct (string_dec f EmptyString) as [->|Hf].
    + rewrite write_field_empty. cbn [append].
      apply feed_terminator. unfold read. auto.
    + destruct (@feed_field f (lineterminator ++ tail) START_FIELD done
                  rows fl) as (st' & Hst' & ->);
        [unfold starting; auto | exact Hf |].
      apply feed_terminator. unfold read. tauto.
  - change (join comma (map write_field (f :: g :: fs)))
      with (write_field f ++ comma ++ join comma (map write_field (g :: fs))).
    rewrite !append_assoc. unfold comma at 1. cbn [append].
    rewrite <- append_assoc.
    assert (Hnext : forall st f0 fl0,
               read st ->
               feed (String delimiter
                       ((join comma (map write_field (g :: fs))
                           ++ lineterminator) ++ tail)) fl0
                 (rows, reader_at st f0 done)
               = feed tail true
                   (rows ++ [done ++ f0 :: g :: fs], start)%list).
    { intros st f0 fl0 Hst. rewrite feed_delimiter by auto.
      rewrite IH by congruence. now rewrite <- app_assoc. }
    destruct (string_dec f EmptyString) as [->|Hf].
    + rewrite write_field_empty. cbn [append].
      apply Hnext. unfold read. auto.
    + destruct (@feed_field f
                  (String delimiter
                     ((join comma (map write_field (g :: fs))
                         ++ lineterminator) ++ tail))
                  START_FIELD done rows fl) as (st' & Hst' & ->);
        [unfold starting; auto | exact Hf |].
      apply Hnext. unfold read. tauto.
Qed.

Lemma write_row_joined (fs : list string) :
  fs <> [EmptyString] ->
  write_row fs = join comma (map write_field fs) ++ lineterminator.
Proof.
  intros H. destruct fs as [|[|c f] [|g fs]]; try reflexivity. congruence.
Qed.

(** A row, from the start of a record. *)
Lemma feed_row (fs : list string) (tail : string)
  (rows : list (list string)) (fl : bool) :
  feed (write_row fs ++ tail) fl (rows, start)
  = feed tail true (rows ++ [fs], start)%list.
Proof.
  change start with (reader_at START_RECORD EmptyString []).
  destruct fs as [|f [|g fs]].
  - cbn [write_row map join append]. apply feed_empty_row.
  - destruct f as [|c f].
    + cbn [write_row]. rewrite append_assoc. cbn [append].
      erewrite feed_inline
        with (r' := reader_at IN_QUOTED_FIELD EmptyString []);
        [| reflexivity | reflexivity | reflexivity].
      erewrite feed_inline
        with (r' := reader_at QUOTE_IN_QUOTED_FIELD EmptyString []);
        [| reflexivity | reflexivity | reflexivity].
      rewrite feed_terminator by (unfold read; auto). reflexivity.
    + rewrite write_row_joined by congruence. cbn [map join].
      rewrite append_assoc.
      destruct (@feed_field (String c f) (lineterminator ++ tail)
                  START_RECORD [] rows fl) as (st' & Hst' & ->);
        [unfold starting; auto | congruence |].
      rewrite feed_terminator by (unfold read; tauto). reflexivity.
  - rewrite write_row_joined by congruence.
    change (join comma (map write_field (f :: g :: fs)))
      with (write_field f ++ comma ++ join comma (map write_field (g :: fs))).
    rewrite !append_assoc. unfold comma at 1. cbn [append].
    rewrite <- append_assoc.
    assert (Hnext : forall st fl0,
               read st \/ st = START_RECORD ->
               feed (String delimiter
                       ((join comma (map write_field (g :: fs))
                           ++ lineterminator) ++ tail)) fl0
                 (rows, reader_at st f [])
               = feed tail true (rows ++ [f :: g :: fs], start)%list).
    { intros st fl0 Hst. rewrite feed_delimiter by auto.
      rewrite feed_fields by congruence. reflexivity. }
    destruct (string_dec f EmptyString) as [->|Hf].
    + rewrite write_field_empty. cbn [append]. apply Hnext. auto.
    + destruct (@feed_field f
                  (String delimiter
                     ((join comma (map write_field (g :: fs))
                         ++ lineterminator) ++ tail))
                  START_RECORD [] rows fl) as (st' & Hst' & ->);
        [unfold starting; auto | exact Hf |].
      apply Hnext. unfold read. tauto.
Qed.

Lemma feed_rows (rows' : list (list string)) :
  forall (rows : list (list string)) (fl : bool),
    feed (write_rows rows') fl (rows, start)
    = Ok (match rows' with [] => fl | _ => true end,
          ((rows ++ rows')%list, start)).
Proof.
  induction rows' as [|row rows' IH]; intros rows fl.
  - cbn [write_rows feed]. now rewrite app_nil_r.
  - cbn [write_rows]. rewrite feed_row, IH, <- app_assoc.
    now destruct rows'.
Qed.

(** What the writer writes, the reader reads back. *)
Lemma read_write_rows (rows : list (list string)) :
  read_rows (write_rows rows) = Ok rows.
Proof.
  unfold read_rows. rewrite feed_rows. cbn [app].
  destruct rows; reflexivity.
Qed.

End CsvFacts.

(** * The JSON encoder and decoder: what is written is read back *)

Unset Implicit Arguments.

Module JsonFacts.
Import Py Json StringFacts.
Local Open Scope string_scope.

(** *** Strings *)

Lemma scan_escape_char (c : ascii) (rest : string) :
  scan_string (escape_char c ++ rest) = cons_char c (scan_string rest).
Proof.
  destruct c as [b0 b1 b2 b3 b4 b5 b6 b7].
  destruct b0, b1, b2, b3, b4, b5, b6, b7; reflexivity.
Qed.

Lemma scan_escape (s : string) (rest : string) :
  scan_string (escape s ++ String dquote_char rest) = Some (s, rest).
Proof.
  induction s as [|c s IH]; [reflexivity|].
  cbn [escape]. rewrite append_assoc, scan_escape_char, IH. reflexivity.
Qed.

Lemma parse_string (fuel : nat) (s rest : string) :
  parse_value (S fuel) (encode_string s ++ rest) = Some (JStr s, rest).
Proof.
  unfold encode_string.
  change (String dquote_char (escape s ++ String dquote_char EmptyString)
            ++ rest)
    with (String dquote_char
            ((escape s ++ String dquote_char EmptyString) ++ rest)).
  rewrite append_assoc.
  change (String dquote_char EmptyString ++ rest)
    with (String dquote_char rest).
  cbn [parse_value]. rewrite Ascii.eqb_refl.
  now rewrite scan_escape.
Qed.

(** *** White space *)

Lemma skip_ws_indent (level : nat) (rest : string) :
  skip_ws (repeat_string "  " level ++ rest) = skip_ws rest.
Proof.
  induction level as [|level IH]; [reflexivity|].
  cbn [repeat_string]. rewrite append_assoc. cbn [append skip_ws].
  exact IH.
Qed.

Lemma skip_ws_newline_indent (level : nat) (rest : string) :
  skip_ws (newline_indent level ++ rest) = skip_ws rest.
Proof.
  unfold newline_indent. rewrite append_assoc. cbn [nl append skip_ws].
  change (whitespace (ascii_of_nat 10)) with true. cbv iota.
  apply skip_ws_indent.
Qed.

(** *** Numbers *)

Lemma to_uint_shape (n : nat) :
  Nat.to_uint n = Decimal.D0 Decimal.Nil \/ leading (Nat.to_uint n) = true.
Proof.
  pose proof (DecimalNat.Unsigned.to_of (Nat.to_uint n)) as H.
  rewrite DecimalNat.Unsigned.of_to in H.
  unfold Decimal.unorm in H.
  destruct (Decimal.nzhead (Nat.to_uint n)) eqn:Hz.
  - left. exact H.
  - exfalso. exact (DecimalFacts.nzhead_nonzero _ _ Hz).
  - right. rewrite H. reflexivity.
  - right. rewrite H. reflexivity.
  - right. rewrite H. reflexivity.
  - right. rewrite H. reflexivity.
  - right. rewrite H. reflexivity.
  - right. rewrite H. reflexivity.
  - right. rewrite H. reflexivity.
  - right. rewrite H. reflexivity.
  - right. rewrite H. reflexivity.
Qed.

Lemma scan_digits_of_uint (d : Decimal.uint) (rest : string) :
  ends_number rest = true ->
  scan_digits (NilEmpty.string_of_uint d ++ rest)
  = (NilEmpty.string_of_uint d, rest).
Proof.
  intros Hrest. induction d; cbn [NilEmpty.string_of_uint append scan_digits];
    try (change (digit "0") with true; cbv iota; now rewrite IHd);
    try (change (digit "1") with true; cbv iota; now rewrite IHd);
    try (change (digit "2") with true; cbv iota; now rewrite IHd);
    try (change (digit "3") with true; cbv iota; now rewrite IHd);
    try (change (digit "4") with true; cbv iota; now rewrite IHd);
    try (change (digit "5") with true; cbv iota; now rewrite IHd);
    try (change (digit "6") with true; cbv iota; now rewrite IHd);
    try (change (digit "7") with true; cbv iota; now rewrite IHd);
    try (change (digit "8") with true; cbv iota; now rewrite IHd);
    try (change (digit "9") with true; cbv iota; now rewrite IHd).
  destruct rest as [|c rest]; [reflexivity|].
  cbn [scan_digits]. unfold ends_number in Hrest.
  apply andb_true_iff in Hrest. destruct Hrest as [Hd _].
  apply negb_true_iff in Hd. now rewrite Hd.
Qed.

Lemma ends_number_fraction (rest : string) :
  ends_number rest = true -> fraction_or_exponent rest = false.
Proof.
  destruct rest as [|c rest]; [reflexivity|]. unfold ends_number.
  intros H. apply andb_true_iff in H. destruct H as [_ H].
  now apply negb_true_iff in H.
Qed.

Lemma scan_number_str (n : nat) (rest : string) :
  ends_number rest = true ->
  scan_number (str n ++ rest) = Some (n, rest).
Proof.
  intros Hrest. unfold str, scan_number.
  destruct (to_uint_shape n) as [Hz|Hl].
  - rewrite Hz. cbn [NilEmpty.string_of_uint append].
    change (Ascii.eqb "0" "0") with true. cbv iota.
    rewrite (ends_number_fraction _ Hrest).
    cbn [NilEmpty.uint_of_string uint_of_char].
    f_equal. f_equal.
    rewrite <- (DecimalNat.Unsigned.of_to n), Hz. reflexivity.
  - assert (Hscan : (match NilEmpty.string_of_uint (Nat.to_uint n) ++ rest with
                     | String c s' =>
                         if Ascii.eqb c "0" then ("0", s')
                         else scan_digits
                                (NilEmpty.string_of_uint (Nat.to_uint n)
                                   ++ rest)
                     | EmptyString =>
                         scan_digits
                           (NilEmpty.string_of_uint (Nat.to_uint n) ++ rest)
                     end)
                    = (NilEmpty.string_of_uint (Nat.to_uint n), rest)).
    { rewrite scan_digits_of_uint by exact Hrest.
      destruct (Nat.to_uint n); try discriminate Hl; reflexivity. }
    rewrite Hscan. rewrite (ends_number_fraction _ Hrest).
    rewrite NilEmpty.usu. now rewrite DecimalNat.Unsigned.of_to.
Qed.

(** The first character of a number is a digit. *)
Lemma str_starts_with_digit (n : nat) :
  exists c s, str n = String c s /\ digit c = true.
Proof.
  unfold str. destruct (to_uint_shape n) as [Hz|Hl].
  - rewrite Hz. eexists. eexists. split; reflexivity.
  - destruct (Nat.to_uint n); try discriminate Hl;
      eexists; eexists; split; reflexivity.
Qed.

Lemma parse_number (fuel n : nat) (rest : string) :
  ends_number rest = true ->
  parse_value (S fuel) (str n ++ rest) = Some (JInt n, rest).
Proof.
  intros Hrest.
  pose proof (scan_number_str n rest Hrest) as Hscan.
  destruct (str_starts_with_digit n) as (c & s & Hs & Hc).
  rewrite Hs in *. cbn [append] in *. cbn [parse_value].
  assert (Hq : Ascii.eqb c dquote_char = false
               /\ Ascii.eqb c "[" = false /\ Ascii.eqb c "{" = false).
  { clear - Hc. destruct c as [b0 b1 b2 b3 b4 b5 b6 b7].
    destruct b0, b1, b2, b3, b4, b5, b6, b7; try discriminate Hc;
      repeat split. }
  destruct Hq as (-> & -> & ->). rewrite Hc, Hscan. reflexivity.
Qed.

(** *** Values *)

Lemma json_induction (P : json -> Prop) :
  (forall s, P (JStr s)) ->
  (forall n, P (JInt n)) ->
  (forall items, Forall P items -> P (JArr items)) ->
  (forall members, Forall (fun kv => P (snd kv)) members ->
                   P (JObj members)) ->
  forall v, P v.
Proof.
  intros Hs Hn Ha Ho. fix IH 1. intros [s|n|items|members].
  - apply Hs.
  - apply Hn.
  - apply Ha. induction items as [|x items IHi]; constructor; auto.
  - apply Ho. induction members as [|[k x] members IHm]; constructor; auto.
Qed.

Lemma encode_arr (level : nat) (items : list json) :
  encode level (JArr items)
  = block "[" "]" level (map (encode (S level)) items).
Proof.
  reflexivity.
Qed.

Lemma encode_obj (level : nat) (members : list (string * json)) :
  encode level (JObj members)
  = block "{" "}" level (map (encode_member level) members).
Proof.
  cbn [encode]. f_equal.
  induction members as [|[k x] members IH]; [reflexivity|].
  cbn [map]. now rewrite IH.
Qed.

Lemma value_start_plain (c : ascii) :
  value_start c = true ->
  whitespace c = false /\ Ascii.eqb c "]" = false
  /\ Ascii.eqb c "}" = false /\ Ascii.eqb c "," = false.
Proof.
  destruct c as [b0 b1 b2 b3 b4 b5 b6 b7].
  destruct b0, b1, b2, b3, b4, b5, b6, b7; intros H;
    try discriminate H; repeat split.
Qed.

Lemma encode_starts (v : json) (level : nat) :
  exists c s, encode level v = String c s /\ value_start c = true.
Proof.
  destruct v as [s|n|items|members].
  - eexists. eexists. split; reflexivity.
  - destruct (str_starts_with_digit n) as (c & s & Hs & Hc).
    exists c, s. split; [exact Hs|]. unfold value_start. rewrite Hc.
    now rewrite !orb_true_r.
  - rewrite encode_arr. unfold block.
    destruct (map (encode (S level)) items);
      eexists; eexists; split; reflexivity.
  - rewrite encode_obj. unfold block.
    destruct (map (encode_member level) members);
      eexists; eexists; split; reflexivity.
Qed.

Lemma skip_ws_value (v : json) (level : nat) (rest : string) :
  skip_ws (encode level v ++ rest) = encode level v ++ rest.
Proof.
  destruct (encode_starts v level) as (c & s & -> & Hc).
  destruct (value_start_plain c Hc) as (Hw & _).
  cbn [append skip_ws]. now rewrite Hw.
Qed.

Lemma expect_value (v : json) (level : nat) (rest : string) (c : ascii) :
  Ascii.eqb c "]" = true \/ Ascii.eqb c "}" = true ->
  expect c (encode level v ++ rest) = None.
Proof.
  intros Hc.
  destruct (encode_starts v level) as (c' & s & -> & Hc').
  destruct (value_start_plain c' Hc') as (_ & Hb & Hbr & _).
  cbn [append expect].
  destruct Hc as [Hc|Hc]; apply Ascii.eqb_eq in Hc; subst c.
  - now rewrite Hb.
  - now rewrite Hbr.
Qed.

(** What may follow a value inside a block, and at the end. *)
Lemma ends_number_comma (rest : string) :
  ends_number (String "," rest) = true.
Proof. reflexivity. Qed.

Lemma ends_number_newline (level : nat) (rest : string) :
  ends_number (newline_indent level ++ rest) = true.
Proof. reflexivity. Qed.

(** *** The fuel a value takes *)

Lemma cost_arr (items : list json) : cost (JArr items) = S (cost_items items).
Proof.
  reflexivity.
Qed.

Lemma cost_obj (members : list (string * json)) :
  cost (JObj members) = S (cost_members members).
Proof.
  cbn [cost]. f_equal.
  induction members as [|[k x] members IH]; [reflexivity|].
  cbn [cost_members fold_right snd]. now rewrite IH.
Qed.

(** *** Objects with distinct keys *)

Lemma member_set_fresh (k : string) (v : json)
  (members : list (string * json)) :
  ~ In k (map fst members) ->
  member_set k v members = (members ++ [(k, v)])%list.
Proof.
  induction members as [|[k' v'] members IH]; intros H; [reflexivity|].
  cbn [member_set].
  destruct (String.eqb k k') eqn:Hk.
  - apply String.eqb_eq in Hk. subst k'. elim H. now left.
  - cbn [app]. rewrite IH; [reflexivity|]. intros Hin. apply H. now right.
Qed.

Lemma members_dict_from (pairs : list (string * json)) :
  forall acc,
    NoDup (map fst (acc ++ pairs)) ->
    fold_left (fun d kv => member_set (fst kv) (snd kv) d) pairs acc
    = (acc ++ pairs)%list.
Proof.
  induction pairs as [|[k v] pairs IH]; intros acc H.
  - cbn [fold_left]. now rewrite app_nil_r.
  - cbn [fold_left fst snd].
    assert (Hk : ~ In k (map fst acc)).
    { rewrite map_app in H. apply NoDup_remove_2 in H.
      intros Hin. apply H. apply in_or_app. now left. }
    rewrite member_set_fresh by exact Hk.
    rewrite IH; rewrite <- app_assoc; [reflexivity | exact H].
Qed.

Lemma members_dict_distinct (pairs : list (string * json)) :
  NoDup (map fst pairs) -> members_dict pairs = pairs.
Proof. intros H. unfold members_dict. now rewrite members_dict_from. Qed.

(** *** Blocks *)

Lemma starts_value_skip (text : string) :
  starts_value text -> skip_ws text = text.
Proof.
  intros (c & s & -> & Hc).
  destruct (value_start_plain c Hc) as (Hw & _).
  cbn [skip_ws]. now rewrite Hw.
Qed.

Lemma starts_value_expect (text : string) :
  starts_value text ->
  expect "]" text = None /\ expect "}" text = None.
Proof.
  intros (c & s & -> & Hc).
  destruct (value_start_plain c Hc) as (_ & Hb & Hbr & _).
  cbn [expect]. now rewrite Hb, Hbr.
Qed.

Lemma starts_value_app (a b : string) :
  starts_value a -> starts_value (a ++ b).
Proof.
  intros (c & s & -> & Hc). exists c, (s ++ b). split; [reflexivity|exact Hc].
Qed.

Lemma starts_value_encode (v : json) (level : nat) :
  starts_value (encode level v).
Proof. exact (encode_starts v level). Qed.

Lemma starts_value_join (sep : string) (texts : list string) :
  texts <> [] -> Forall starts_value texts -> starts_value (join sep texts).
Proof.
  intros Hne Hall. destruct texts as [|a [|b texts]]; [congruence| |].
  - inversion Hall; subst. exact H1.
  - inversion Hall; subst.
    change (join sep (a :: b :: texts))
      with (a ++ sep ++ join sep (b :: texts)).
    now apply starts_value_app.
Qed.

Lemma block_nonempty (opening closing : string) (level : nat)
  (texts : list string) (rest : string) :
  texts <> [] ->
  block opening closing level texts ++ rest
  = opening ++ newline_indent (S level)
    ++ join (item_separator level) texts
    ++ newline_indent level ++ closing ++ rest.
Proof.
  intros H. unfold block. destruct texts; [congruence|].
  now rewrite !append_assoc.
Qed.

(** The items of an array, up to its closing bracket. *)
Lemma parse_items_encode (level : nat) (items : list json) :
  items <> [] ->
  Forall (fun x =>
            forall rest fuel,
              cost x <= fuel -> ends_number rest = true ->
              parse_value fuel (encode (S level) x ++ rest) = Some (x, rest))
         items ->
  forall rest fuel,
    cost_items items <= fuel ->
    parse_items fuel
      (join (item_separator level) (map (encode (S level)) items)
         ++ newline_indent level ++ String "]" rest)
    = Some (items, rest).
Proof.
  induction items as [|x items IH]; [congruence|].
  intros _ Hall rest fuel Hfuel.
  inversion Hall as [|x' items' Hx Hitems]; subst.
  cbn [cost_items fold_right] in Hfuel. fold (cost_items items) in Hfuel.
  destruct fuel as [|fuel]; [lia|].
  destruct items as [|y items].
  - cbn [map join parse_items].
    rewrite Hx by (try apply ends_number_newline; lia).
    rewrite skip_ws_newline_indent. reflexivity.
  - change (join (item_separator level)
              (map (encode (S level)) (x :: y :: items)))
      with (encode (S level) x ++ item_separator level
              ++ join (item_separator level)
                   (map (encode (S level)) (y :: items))).
    rewrite !append_assoc. unfold item_separator at 1.
    rewrite append_assoc.
    change ("," ++ ?X) with (String "," X).
    cbn [parse_items].
    rewrite Hx by (try apply ends_number_comma; lia).
    cbn [skip_ws]. change (whitespace ",") with false. cbv iota.
    cbn [expect].
    change (Ascii.eqb "," "]") with false.
    change (Ascii.eqb "," ",") with true. cbv iota.
    rewrite skip_ws_newline_indent.
    rewrite starts_value_skip.
    2: { apply starts_value_app. apply starts_value_join; [discriminate|].
         apply Forall_forall. intros t Ht. apply in_map_iff in Ht.
         destruct Ht as (z & <- & _). apply starts_value_encode. }
    rewrite IH; [reflexivity | discriminate | exact Hitems |].
    cbn [cost_items fold_right] in *. lia.
Qed.

Lemma parse_array (level : nat) (items : list json) :
  Forall (fun x =>
            forall rest fuel,
              cost x <= fuel -> ends_number rest = true ->
              parse_value fuel (encode (S level) x ++ rest) = Some (x, rest))
         items ->
  forall rest fuel,
    cost (JArr items) <= fuel ->
    parse_value fuel (encode level (JArr items) ++ rest)
    = Some (JArr items, rest).
Proof.
  intros Hall rest fuel Hfuel. rewrite cost_arr in Hfuel.
  destruct fuel as [|fuel]; [lia|].
  rewrite encode_arr.
  destruct items as [|x items].
  - reflexivity.
  - rewrite block_nonempty by discriminate.
    change ("[" ++ ?X) with (String "[" X).
    change ("]" ++ rest) with (String "]" rest).
    cbn [parse_value].
    change (Ascii.eqb "[" dquote_char) with false.
    change (Ascii.eqb "[" "[") with true. cbv iota.
    rewrite skip_ws_newline_indent.
    assert (Hstart : starts_value
              (join (item_separator level)
                 (map (encode (S level)) (x :: items))
                 ++ newline_indent level ++ String "]" rest)).
    { apply starts_value_app. apply starts_value_join; [discriminate|].
      apply Forall_forall. intros t Ht. apply in_map_iff in Ht.
      destruct Ht as (z & <- & _). apply starts_value_encode. }
    rewrite (starts_value_skip _ Hstart).
    destruct (starts_value_expect _ Hstart) as [-> _].
    rewrite parse_items_encode; [reflexivity | discriminate | exact Hall |].
    lia.
Qed.

Lemma starts_value_member (level : nat) (kv : string * json) :
  starts_value (encode_member level kv).
Proof.
  unfold encode_member, encode_string. eexists. eexists.
  split; reflexivity.
Qed.

(** A key, its colon and its value, up to what follows the value. *)
Lemma member_text (level : nat) (k : string) (v : json) (rest : string) :
  encode_member level (k, v) ++ rest
  = String dquote_char
      (escape k
         ++ String dquote_char
              (String ":" (String " " (encode (S level) v ++ rest)))).
Proof.
  unfold encode_member, encode_string. cbn [fst snd].
  cbn [append]. rewrite !append_assoc. reflexivity.
Qed.

(** The pairs of an object, up to its closing brace. *)
Lemma parse_pairs_encode (level : nat) (members : list (string * json)) :
  members <> [] ->
  Forall (fun kv =>
            forall rest fuel,
              cost (snd kv) <= fuel -> ends_number rest = true ->
              parse_value fuel (encode (S level) (snd kv) ++ rest)
              = Some (snd kv, rest))
         members ->
  forall rest fuel,
    cost_members members <= fuel ->
    parse_pairs fuel
      (join (item_separator level) (map (encode_member level) members)
         ++ newline_indent level ++ String "}" rest)
    = Some (members, rest).
Proof.
  induction members as [|[k v] members IH]; [congruence|].
  intros _ Hall rest fuel Hfuel.
  inversion Hall as [|kv members' Hv Hmembers]; subst. cbn [snd] in Hv.
  cbn [cost_members fold_right snd] in Hfuel.
  fold (cost_members members) in Hfuel.
  destruct fuel as [|fuel]; [lia|].
  destruct members as [|m members].
  - cbn [map join]. rewrite member_text.
    cbn [parse_pairs expect]. rewrite Ascii.eqb_refl.
    rewrite scan_escape.
    cbn [skip_ws]. change (whitespace ":") with false. cbv iota.
    cbn [expect]. change (Ascii.eqb ":" ":") with true. cbv iota.
    cbn [skip_ws]. change (whitespace " ") with true. cbv iota.
    rewrite skip_ws_value.
    rewrite Hv by (try apply ends_number_newline; lia).
    rewrite skip_ws_newline_indent. reflexivity.
  - change (join (item_separator level)
              (map (encode_member level) ((k, v) :: m :: members)))
      with (encode_member level (k, v) ++ item_separator level
              ++ join (item_separator level)
                   (map (encode_member level) (m :: members))).
    rewrite append_assoc. rewrite member_text.
    rewrite !append_assoc. unfold item_separator at 1.
    rewrite append_assoc.
    change ("," ++ ?X) with (String "," X).
    cbn [parse_pairs expect]. rewrite Ascii.eqb_refl.
    rewrite scan_escape.
    cbn [skip_ws]. change (whitespace ":") with false. cbv iota.
    cbn [expect]. change (Ascii.eqb ":" ":") with true. cbv iota.
    cbn [skip_ws]. change (whitespace " ") with true. cbv iota.
    rewrite skip_ws_value.
    rewrite Hv by (try apply ends_number_comma; lia).
    cbn [skip_ws]. change (whitespace ",") with false. cbv iota.
    cbn [expect].
    change (Ascii.eqb "," "}") with false.
    change (Ascii.eqb "," ",") with true. cbv iota.
    rewrite skip_ws_newline_indent.
    rewrite starts_value_skip.
    2: { apply starts_value_app. apply starts_value_join; [discriminate|].
         apply Forall_forall. intros t Ht. apply in_map_iff in Ht.
         destruct Ht as (z & <- & _). apply starts_value_member. }
    rewrite IH; [reflexivity | discriminate | exact Hmembers |].
    cbn [cost_members fold_right] in *. lia.
Qed.

Lemma parse_object (level : nat) (members : list (string * json)) :
  NoDup (map fst members) ->
  Forall (fun kv =>
            forall rest fuel,
              cost (snd kv) <= fuel -> ends_number rest = true ->
              parse_value fuel (encode (S level) (snd kv) ++ rest)
              = Some (snd kv, rest))
         members ->
  forall rest fuel,
    cost (JObj members) <= fuel ->
    parse_value fuel (encode level (JObj members) ++ rest)
    = Some (JObj members, rest).
Proof.
  intros Hkeys Hall rest fuel Hfuel. rewrite cost_obj in Hfuel.
  destruct fuel as [|fuel]; [lia|].
  rewrite encode_obj.
  destruct members as [|m members].
  - reflexivity.
  - rewrite block_nonempty by discriminate.
    change ("{" ++ ?X) with (String "{" X).
    change ("}" ++ rest) with (String "}" rest).
    cbn [parse_value].
    change (Ascii.eqb "{" dquote_char) with false.
    change (Ascii.eqb "{" "[") with false.
    change (Ascii.eqb "{" "{") with true. cbv iota.
    rewrite skip_ws_newline_indent.
    assert (Hstart : starts_value
              (join (item_separator level)
                 (map (encode_member level) (m :: members))
                 ++ newline_indent level ++ String "}" rest)).
    { apply starts_value_app. apply starts_value_join; [discriminate|].
      apply Forall_forall. intros t Ht. apply in_map_iff in Ht.
      destruct Ht as (z & <- & _). apply starts_value_member. }
    rewrite (starts_value_skip _ Hstart).
    destruct (starts_value_expect _ Hstart) as [_ ->].
    rewrite parse_pairs_encode; [| discriminate | exact Hall | lia].
    now rewrite members_dict_distinct.
Qed.

(** Every value with distinct keys is read back from its text. *)
Lemma parse_encode (v : json) :
  well_keyed v ->
  forall level rest fuel,
    cost v <= fuel -> ends_number rest = true ->
    parse_value fuel (encode level v ++ rest) = Some (v, rest).
Proof.
  induction v as [s|n|items IH|members IH] using json_induction;
    intros Hwk level rest fuel Hfuel Hrest.
  - destruct fuel as [|fuel]; [cbn [cost] in Hfuel; lia|].
    apply parse_string.
  - destruct fuel as [|fuel]; [cbn [cost] in Hfuel; lia|].
    now apply parse_number.
  - inversion Hwk as [| |items' Hitems|]; subst.
    apply parse_array; [|exact Hfuel].
    apply Forall_forall. intros x Hx rest' fuel' Hf Hr.
    rewrite Forall_forall in IH, Hitems. now apply IH; auto.
  - inversion Hwk as [| | |members' Hkeys Hmembers]; subst.
    apply parse_object; [exact Hkeys| |exact Hfuel].
    apply Forall_forall. intros kv Hkv rest' fuel' Hf Hr.
    rewrite Forall_forall in IH, Hmembers. now apply IH; auto.
Qed.

(** *** The fuel of [loads] is enough *)

Lemma item_separator_length (level : nat) :
  1 <= String.length (item_separator level).
Proof. unfold item_separator. cbn [append String.length]. lia. Qed.

Lemma newline_indent_length (level : nat) :
  1 <= String.length (newline_indent level).
Proof.
  unfold newline_indent. rewrite length_append. cbn [nl String.length]. lia.
Qed.

Lemma join_length_cons (sep a b : string) (texts : list string) :
  String.length (join sep (a :: b :: texts))
  = String.length a + String.length sep
    + String.length (join sep (b :: texts)).
Proof.
  change (join sep (a :: b :: texts)) with (a ++ sep ++ join sep (b :: texts)).
  rewrite !length_append. lia.
Qed.

Lemma cost_items_length (level : nat) (items : list json) :
  Forall (fun x => forall level, cost x <= String.length (encode level x))
         items ->
  cost_items items
  <= String.length
       (join (item_separator level) (map (encode (S level)) items)) + 1.
Proof.
  intros Hall. induction Hall as [|x items Hx _ IH]; [cbn; lia|].
  cbn [cost_items fold_right]. fold (cost_items items).
  destruct items as [|y items].
  - cbn [map join cost_items fold_right]. specialize (Hx (S level)). lia.
  - cbn [map]. rewrite join_length_cons. cbn [map] in IH.
    pose proof (item_separator_length level).
    specialize (Hx (S level)). lia.
Qed.

Lemma encode_member_length (level : nat) (kv : string * json) :
  String.length (encode (S level) (snd kv))
  <= String.length (encode_member level kv).
Proof. unfold encode_member. rewrite !length_append. lia. Qed.

Lemma cost_members_length (level : nat) (members : list (string * json)) :
  Forall (fun kv =>
            forall level, cost (snd kv) <= String.length (encode level (snd kv)))
         members ->
  cost_members members
  <= String.length
       (join (item_separator level) (map (encode_member level) members)) + 1.
Proof.
  intros Hall. induction Hall as [|kv members Hx _ IH]; [cbn; lia|].
  cbn [cost_members fold_right]. fold (cost_members members).
  pose proof (encode_member_length level kv) as Hm.
  destruct members as [|m members].
  - cbn [map join cost_members fold_right]. specialize (Hx (S level)). lia.
  - cbn [map]. rewrite join_length_cons. cbn [map] in IH.
    pose proof (item_separator_length level).
    specialize (Hx (S level)). lia.
Qed.

Lemma block_length (opening closing : string) (level : nat)
  (texts : list string) :
  texts <> [] ->
  String.length (block opening closing level texts)
  = String.length opening + String.length (newline_indent (S level))
    + String.length (join (item_separator level) texts)
    + String.length (newline_indent level) + String.length closing.
Proof.
  intros H. unfold block. destruct texts; [congruence|].
  fold (item_separator level). rewrite !length_append. lia.
Qed.

Lemma cost_le_length (v : json) :
  forall level, cost v <= String.length (encode level v).
Proof.
  induction v as [s|n|items IH|members IH] using json_induction;
    intros level.
  - cbn. lia.
  - destruct (str_starts_with_digit n) as (c & s & Hs & _).
    cbn [cost encode]. rewrite Hs. cbn. lia.
  - rewrite cost_arr, encode_arr.
    destruct items as [|x items]; [cbn; lia|].
    rewrite block_length by discriminate.
    pose proof (cost_items_length level (x :: items) IH).
    pose proof (newline_indent_length level).
    pose proof (newline_indent_length (S level)).
    cbn [String.length]. cbn [map] in *. lia.
  - rewrite cost_obj, encode_obj.
    destruct members as [|m members]; [cbn; lia|].
    rewrite block_length by discriminate.
    pose proof (cost_members_length level (m :: members) IH).
    pose proof (newline_indent_length level).
    pose proof (newline_indent_length (S level)).
    cbn [String.length]. cbn [map] in *. lia.
Qed.

(** What [dumps] writes, [loads] reads back. *)
Lemma loads_dumps (v : json) : well_keyed v -> loads (dumps v) = Some v.
Proof.
  intros Hwk. unfold loads, dumps.
  rewrite (starts_value_skip _ (starts_value_encode v 0)).
  rewrite <- (append_nil_r (encode 0 v)) at 2.
  rewrite parse_encode; [reflexivity | exact Hwk | | reflexivity].
  pose proof (cost_le_length v 0). lia.
Qed.

(** *** Records *)

Lemma to_pyval_of_pyval (v : pyval) : to_pyval (of_pyval v) = Some v.
Proof.
  destruct v as [s|n|l]; try reflexivity.
  cbn [of_pyval to_pyval].
  replace (fold_right
             (fun x acc =>
                match x, acc with
                | JStr s, Some l => Some (s :: l)
                | _, _ => None
                end) (Some []) (map JStr l)) with (Some l); [reflexivity|].
  induction l as [|s l IH]; [reflexivity|].
  cbn [map fold_right]. now rewrite <- IH.
Qed.

Lemma to_dict_of_dict (d : dict) : to_dict (of_dict d) = Some d.
Proof.
  unfold of_dict, to_dict.
  induction d as [|[k v] d IH]; [reflexivity|].
  cbn [map fold_right fst snd]. rewrite to_pyval_of_pyval, IH. reflexivity.
Qed.

Lemma to_records_of_records (quotes : list dict) :
  to_records (of_records quotes) = Some quotes.
Proof.
  unfold of_records, to_records.
  induction quotes as [|d quotes IH]; [reflexivity|].
  cbn [map fold_right]. rewrite to_dict_of_dict, IH. reflexivity.
Qed.

Lemma well_keyed_of_pyval (v : pyval) : well_keyed (of_pyval v).
Proof.
  destruct v as [s|n|l]; cbn [of_pyval]; constructor.
  apply Forall_forall. intros x Hx. apply in_map_iff in Hx.
  destruct Hx as (s & <- & _). constructor.
Qed.

Lemma well_keyed_of_records (quotes : list dict) :
  Forall (fun d => NoDup (keys d)) quotes -> well_keyed (of_records quotes).
Proof.
  intros H. unfold of_records. constructor.
  apply Forall_forall. intros x Hx. apply in_map_iff in Hx.
  destruct Hx as (d & <- & Hd). rewrite Forall_forall in H.
  unfold of_dict. constructor.
  - rewrite map_map. cbn [fst]. exact (H d Hd).
  - apply Forall_forall. intros kv Hkv. apply in_map_iff in Hkv.
    destruct Hkv as (kv' & <- & _). cbn [snd]. apply well_keyed_of_pyval.
Qed.

End JsonFacts.

(** * [save_data_to_files]: claim C7 *)

Module SaveFacts.
Import Py Save StringFacts.
Local Open Scope string_scope.

(** *** Files *)

Lemma file_content_fold (file : string) (effects : list effect) :
  file_content file effects = fold_left (write_step file) effects None.
Proof. reflexivity. Qed.

Lemma fold_untouched (file : string) (effects : list effect) :
  Forall (fun e => touches file e = false) effects ->
  forall content, fold_left (write_step file) effects content = content.
Proof.
  induction 1 as [|e effects He _ IH]; intros content; [reflexivity|].
  cbn [fold_left]. rewrite <- (IH content) at 2. f_equal.
  destruct e as [line|f|f chunk]; cbn [touches] in He; cbn [write_step].
  - reflexivity.
  - now rewrite He.
  - rewrite He. now destruct content.
Qed.

Lemma fold_written (file : string) (chunks : list string) :
  forall content,
    fold_left (write_step file) (map (Written file) chunks) (Some content)
    = Some (content ++ String.concat EmptyString chunks).
Proof.
  induction chunks as [|chunk chunks IH]; intros content.
  - cbn. now rewrite append_nil_r.
  - cbn [map fold_left write_step]. rewrite String.eqb_refl, IH.
    f_equal. rewrite append_assoc. f_equal.
    destruct chunks; cbn [String.concat]; [now rewrite append_nil_r|].
    reflexivity.
Qed.

Lemma concat_write_rows (rows : list (list string)) :
  String.concat EmptyString (map Csv.write_row rows) = Csv.write_rows rows.
Proof.
  induction rows as [|row rows IH]; [reflexivity|].
  cbn [map Csv.write_rows]. rewrite <- IH.
  destruct rows; cbn [map String.concat]; [now rewrite append_nil_r|].
  reflexivity.
Qed.

(** *** The stages on records *)

Lemma bind_ok {A B : Type} (effects : list effect) (a : A) (k : A -> Out B) :
  bind (effects, Ok a) k
  = ((effects ++ fst (k a))%list, snd (k a)).
Proof. unfold bind. now destruct (k a). Qed.

Lemma csv_row_of_record (quote : dict) :
  is_record quote ->
  bind (lift (csv_quote quote)) writerow
  = ([Written csv_filename (Csv.write_row (csv_cells quote))], Ok tt).
Proof.
  intros (text & author & tags & page & ->). reflexivity.
Qed.

Lemma csv_rows_of_records (quotes : list dict) :
  Forall is_record quotes ->
  for_each quotes (fun quote =>
    row <- lift (csv_quote quote) ;;
    writerow row)
  = (map (Written csv_filename)
         (map Csv.write_row (map csv_cells quotes)), Ok tt).
Proof.
  induction 1 as [|quote quotes Hq _ IH]; [reflexivity|].
  cbn [for_each map]. rewrite csv_row_of_record by exact Hq.
  rewrite bind_ok. rewrite IH. reflexivity.
Qed.

(** *** The summary leaves the other files alone *)

Lemma calm_bind {A B : Type} (P : effect -> Prop) (c : Out A)
  (k : A -> Out B) :
  calm P c -> (forall a, calm P (k a)) -> calm P (bind c k).
Proof.
  intros [[a Ha] Hc] Hk. destruct c as [effects r]. cbn [snd fst] in *.
  subst r. rewrite bind_ok. destruct (Hk a) as [[b Hb] Hkb].
  split; cbn [fst snd].
  - eauto.
  - apply Forall_app. auto.
Qed.

Lemma calm_ret {A : Type} (P : effect -> Prop) (a : A) : calm P (ret a).
Proof. split; [eexists; reflexivity | constructor]. Qed.

Lemma calm_one (P : effect -> Prop) (e : effect) :
  P e -> calm P ([e], Ok tt).
Proof. intros H. split; [eexists; reflexivity | repeat constructor; exact H]. Qed.

Lemma calm_for_each {A : Type} (P : effect -> Prop) (Q : A -> Prop)
  (l : list A) (f : A -> Out unit) :
  Forall Q l -> (forall x, Q x -> calm P (f x)) -> calm P (for_each l f).
Proof.
  intros Hl Hf. induction Hl as [|x l Hx _ IH]; cbn [for_each].
  - apply calm_ret.
  - apply calm_bind; auto.
Qed.

Lemma calm_for_fold {A S : Type} (P : effect -> Prop) (Q : A -> Prop)
  (l : list A) (f : S -> A -> Out S) :
  Forall Q l -> (forall acc x, Q x -> calm P (f acc x)) ->
  forall acc, calm P (for_fold l acc f).
Proof.
  intros Hl Hf. induction Hl as [|x l Hx _ IH]; intros acc; cbn [for_fold].
  - apply calm_ret.
  - apply calm_bind; auto.
Qed.

Lemma aside_txt (chunk : string) : aside (Written txt_filename chunk).
Proof. split; reflexivity. Qed.

Lemma Forall_firstn {A : Type} (P : A -> Prop) (n : nat) (l : list A) :
  Forall P l -> Forall P (firstn n l).
Proof.
  intros H. revert n. induction H as [|x l Hx _ IH]; intros [|n];
    cbn [firstn]; constructor; auto.
Qed.

Lemma Forall_enumerate {A : Type} (P : A -> Prop) (l : list A) :
  Forall P l -> forall i, Forall (fun ix => P (snd ix)) (enumerate i l).
Proof.
  induction 1 as [|x l Hx _ IH]; intros i; cbn [enumerate]; constructor; auto.
Qed.

Lemma summary_of_records (quotes : list dict) :
  Forall is_record quotes -> calm aside (save_summary quotes).
Proof.
  intros Hq. unfold save_summary.
  apply calm_bind; [apply calm_one; split; reflexivity|]. intros _.
  apply calm_bind; [apply calm_one, aside_txt|]. intros _.
  apply calm_bind; [apply calm_one, aside_txt|]. intros _.
  apply calm_bind; [apply calm_one, aside_txt|]. intros _.
  apply calm_bind.
  { apply (calm_for_fold aside is_record); [exact Hq|].
    intros acc quote (text & author & tags & page & ->).
    split; [eexists; reflexivity | constructor]. }
  intros authors.
  apply calm_bind; [apply calm_one, aside_txt|]. intros _.
  apply calm_bind; [apply calm_one, aside_txt|]. intros _.
  apply calm_bind.
  { apply (calm_for_each aside (fun ix => is_record (snd ix))).
    - apply Forall_enumerate. now apply Forall_firstn.
    - intros [i quote] (text & author & tags & page & Hr).
      cbn [snd] in Hr. subst quote. apply calm_one, aside_txt. }
  intros _. apply calm_one. split; reflexivity.
Qed.

(** *** The whole function on records *)

Lemma save_json_effects (quotes : list dict) :
  save_json quotes
  = ([Opened json_filename;
      Written json_filename (Json.dumps (Json.of_records quotes));
      Printed ("Saved " ++ str (List.length quotes) ++ " quotes to "
                 ++ json_filename)], Ok tt).
Proof. reflexivity. Qed.

Lemma save_csv_effects (quotes : list dict) :
  quotes <> [] -> Forall is_record quotes ->
  save_csv quotes
  = ((Opened csv_filename
        :: map (Written csv_filename)
             (map Csv.write_row (fieldnames :: map csv_cells quotes)))
       ++ [Printed ("Saved " ++ str (List.length quotes) ++ " quotes to "
                      ++ csv_filename)], Ok tt)%list.
Proof.
  intros Hne Hq. unfold save_csv.
  destruct quotes as [|quote quotes]; [congruence|].
  unfold open_w, writeheader, write, print.
  rewrite (csv_rows_of_records _ Hq).
  rewrite !bind_ok. cbn [fst snd map app]. reflexivity.
Qed.

Lemma save_effects (quotes : list dict) :
  quotes <> [] -> Forall is_record quotes ->
  exists rest,
    save_data_to_files quotes = ((saved_effects quotes ++ rest)%list, Ok tt)
    /\ Forall aside rest.
Proof.
  intros Hne Hq.
  destruct (summary_of_records quotes Hq) as [[[] Hok] Haside].
  exists (fst (save_summary quotes)). split; [|exact Haside].
  unfold save_data_to_files.
  destruct quotes as [|quote quotes]; [congruence|].
  rewrite save_json_effects, save_csv_effects by assumption.
  unfold print. rewrite !bind_ok. cbn [fst snd].
  rewrite Hok. unfold saved_effects.
  cbn [app map]. rewrite <- ?app_assoc. reflexivity.
Qed.

Lemma file_content_json (quotes : list dict) (rest : list effect) :
  Forall aside rest ->
  file_content json_filename (saved_effects quotes ++ rest)
  = Some (Json.dumps (Json.of_records quotes)).
Proof.
  intros Hrest. rewrite file_content_fold, fold_left_app.
  rewrite fold_untouched.
  2: { eapply Forall_impl; [|exact Hrest]. now intros e [H _]. }
  unfold saved_effects. rewrite fold_left_app.
  rewrite fold_untouched.
  2: { apply Forall_app. split; [|repeat constructor].
       apply Forall_forall. intros e He. apply in_map_iff in He.
       destruct He as (chunk & <- & _). reflexivity. }
  cbn [fold_left write_step]. rewrite String.eqb_refl.
  reflexivity.
Qed.

Lemma file_content_csv (quotes : list dict) (rest : list effect) :
  Forall aside rest ->
  file_content csv_filename (saved_effects quotes ++ rest)
  = Some (Csv.write_rows (fieldnames :: map csv_cells quotes)).
Proof.
  intros Hrest. rewrite file_content_fold, fold_left_app.
  rewrite fold_untouched.
  2: { eapply Forall_impl; [|exact Hrest]. now intros e [_ H]. }
  unfold saved_effects. rewrite !fold_left_app.
  cbn [fold_left write_step]. rewrite String.eqb_refl.
  rewrite fold_written. cbn [append].
  now rewrite concat_write_rows.
Qed.

(** *** Reading the files back *)

Lemma keys_of_record (quote : dict) :
  is_record quote -> NoDup (keys quote).
Proof.
  intros (text & author & tags & page & ->).
  unfold record, keys. cbn [map fst].
  repeat constructor; cbn [In]; intros H;
    repeat (destruct H as [H|H]; [discriminate H|]); exact H.
Qed.

Lemma load_json_of_records (quotes : list dict) :
  Forall is_record quotes ->
  load_json (Json.dumps (Json.of_records quotes)) = Some quotes.
Proof.
  intros Hq. unfold load_json. rewrite JsonFacts.loads_dumps.
  - apply JsonFacts.to_records_of_records.
  - apply JsonFacts.well_keyed_of_records.
    eapply Forall_impl; [|exact Hq]. exact keys_of_record.
Qed.

Lemma zip_row_csv_dict (quote : dict) :
  Csv.zip_row fieldnames (csv_cells quote) = Some (csv_dict quote).
Proof. reflexivity. Qed.

Lemma zip_rows_csv_dict (quotes : list dict) :
  Csv.zip_rows fieldnames (map csv_cells quotes) = Some (map csv_dict quotes).
Proof.
  induction quotes as [|quote quotes IH]; [reflexivity|].
  cbn [map]. destruct (csv_cells quote) as [|c cells] eqn:Hcells.
  - discriminate Hcells.
  - cbn [Csv.zip_rows]. rewrite <- Hcells, zip_row_csv_dict, IH.
    reflexivity.
Qed.

Lemma dict_reader_of_records (quotes : list dict) :
  Csv.dict_reader (Csv.write_rows (fieldnames :: map csv_cells quotes))
  = Ok (Some (map csv_dict quotes)).
Proof.
  unfold Csv.dict_reader. rewrite CsvFacts.read_write_rows.
  now rewrite zip_rows_csv_dict.
Qed.

Lemma csv_tags_joined (quote : dict) (tags : list string) :
  dict_get "tags" quote = Some (PList tags) ->
  lookup "tags" (csv_dict quote) = Some (join ", " tags).
Proof.
  intros Htags. unfold csv_dict, fieldnames. cbn [map lookup].
  cbn [String.eqb Ascii.eqb Bool.eqb]. now rewrite Htags.
Qed.

(** C7.  On a non-empty list of records [save_data_to_files] ends well
    and leaves two files that read back as follows.  [json.load] on
    [quotes.json] gives the records themselves, so a record whose tags
    are the list a, b comes back with that very list.  [csv.reader] on
    [quotes.csv] gives first the header row text, author, tags, page and
    then one row per record; [csv.DictReader] gives one row per record,
    in order, and the row of a record whose tags are the list a, b has
    the string a, b (joined with comma and space) in its tags field. *)
Theorem sinks_round_trip (quotes : list dict) :
  quotes <> [] -> Forall is_record quotes ->
  exists effects json_text csv_text rows,
    save_data_to_files quotes = (effects, Ok tt)
    /\ file_content json_filename effects = Some json_text
    /\ file_content csv_filename effects = Some csv_text
    /\ load_json json_text = Some quotes
    /\ Csv.read_rows csv_text
       = Ok (["text"; "author"; "tags"; "page"] :: map csv_cells quotes)
    /\ Csv.dict_reader csv_text = Ok (Some rows)
    /\ List.length rows = List.length quotes
    /\ (forall i quote,
          nth_error quotes i = Some quote ->
          dict_get "tags" quote = Some (PList ["a"; "b"]) ->
          (exists loaded,
              load_json json_text = Some loaded
              /\ exists quote',
                  nth_error loaded i = Some quote'
                  /\ dict_get "tags" quote' = Some (PList ["a"; "b"]))
          /\ exists row,
              nth_error rows i = Some row
              /\ lookup "tags" row = Some "a, b").
Proof.
  intros Hne Hq.
  destruct (save_effects quotes Hne Hq) as (rest & Hsave & Hrest).
  exists (saved_effects quotes ++ rest)%list,
    (Json.dumps (Json.of_records quotes)),
    (Csv.write_rows (fieldnames :: map csv_cells quotes)),
    (map csv_dict quotes).
  split; [exact Hsave|].
  split; [exact (file_content_json quotes rest Hrest)|].
  split; [exact (file_content_csv quotes rest Hrest)|].
  split; [exact (load_json_of_records quotes Hq)|].
  split; [exact (CsvFacts.read_write_rows _)|].
  split; [exact (dict_reader_of_records quotes)|].
  split; [apply length_map|].
  intros i quote Hi Htags. split.
  - exists quotes. split; [exact (load_json_of_records quotes Hq)|].
    exists quote. split; assumption.
  - exists (csv_dict quote). split.
    + rewrite nth_error_map, Hi. reflexivity.
    + exact (csv_tags_joined quote _ Htags).
Qed.

(** The two files of one record with the tags a, b. *)
Lemma sinks_round_trip_one_record :
  [record "t" "A" ["a"; "b"] 1] <> []
  /\ Forall is_record [record "t" "A" ["a"; "b"] 1]
  /\ exists effects json_text csv_text rows,
      save_data_to_files [record "t" "A" ["a"; "b"] 1] = (effects, Ok tt)
      /\ file_content json_filename effects = Some json_text
      /\ file_content csv_filename effects = Some csv_text
      /\ load_json json_text = Some [record "t" "A" ["a"; "b"] 1]
      /\ Csv.read_rows csv_text
         = Ok (["text"; "author"; "tags"; "page"]
                 :: map csv_cells [record "t" "A" ["a"; "b"] 1])
      /\ Csv.dict_reader csv_text = Ok (Some rows)
      /\ List.length rows = 1
      /\ (forall i quote,
            nth_error [record "t" "A" ["a"; "b"] 1] i = Some quote ->
            dict_get "tags" quote = Some (PList ["a"; "b"]) ->
            (exists loaded,
                load_json json_text = Some loaded
                /\ exists quote',
                    nth_error loaded i = Some quote'
                    /\ dict_get "tags" quote' = Some (PList ["a"; "b"]))
            /\ exists row,
                nth_error rows i = Some row
                /\ lookup "tags" row = Some "a, b").
Proof.
  assert (Hne : [record "t" "A" ["a"; "b"] 1] <> []) by discriminate.
  assert (Hq : Forall is_record [record "t" "A" ["a"; "b"] 1]).
  { constructor; [|constructor].
    exists "t", "A", ["a"; "b"], 1. reflexivity. }
  split; [exact Hne|]. split; [exact Hq|].
  exact (sinks_round_trip _ Hne Hq).
Defined.

End SaveFacts.

(** * [analyze_scraped_data]: counts, order and extremes *)

Module AnalysisMore.
Import Py Analysis AnalysisNotions.
Local Open Scope string_scope.

(** *** One more for the key, nothing for the others *)

Section Counting.

Variable K : Type.
Variable eqb : K -> K -> bool.
Hypothesis eqb_eq : forall a b, eqb a b = true <-> a = b.

Lemma eqb_same (a : K) : eqb a a = true.
Proof. now apply eqb_eq. Qed.

Lemma get_count_count_up (k x : K) (counts : list (K * nat)) :
  get_count eqb k (count_up eqb x counts)
  = (if eqb k x then 1 else 0) + get_count eqb k counts.
Proof.
  induction counts as [|[k' n] counts IH]; cbn [count_up get_count].
  - destruct (eqb k x); reflexivity.
  - destruct (eqb x k') eqn:Hx; cbn [get_count].
    + apply eqb_eq in Hx. subst k'.
      destruct (eqb k x); [lia | reflexivity].
    + destruct (eqb k k') eqn:Hk; [|exact IH].
      apply eqb_eq in Hk. subst k'.
      destruct (eqb k x) eqn:Hkx; [|reflexivity].
      apply eqb_eq in Hkx. subst x. rewrite eqb_same in Hx. discriminate.
Qed.

Lemma keys_count_up (x : K) (counts : list (K * nat)) :
  forall k, In k (map fst (count_up eqb x counts))
            <-> k = x \/ In k (map fst counts).
Proof.
  induction counts as [|[k' n] counts IH]; intros k; cbn [count_up map fst In].
  - intuition congruence.
  - destruct (eqb x k') eqn:Hx; cbn [map fst In].
    + apply eqb_eq in Hx. subst k'. intuition congruence.
    + rewrite IH. tauto.
Qed.

Lemma NoDup_count_up (x : K) (counts : list (K * nat)) :
  NoDup (map fst counts) -> NoDup (map fst (count_up eqb x counts)).
Proof.
  induction counts as [|[k' n] counts IH]; intros Hnd; cbn [count_up map fst].
  - repeat constructor. intros [].
  - cbn [map fst] in Hnd. inversion Hnd as [|? ? Hnotin Hnd']; subst.
    destruct (eqb x k') eqn:Hx; cbn [map fst].
    + constructor; assumption.
    + constructor; [|now apply IH].
      rewrite keys_count_up. intros [->|H]; [|contradiction].
      rewrite eqb_same in Hx. discriminate.
Qed.

Lemma sum_count_up (x : K) (counts : list (K * nat)) :
  list_sum (map snd (count_up eqb x counts)) = S (list_sum (map snd counts)).
Proof.
  induction counts as [|[k' n] counts IH]; [reflexivity|].
  cbn [count_up]. destruct (eqb x k'); simpl; [lia|].
  simpl in IH. rewrite IH. lia.
Qed.

Lemma positive_count_up (x : K) (counts : list (K * nat)) :
  Forall (fun entry => 1 <= snd entry) counts ->
  Forall (fun entry => 1 <= snd entry) (count_up eqb x counts).
Proof.
  induction 1 as [|[k' n] counts Hn Hall IH]; cbn [count_up].
  - repeat constructor.
  - cbn [snd] in Hn. destruct (eqb x k'); constructor; cbn [snd];
      try lia; assumption.
Qed.

Lemma fold_get_count (keys : list K) :
  forall counts k,
    get_count eqb k (fold_left (fun counts x => count_up eqb x counts)
                       keys counts)
    = List.length (filter (eqb k) keys) + get_count eqb k counts.
Proof.
  induction keys as [|x keys IH]; intros counts k; [reflexivity|].
  cbn [fold_left filter]. rewrite IH, get_count_count_up.
  destruct (eqb k x); cbn [List.length]; lia.
Qed.

Lemma fold_keys (keys : list K) :
  forall counts k,
    In k (map fst (fold_left (fun counts x => count_up eqb x counts)
                     keys counts))
    <-> In k keys \/ In k (map fst counts).
Proof.
  induction keys as [|x keys IH]; intros counts k; cbn [fold_left In].
  - tauto.
  - rewrite IH, keys_count_up. intuition congruence.
Qed.

Lemma fold_NoDup (keys : list K) :
  forall counts,
    NoDup (map fst counts) ->
    NoDup (map fst (fold_left (fun counts x => count_up eqb x counts)
                      keys counts)).
Proof.
  induction keys as [|x keys IH]; intros counts Hnd; [exact Hnd|].
  cbn [fold_left]. apply IH. now apply NoDup_count_up.
Qed.

Lemma fold_sum (keys : list K) :
  forall counts,
    list_sum (map snd (fold_left (fun counts x => count_up eqb x counts)
                         keys counts))
    = List.length keys + list_sum (map snd counts).
Proof.
  induction keys as [|x keys IH]; intros counts; [reflexivity|].
  cbn [fold_left List.length]. rewrite IH, sum_count_up. lia.
Qed.

Lemma fold_positive (keys : list K) :
  forall counts,
    Forall (fun entry => 1 <= snd entry) counts ->
    Forall (fun entry => 1 <= snd entry)
      (fold_left (fun counts x => count_up eqb x counts) keys counts).
Proof.
  induction keys as [|x keys IH]; intros counts Hc; [exact Hc|].
  cbn [fold_left]. apply IH. now apply positive_count_up.
Qed.

End Counting.

Lemma pyval_eqb_eq (a b : pyval) : pyval_eqb a b = true <-> a = b.
Proof.
  destruct a as [s|n|l], b as [t|m|l']; cbn [pyval_eqb];
    try (split; [discriminate | congruence]).
  - rewrite String.eqb_eq. split; congruence.
  - rewrite Nat.eqb_eq. split; congruence.
  - destruct (list_eq_dec string_dec l l') as [->|Hne].
    + tauto.
    + split; [discriminate | congruence].
Qed.

Lemma count_occ_filter (l : list string) (k : string) :
  count_occ string_dec l k = List.length (filter (String.eqb k) l).
Proof.
  induction l as [|x l IH]; [reflexivity|].
  cbn [count_occ filter]. destruct (string_dec x k) as [->|Hne].
  - rewrite String.eqb_refl. cbn [List.length]. now rewrite IH.
  - assert (H : String.eqb k x = false)
      by (apply String.eqb_neq; congruence).
    now rewrite H.
Qed.

(** X1.  The loop of lines 113 to 115 counts occurrences: [tag_counts]
    has one entry per distinct tag, [tag_counts.get(tag, 0)] is the
    number of times the tag occurs in [all_tags], and the counts add up to
    the number of tags collected. *)
Theorem tag_counts_count_occurrences (all_tags : list string) :
  (forall tag,
      get_count String.eqb tag (count_tags all_tags)
      = count_occ string_dec all_tags tag)
  /\ NoDup (map fst (count_tags all_tags))
  /\ (forall tag, In tag (map fst (count_tags all_tags)) <-> In tag all_tags)
  /\ Forall (fun entry => 1 <= snd entry) (count_tags all_tags)
  /\ list_sum (map snd (count_tags all_tags)) = List.length all_tags.
Proof.
  unfold count_tags. split_all.
  - intros tag. rewrite (fold_get_count _ _ String.eqb_eq).
    rewrite count_occ_filter. cbn [get_count]. lia.
  - apply (fold_NoDup _ _ String.eqb_eq). constructor.
  - intros tag. rewrite (fold_keys _ _ String.eqb_eq). cbn [map In]. tauto.
  - apply fold_positive. constructor.
  - rewrite fold_sum. cbn. lia.
Qed.

(** *** [sorted] and [list.sort] with a key *)

Section Sorting.

Variable A : Type.
Variable le : A -> A -> bool.

Lemma insert_by_perm (x : A) (l : list A) :
  Permutation (insert_by le x l) (x :: l).
Proof.
  induction l as [|y l IH]; cbn [insert_by]; [reflexivity|].
  destruct (le x y); [reflexivity|].
  rewrite IH. apply perm_swap.
Qed.

Lemma sort_by_perm (l : list A) : Permutation (sort_by le l) l.
Proof.
  induction l as [|x l IH]; [reflexivity|].
  unfold sort_by in *. cbn [fold_right].
  rewrite insert_by_perm. now constructor.
Qed.

(** An element goes before those that have its key: the sort is
    stable. *)
Lemma filter_insert_by (p : A -> bool) (x : A) (l : list A) :
  (forall y, p x = true -> p y = true -> le x y = true) ->
  filter p (insert_by le x l) = filter p (x :: l).
Proof.
  intros Hp. induction l as [|y l IH]; [reflexivity|].
  cbn [insert_by]. destruct (le x y) eqn:Hxy; [reflexivity|].
  cbn [filter] in *. rewrite IH.
  destruct (p x) eqn:Hx, (p y) eqn:Hy; try reflexivity.
  rewrite (Hp y eq_refl Hy) in Hxy. discriminate.
Qed.

Lemma filter_sort_by (p : A -> bool) (l : list A) :
  (forall x y, p x = true -> p y = true -> le x y = true) ->
  filter p (sort_by le l) = filter p l.
Proof.
  intros Hp. induction l as [|x l IH]; [reflexivity|].
  unfold sort_by in *. cbn [fold_right].
  rewrite filter_insert_by by (intros y; apply Hp).
  cbn [filter]. now rewrite IH.
Qed.

Hypothesis le_total : forall a b, le a b = true \/ le b a = true.
Hypothesis le_trans :
  forall a b c, le a b = true -> le b c = true -> le a c = true.

Lemma insert_by_sorted (x : A) (l : list A) :
  StronglySorted (fun a b => le a b = true) l ->
  StronglySorted (fun a b => le a b = true) (insert_by le x l).
Proof.
  induction 1 as [|y l Hl IH Hy]; cbn [insert_by].
  - repeat constructor.
  - destruct (le x y) eqn:Hxy.
    + constructor; [now constructor|].
      constructor; [exact Hxy|].
      eapply Forall_impl; [|exact Hy]. intros z Hz. eauto.
    + constructor; [exact IH|].
      eapply Permutation_Forall.
      * symmetry. apply insert_by_perm.
      * constructor; [|exact Hy].
        destruct (le_total x y) as [H|H]; [congruence | exact H].
Qed.

Lemma sort_by_sorted (l : list A) :
  StronglySorted (fun a b => le a b = true) (sort_by le l).
Proof.
  induction l as [|x l IH]; [constructor|].
  unfold sort_by in *. cbn [fold_right]. now apply insert_by_sorted.
Qed.

End Sorting.

Lemma StronglySorted_weaken (A : Type) (R R' : A -> A -> Prop) (l : list A) :
  (forall a b, R a b -> R' a b) ->
  StronglySorted R l -> StronglySorted R' l.
Proof.
  intros HR. induction 1 as [|x l Hl IH Hx]; constructor; [exact IH|].
  eapply Forall_impl; [|exact Hx]. intros b. apply HR.
Qed.

(** X3.  [sorted(counts.items(), key=lambda x: x[1], reverse=True)]
    rearranges the entries of the count table, the larger counts first;
    the entries that have the same count stay in the order in which the
    table holds them (the order in which their keys were first met). *)
Theorem sorted_counts_are_descending_and_stable
  (K : Type) (counts : list (K * nat)) :
  Permutation (by_count_descending counts) counts
  /\ StronglySorted (fun a b => snd b <= snd a) (by_count_descending counts)
  /\ (forall n,
        with_count n (by_count_descending counts) = with_count n counts).
Proof.
  unfold by_count_descending. split_all.
  - apply sort_by_perm.
  - eapply StronglySorted_weaken; [|apply sort_by_sorted].
    + intros a b H. now apply Nat.leb_le in H.
    + intros a b. rewrite !Nat.leb_le. lia.
    + intros a b c. rewrite !Nat.leb_le. lia.
  - intros n. unfold with_count. apply filter_sort_by.
    intros x y Hx Hy. apply Nat.eqb_eq in Hx, Hy. apply Nat.leb_le. lia.
Qed.

(** *** The shortest and the longest quote *)

Lemma sorted_last (A : Type) (R : A -> A -> Prop) (l : list A) (x : A) :
  StronglySorted R (l ++ [x]) -> Forall (fun y => R y x) l.
Proof.
  induction l as [|y l IH]; cbn [app]; intros H; [constructor|].
  inversion H as [|? ? Hl Hy]; subst. constructor; [|now apply IH].
  rewrite Forall_forall in Hy. apply Hy. apply in_or_app. right. now left.
Qed.

Lemma nth_error_last (A : Type) (l : list A) (x : A) :
  nth_error l (List.length l - 1) = Some x -> exists init, l = (init ++ [x])%list.
Proof.
  intros H.
  assert (Hne : l <> []) by (intros ->; discriminate).
  destruct (exists_last Hne) as (init & y & ->).
  rewrite length_app in H. cbn [List.length] in H.
  replace (List.length init + 1 - 1) with (List.length init) in H by lia.
  rewrite nth_error_app2, Nat.sub_diag in H by lia.
  inversion H. now exists init.
Qed.

Lemma list_index_0 (A : Type) (l : list A) (x : A) :
  list_index l 0 = Ok x -> exists rest, l = x :: rest.
Proof.
  destruct l as [|y l]; [discriminate|]. intros H.
  destruct (@AnalysisFacts.list_index_first _ (y :: l)) as (z & Hz & Hhd);
    [discriminate|].
  rewrite H in Hz. inversion Hz; subst. inversion Hhd. now exists l.
Qed.

Lemma list_index_minus_1 (A : Type) (l : list A) (x : A) :
  list_index l (-1) = Ok x -> exists init, l = (init ++ [x])%list.
Proof.
  destruct l as [|y l]; [discriminate|]. intros H.
  destruct (@AnalysisFacts.list_index_last _ (y :: l)) as (z & Hz & Hlast);
    [discriminate|].
  rewrite H in Hz. inversion Hz; subst. now apply nth_error_last.
Qed.

(** X4.  After [quote_lengths.sort(key=lambda x: x[0])] the entry at
    index 0 is a shortest quote and the entry at index -1 a longest one:
    no quote is shorter than the first nor longer than the second.  Of
    several quotes of the least length the one scraped first is reported,
    of several quotes of the greatest length the one scraped last. *)
Theorem extremes_are_the_shortest_and_the_longest
  (quote_lengths : list (nat * pyval * pyval))
  (shortest longest : nat * pyval * pyval) :
  list_index (sort_by_length quote_lengths) 0 = Ok shortest ->
  list_index (sort_by_length quote_lengths) (-1) = Ok longest ->
  (forall triple,
      In triple quote_lengths ->
      fst (fst shortest) <= fst (fst triple) <= fst (fst longest))
  /\ (exists later,
         with_length (fst (fst shortest)) quote_lengths = shortest :: later)
  /\ (exists earlier,
         with_length (fst (fst longest)) quote_lengths
         = (earlier ++ [longest])%list).
Proof.
  intros Hs Hg.
  apply list_index_0 in Hs. destruct Hs as [rest Hs].
  apply list_index_minus_1 in Hg. destruct Hg as [init Hg].
  assert (Hsorted : StronglySorted
                      (fun a b => fst (fst a) <= fst (fst b))
                      (sort_by_length quote_lengths)).
  { eapply StronglySorted_weaken; [|apply sort_by_sorted].
    - intros a b H. now apply Nat.leb_le in H.
    - intros a b. rewrite !Nat.leb_le. lia.
    - intros a b c. rewrite !Nat.leb_le. lia. }
  assert (Hstable : forall n,
             with_length n (sort_by_length quote_lengths)
             = with_length n quote_lengths).
  { intros n. apply filter_sort_by. intros x y Hx Hy.
    apply Nat.eqb_eq in Hx, Hy. apply Nat.leb_le. lia. }
  split_all.
  - intros triple Hin.
    assert (Hin' : In triple (sort_by_length quote_lengths)).
    { eapply Permutation_in; [|exact Hin]. symmetry. apply sort_by_perm. }
    split.
    + rewrite Hs in Hsorted, Hin'. inversion Hsorted as [|? ? _ Hall]; subst.
      destruct Hin' as [<-|Hin']; [lia|].
      rewrite Forall_forall in Hall. now apply Hall.
    + rewrite Hg in Hsorted, Hin'. apply sorted_last in Hsorted.
      apply in_app_or in Hin'. destruct Hin' as [Hin'|[<-|[]]]; [|lia].
      rewrite Forall_forall in Hsorted. now apply Hsorted.
  - rewrite <- Hstable, Hs. unfold with_length. cbn [filter].
    rewrite Nat.eqb_refl. eauto.
  - rewrite <- Hstable, Hg. unfold with_length. rewrite filter_app.
    cbn [filter]. rewrite Nat.eqb_refl. eauto.
Qed.

(** Two quotes of four characters around one of two. *)
Lemma extremes_of_three_quotes :
  list_index
    (sort_by_length
       [(4, PStr "abcd", PStr "A"); (2, PStr "ab", PStr "B");
        (4, PStr "wxyz", PStr "C")]) 0
  = Ok (2, PStr "ab", PStr "B")
  /\ list_index
       (sort_by_length
          [(4, PStr "abcd", PStr "A"); (2, PStr "ab", PStr "B");
           (4, PStr "wxyz", PStr "C")]) (-1)
     = Ok (4, PStr "wxyz", PStr "C")
  /\ (exists earlier,
         with_length 4
           [(4, PStr "abcd", PStr "A"); (2, PStr "ab", PStr "B");
            (4, PStr "wxyz", PStr "C")]
         = (earlier ++ [(4, PStr "wxyz", PStr "C")])%list).
Proof.
  assert (Hs : list_index
                 (sort_by_length
                    [(4, PStr "abcd", PStr "A"); (2, PStr "ab", PStr "B");
                     (4, PStr "wxyz", PStr "C")]) 0
               = Ok (2, PStr "ab", PStr "B")) by reflexivity.
  assert (Hg : list_index
                 (sort_by_length
                    [(4, PStr "abcd", PStr "A"); (2, PStr "ab", PStr "B");
                     (4, PStr "wxyz", PStr "C")]) (-1)
               = Ok (4, PStr "wxyz", PStr "C")) by reflexivity.
  split; [exact Hs|]. split; [exact Hg|].
  exact (proj2 (proj2
           (extremes_are_the_shortest_and_the_longest _ _ _ Hs Hg))).
Defined.

(** *** The authors *)

Lemma count_authors_fold (quotes : list dict) :
  Forall has_author quotes ->
  forall counts,
    for_fold quotes counts (fun author_counts quote =>
      author <- lift (item quote "author") ;;
      lift (hashable author) ;;
      ret (count_up pyval_eqb author author_counts))
    = ([], Ok (fold_left (fun counts a => count_up pyval_eqb a counts)
                 (map (fun quote => PStr (author_of quote)) quotes) counts)).
Proof.
  induction 1 as [|quote quotes [a Ha] _ IH]; intros counts; [reflexivity|].
  assert (Hof : author_of quote = a) by (unfold author_of; now rewrite Ha).
  cbn [for_fold map fold_left]. rewrite Hof. unfold item. rewrite Ha.
  cbn [lift hashable bind ret app]. rewrite IH. reflexivity.
Qed.




(** *** The report on records *)

Lemma for_each_print (A : Type) (line : A -> string) (f : A -> Out unit)
  (l : list A) :
  (forall x, f x = print (line x)) ->
  for_each l f = (map (fun x => Printed (line x)) l, Ok tt).
Proof.
  intros Hf. induction l as [|x l IH]; [reflexivity|].
  cbn [for_each map]. rewrite Hf, IH. reflexivity.
Qed.

Lemma for_fold_app (A S : Type) (f : S -> A -> Out S) (l1 l2 : list A) :
  forall acc,
    for_fold (l1 ++ l2) acc f
    = bind (for_fold l1 acc f) (fun acc' => for_fold l2 acc' f).
Proof.
  induction l1 as [|x l1 IH]; intros acc; cbn [app for_fold].
  - unfold ret, bind. destruct (for_fold l2 acc f). reflexivity.
  - destruct (f acc x) as [effects [acc'|e]]; cbn [bind]; [|reflexivity].
    rewrite IH.
    destruct (for_fold l1 acc' f) as [effects1 [acc1|e1]]; cbn [bind].
    + destruct (for_fold l2 acc1 f) as [effects2 r2].
      now rewrite app_assoc.
    + reflexivity.
Qed.

Lemma record_has_author (quote : dict) :
  Save.is_record quote -> has_author quote.
Proof. intros (text & author & tags & page & ->). now exists author. Qed.

Lemma collect_tags_records (quotes : list dict) :
  Forall Save.is_record quotes ->
  forall all_tags,
    for_fold quotes all_tags (fun all_tags quote =>
      tags <- lift (item quote "tags") ;;
      elements <- lift (iterate tags) ;;
      ret (all_tags ++ elements)%list)
    = ([], Ok (all_tags ++ flat_map tags_of quotes)%list).
Proof.
  induction 1 as [|quote quotes Hq _ IH]; intros all_tags.
  - cbn. now rewrite app_nil_r.
  - destruct Hq as (text & author & tags & page & ->).
    cbn [for_fold flat_map]. unfold item. cbn.
    rewrite IH. now rewrite app_assoc.
Qed.

Lemma measure_records (quotes : list dict) :
  Forall Save.is_record quotes ->
  measure quotes
  = ([], Ok (map (fun quote =>
                    (String.length (text_of quote), PStr (text_of quote),
                     PStr (author_of quote))) quotes)).
Proof.
  unfold measure. induction 1 as [|quote quotes Hq _ IH]; [reflexivity|].
  destruct Hq as (text & author & tags & page & ->).
  cbn [for_map map]. rewrite IH. reflexivity.
Qed.

Lemma report_extremes_lines (quote_lengths : list (nat * pyval * pyval)) :
  quote_lengths <> [] ->
  Forall (fun triple => exists text, snd (fst triple) = PStr text)
    quote_lengths ->
  exists l1 l2 l3 l4,
    report_extremes quote_lengths
    = ([Printed l1; Printed l2; Printed l3; Printed l4], Ok tt).
Proof.
  intros Hne Hall. unfold report_extremes.
  destruct (AnalysisFacts.list_index_first Hne) as (shortest & -> & _).
  destruct (AnalysisFacts.list_index_last Hne) as (longest & -> & Hlast).
  apply nth_error_In in Hlast. rewrite Forall_forall in Hall.
  destruct (Hall _ Hlast) as [text Htext].
  unfold lift, print. cbn [bind app]. rewrite Htext. cbn [len bind app].
  destruct (100 <? String.length text)%nat; cbn [slice_to bind app]; eauto.
Qed.

Lemma distinct_keys (A : Type) (dec : forall a b : A, {a = b} + {a <> b})
  (l keys : list A) :
  NoDup l -> (forall k, In k l <-> In k keys) ->
  List.length l = List.length (nodup dec keys).
Proof.
  intros Hnd Hin. apply Nat.le_antisymm.
  - apply NoDup_incl_length; [exact Hnd|].
    intros k Hk. apply nodup_In. now apply Hin.
  - apply NoDup_incl_length; [apply NoDup_nodup|].
    intros k Hk. apply nodup_In in Hk. now apply Hin.
Qed.

Lemma pyval_dec (a b : pyval) : {a = b} + {a <> b}.
Proof.
  destruct (pyval_eqb a b) eqn:H.
  - left. now apply pyval_eqb_eq.
  - right. intros Heq. apply pyval_eqb_eq in Heq. congruence.
Qed.

Lemma NoDup_map_PStr (l : list string) : NoDup l -> NoDup (map PStr l).
Proof.
  induction 1 as [|a l Ha _ IH]; cbn [map]; constructor; [|exact IH].
  rewrite in_map_iff. intros (b & Hb & Hin). inversion Hb. now subst.
Qed.

Lemma nodup_map_PStr (l : list string) :
  List.length (nodup pyval_dec (map PStr l))
  = List.length (nodup string_dec l).
Proof.
  rewrite <- (length_map PStr (nodup string_dec l)).
  symmetry. apply distinct_keys.
  - apply NoDup_map_PStr, NoDup_nodup.
  - intros k. rewrite !in_map_iff. split; intros (a & <- & Ha);
      exists a; (split; [reflexivity|]).
    + now apply nodup_In in Ha.
    + now apply nodup_In.
Qed.

Lemma tag_counts_distinct (all_tags : list string) :
  NoDup (map fst (count_tags all_tags)).
Proof. apply (fold_NoDup _ _ String.eqb_eq). constructor. Qed.

Lemma tag_counts_keys (all_tags : list string) :
  forall tag, In tag (map fst (count_tags all_tags)) <-> In tag all_tags.
Proof.
  intros tag. unfold count_tags. rewrite (fold_keys _ _ String.eqb_eq).
  cbn [map In]. tauto.
Qed.

(** The report on records, line by line. *)
Lemma analysis_effects (quotes : list dict) :
  quotes <> [] -> Forall Save.is_record quotes ->
  exists l1 l2 l3 l4,
    analyze_scraped_data quotes
    = (app [analysis_header; Printed "Top authors by number of quotes:"]
         (app (map Printed
                 (map author_line
                    (firstn 5 (by_count_descending (author_table quotes)))))
            (Printed (nl ++ "Most common tags:")
               :: app (map Printed
                         (map tag_line
                            (firstn 10
                               (by_count_descending
                                  (count_tags (flat_map tags_of quotes))))))
                    (map Printed [l1; l2; l3; l4]))), Ok tt).
Proof.
  intros Hne Hq.
  assert (Ha : Forall has_author quotes).
  { eapply Forall_impl; [|exact Hq]. exact record_has_author. }
  unfold analyze_scraped_data.
  destruct quotes as [|quote quotes]; [congruence|].
  remember (quote :: quotes) as qs eqn:Hqs.
  unfold count_authors, collect_tags.
  rewrite (count_authors_fold qs Ha), (collect_tags_records qs Hq),
    (measure_records qs Hq).
  cbv zeta. cbn [app]. fold (author_table qs).
  set (quote_lengths := map _ qs).
  assert (Hne' : sort_by_length quote_lengths <> []).
  { intros H. apply (f_equal (@List.length _)) in H.
    unfold sort_by_length in H.
    rewrite AnalysisFacts.sort_by_length_eq in H.
    unfold quote_lengths in H. rewrite length_map, Hqs in H. discriminate. }
  assert (Htexts : Forall (fun triple =>
                             exists text, snd (fst triple) = PStr text)
                     (sort_by_length quote_lengths)).
  { eapply Permutation_Forall; [symmetry; apply sort_by_perm|].
    unfold quote_lengths. apply Forall_forall. intros t Ht.
    apply in_map_iff in Ht. destruct Ht as (q & <- & _).
    eexists. reflexivity. }
  destruct (report_extremes_lines _ Hne' Htexts)
    as (l1 & l2 & l3 & l4 & Hreport).
  exists l1, l2, l3, l4.
  unfold print. rewrite !SaveFacts.bind_ok.
  rewrite (for_each_print _ author_line) by (now intros [author count]).
  rewrite (for_each_print _ tag_line) by (now intros [tag count]).
  rewrite !SaveFacts.bind_ok. rewrite Hreport.
  cbn [fst snd]. rewrite !map_map. reflexivity.
Qed.

(** X5.  On a list of records that is not empty the analysis ends
    without an exception and only prints: its header and the line of the
    authors, one line per distinct author but five at most, the line of
    the tags, one line per distinct tag but ten at most, and the four
    lines of the shortest and the longest quote. *)
Theorem analysis_report_of_records (quotes : list dict) :
  quotes <> [] -> Forall Save.is_record quotes ->
  exists author_lines tag_lines extremes,
    analyze_scraped_data quotes
    = (((analysis_header :: Printed "Top authors by number of quotes:"
          :: map Printed author_lines)
         ++ (Printed (nl ++ "Most common tags:") :: map Printed tag_lines)
         ++ map Printed extremes)%list, Ok tt)
    /\ List.length author_lines
       = Nat.min 5 (List.length (nodup string_dec (map author_of quotes)))
    /\ List.length tag_lines
       = Nat.min 10
           (List.length (nodup string_dec (flat_map tags_of quotes)))
    /\ List.length extremes = 4.
Proof.
  intros Hne Hq.
  destruct (analysis_effects quotes Hne Hq) as (l1 & l2 & l3 & l4 & Hrun).
  exists (map author_line
            (firstn 5 (by_count_descending (author_table quotes)))),
    (map tag_line
       (firstn 10
          (by_count_descending (count_tags (flat_map tags_of quotes))))),
    [l1; l2; l3; l4].
  split_all.
  - exact Hrun.
  - rewrite length_map, length_firstn. f_equal.
    unfold by_count_descending.
    rewrite (Permutation_length (sort_by_perm _ _ (author_table quotes))).
    rewrite <- nodup_map_PStr, <- (length_map fst (author_table quotes)).
    apply distinct_keys.
    + apply (fold_NoDup _ _ pyval_eqb_eq). constructor.
    + intros k. unfold author_table.
      rewrite (fold_keys _ _ pyval_eqb_eq), map_map. cbn [map In]. tauto.
  - rewrite length_map, length_firstn. f_equal.
    unfold by_count_descending.
    rewrite (Permutation_length (sort_by_perm _ _ (count_tags _))).
    rewrite <- (length_map fst (count_tags _)).
    apply distinct_keys.
    + apply tag_counts_distinct.
    + apply tag_counts_keys.
  - reflexivity.
Qed.

Lemma analysis_of_records_prints (quotes : list dict) :
  quotes <> [] -> Forall Save.is_record quotes ->
  exists lines, analyze_scraped_data quotes = (map Printed lines, Ok tt).
Proof.
  intros Hne Hq.
  destruct (analysis_effects quotes Hne Hq) as (l1 & l2 & l3 & l4 & Hrun).
  rewrite Hrun. unfold analysis_header.
  exists (app [nl ++ "=== Data Analysis ===";
               "Top authors by number of quotes:"]
            (app (map author_line
                    (firstn 5 (by_count_descending (author_table quotes))))
               ((nl ++ "Most common tags:")
                  :: app (map tag_line
                            (firstn 10
                               (by_count_descending
                                  (count_tags (flat_map tags_of quotes)))))
                       [l1; l2; l3; l4]))).
  rewrite !map_app. cbn [map]. rewrite !map_app. reflexivity.
Qed.


(** The report on two quotes of one author. *)
Lemma analysis_report_of_two_records :
  exists author_lines tag_lines extremes,
    analyze_scraped_data
      [Save.record "ab" "A" ["x"; "y"] 1; Save.record "abc" "A" ["x"] 1]
    = (((analysis_header :: Printed "Top authors by number of quotes:"
          :: map Printed author_lines)
         ++ (Printed (nl ++ "Most common tags:") :: map Printed tag_lines)
         ++ map Printed extremes)%list, Ok tt)
    /\ List.length author_lines = 1
    /\ List.length tag_lines = 2
    /\ List.length extremes = 4.
Proof.
  assert (Hne : [Save.record "ab" "A" ["x"; "y"] 1;
                 Save.record "abc" "A" ["x"] 1] <> []) by discriminate.
  assert (Hq : Forall Save.is_record
                 [Save.record "ab" "A" ["x"; "y"] 1;
                  Save.record "abc" "A" ["x"] 1]).
  { repeat constructor; do 4 eexists; reflexivity. }
  exact (analysis_report_of_records _ Hne Hq).
Defined.

(** X6.  A quote without the key [author] stops the analysis at the
    first loop: when the quotes before it have an author, the function
    raises [KeyError('author')] after its header line and prints nothing
    else, whatever the quotes hold besides. *)
Theorem missing_author_stops_the_analysis
  (good rest : list dict) (bad : dict) :
  Forall has_author good ->
  dict_get "author" bad = None ->
  analyze_scraped_data (good ++ bad :: rest)
  = ([analysis_header], Raise (KeyError "author")).
Proof.
  intros Hgood Hbad.
  assert (Hcount : count_authors (good ++ bad :: rest)
                   = ([], Raise (KeyError "author"))).
  { unfold count_authors. rewrite for_fold_app.
    rewrite (count_authors_fold good Hgood []). cbn [bind for_fold].
    unfold item. rewrite Hbad. reflexivity. }
  unfold analyze_scraped_data.
  destruct (good ++ bad :: rest)%list as [|quote quotes] eqn:Hqs.
  - destruct good; discriminate.
  - rewrite Hcount. reflexivity.
Qed.

(** A record, then a quote that has only its text. *)
Lemma missing_author_after_one_record :
  analyze_scraped_data
    [Save.record "t" "A" ["x"] 1; [("text", PStr "u")];
     Save.record "v" "B" [] 2]
  = ([analysis_header], Raise (KeyError "author")).
Proof.
  apply (missing_author_stops_the_analysis
           [Save.record "t" "A" ["x"] 1] [Save.record "v" "B" [] 2]
           [("text", PStr "u")]).
  - repeat constructor. eexists. reflexivity.
  - reflexivity.
Defined.

End AnalysisMore.

(** * [save_data_to_files]: the summary, and what an error leaves *)

Module SaveMore.
Import Py Save AnalysisNotions SaveNotions StringFacts.
Local Open Scope string_scope.

(** *** The set of the authors *)

Lemma set_add_In (a : pyval) (authors : list pyval) :
  forall b, In b (set_add a authors) <-> b = a \/ In b authors.
Proof.
  intros b. unfold set_add.
  destruct (existsb (pyval_eqb a) authors) eqn:H.
  - apply existsb_exists in H. destruct H as (c & Hc & Heq).
    apply AnalysisMore.pyval_eqb_eq in Heq. subst c.
    intuition congruence.
  - rewrite in_app_iff. cbn [In]. intuition congruence.
Qed.

Lemma set_add_NoDup (a : pyval) (authors : list pyval) :
  NoDup authors -> NoDup (set_add a authors).
Proof.
  intros Hnd. unfold set_add.
  destruct (existsb (pyval_eqb a) authors) eqn:H; [exact Hnd|].
  apply NoDup_app; [exact Hnd | repeat constructor; intros [] |].
  intros b Hb [Hab|[]]. subst b.
  assert (Hex : existsb (pyval_eqb a) authors = true).
  { apply existsb_exists. exists a. split; [exact Hb|].
    now apply AnalysisMore.pyval_eqb_eq. }
  congruence.
Qed.

Lemma authors_fold (quotes : list dict) :
  Forall is_record quotes ->
  forall authors,
    for_fold quotes authors (fun authors quote =>
      author <- lift (item quote "author") ;;
      lift (hashable author) ;;
      ret (set_add author authors))
    = ([], Ok (fold_left (fun authors quote =>
                            set_add (PStr (author_of quote)) authors)
                 quotes authors)).
Proof.
  induction 1 as [|quote quotes Hq _ IH]; intros authors; [reflexivity|].
  apply AnalysisMore.record_has_author in Hq. destruct Hq as [a Ha].
  assert (Hof : author_of quote = a) by (unfold author_of; now rewrite Ha).
  cbn [for_fold fold_left]. rewrite Hof. unfold item. rewrite Ha.
  cbn [lift hashable bind ret app]. rewrite IH. reflexivity.
Qed.

Lemma authors_set (quotes : list dict) :
  forall authors,
    NoDup authors ->
    let set :=
      fold_left (fun authors quote =>
                   set_add (PStr (author_of quote)) authors) quotes authors in
    NoDup set
    /\ forall b, In b set
                 <-> In b (map (fun quote => PStr (author_of quote)) quotes)
                     \/ In b authors.
Proof.
  induction quotes as [|quote quotes IH]; intros authors Hnd; cbn zeta.
  - cbn [fold_left map In]. tauto.
  - cbn [fold_left map In].
    destruct (IH (set_add (PStr (author_of quote)) authors)
                (set_add_NoDup _ _ Hnd)) as [Hnd' Hin].
    split; [exact Hnd'|]. intros b. cbn zeta in Hin.
    rewrite Hin, set_add_In. intuition congruence.
Qed.

Lemma authors_count (quotes : list dict) :
  List.length
    (fold_left (fun authors quote =>
                  set_add (PStr (author_of quote)) authors) quotes [])
  = List.length (nodup string_dec (map author_of quotes)).
Proof.
  destruct (authors_set quotes [] (NoDup_nil _)) as [Hnd Hin].
  cbn zeta in Hnd, Hin.
  rewrite <- AnalysisMore.nodup_map_PStr.
  apply AnalysisMore.distinct_keys; [exact Hnd|].
  intros b. rewrite Hin, map_map. cbn [In]. tauto.
Qed.

(** *** The summary of records *)

Lemma samples_of_records (samples : list (nat * dict)) :
  Forall (fun sample => is_record (snd sample)) samples ->
  for_each samples (fun '(i, quote) =>
    text <- lift (item quote "text") ;;
    author <- lift (item quote "author") ;;
    write txt_filename
      (str i ++ ". " ++ dquote ++ format text ++ dquote ++ " - "
         ++ format author ++ nl))
  = (map (Written txt_filename) (map sample_line samples), Ok tt).
Proof.
  induction 1 as [|[i quote] samples Hq _ IH]; [reflexivity|].
  cbn [snd] in Hq. destruct Hq as (text & author & tags & page & ->).
  cbn [for_each map]. rewrite IH. reflexivity.
Qed.

Lemma summary_effects (quotes : list dict) :
  Forall is_record quotes ->
  save_summary quotes
  = ((Opened txt_filename
       :: map (Written txt_filename) (summary_chunks quotes))
      ++ [Printed ("Saved summary to " ++ txt_filename)], Ok tt)%list.
Proof.
  intros Hq. unfold save_summary.
  rewrite (authors_fold quotes Hq []).
  rewrite samples_of_records
    by (apply SaveFacts.Forall_enumerate; now apply SaveFacts.Forall_firstn).
  unfold open_w, write, print. rewrite !SaveFacts.bind_ok.
  cbn [fst snd]. rewrite authors_count.
  unfold summary_chunks, summary_head. rewrite map_app.
  cbn [map app]. reflexivity.
Qed.

Lemma save_stages (quotes : list dict) :
  quotes <> [] -> Forall is_record quotes ->
  save_data_to_files quotes
  = ((saved_effects quotes ++ fst (save_summary quotes))%list,
     snd (save_summary quotes)).
Proof.
  intros Hne Hq. unfold save_data_to_files.
  destruct quotes as [|quote quotes]; [congruence|].
  rewrite SaveFacts.save_json_effects, SaveFacts.save_csv_effects
    by assumption.
  unfold print. rewrite !SaveFacts.bind_ok. cbn [fst snd].
  unfold saved_effects. cbn [app map]. rewrite <- ?app_assoc. reflexivity.
Qed.

Lemma saved_effects_leave_summary (quotes : list dict) :
  Forall (fun e => touches txt_filename e = false) (saved_effects quotes).
Proof.
  unfold saved_effects. apply Forall_app. split; [repeat constructor|].
  apply Forall_app. split; [|repeat constructor].
  apply Forall_forall. intros e He. apply in_map_iff in He.
  destruct He as (chunk & <- & _). reflexivity.
Qed.

Lemma concat_cons (chunk : string) (chunks : list string) :
  String.concat EmptyString (chunk :: chunks)
  = chunk ++ String.concat EmptyString chunks.
Proof.
  destruct chunks; cbn [String.concat]; [now rewrite append_nil_r|].
  reflexivity.
Qed.

Lemma summary_chunks_text (quotes : list dict) :
  EmptyString ++ String.concat EmptyString (summary_chunks quotes)
  = summary_text quotes.
Proof.
  unfold summary_chunks, summary_head, summary_text. cbn [app].
  rewrite !concat_cons, !append_assoc. reflexivity.
Qed.

Lemma summary_untouched_by_printing (lines : list effect) (file : string) :
  Forall (fun e => exists line, e = Printed line) lines ->
  Forall (fun e => touches file e = false) lines.
Proof.
  intros H. eapply Forall_impl; [|exact H]. now intros e [line ->].
Qed.

(** The summary file after the sinks, whatever is printed before and
    after them. *)
Lemma file_content_txt (quotes : list dict) (before rest : list effect) :
  Forall is_record quotes ->
  Forall (fun e => touches txt_filename e = false) before ->
  Forall (fun e => touches txt_filename e = false) rest ->
  file_content txt_filename
    (before ++ (saved_effects quotes ++ fst (save_summary quotes)) ++ rest)
  = Some (summary_text quotes).
Proof.
  intros Hq Hbefore Hrest. rewrite summary_effects by exact Hq.
  cbn [fst]. rewrite SaveFacts.file_content_fold, !fold_left_app.
  rewrite (SaveFacts.fold_untouched _ _ Hbefore).
  rewrite (SaveFacts.fold_untouched _ _ (saved_effects_leave_summary quotes)).
  cbn [fold_left write_step app]. rewrite String.eqb_refl.
  rewrite SaveFacts.fold_written. cbn [fold_left write_step].
  rewrite (SaveFacts.fold_untouched _ _ Hrest).
  f_equal. apply summary_chunks_text.
Qed.

(** X7.  On a list of records that is not empty [save_data_to_files]
    ends without an exception and leaves in [quotes_summary.txt] the
    title, the number of quotes, the number of distinct authors and one
    line for each of the first five quotes, numbered from 1. *)
Theorem summary_file_of_records (quotes : list dict) :
  quotes <> [] -> Forall is_record quotes ->
  snd (save_data_to_files quotes) = Ok tt
  /\ file_content txt_filename (fst (save_data_to_files quotes))
     = Some (summary_text quotes).
Proof.
  intros Hne Hq. rewrite save_stages by assumption.
  cbn [fst snd]. split.
  - rewrite summary_effects by exact Hq. reflexivity.
  - rewrite <- (app_nil_r (saved_effects quotes ++ _)).
    apply (file_content_txt quotes [] []); [exact Hq | constructor ..].
Qed.

(** One record. *)
Lemma summary_file_of_one_record :
  snd (save_data_to_files [record "t" "A" ["a"] 1]) = Ok tt
  /\ file_content txt_filename
       (fst (save_data_to_files [record "t" "A" ["a"] 1]))
     = Some (summary_text [record "t" "A" ["a"] 1]).
Proof.
  apply (summary_file_of_records [record "t" "A" ["a"] 1]).
  - discriminate.
  - repeat constructor. do 4 eexists. reflexivity.
Defined.

(** *** A quote that cannot be written *)

Lemma for_each_app (A : Type) (f : A -> Out unit) (l1 l2 : list A) :
  for_each (l1 ++ l2) f = bind (for_each l1 f) (fun _ => for_each l2 f).
Proof.
  induction l1 as [|x l1 IH]; cbn [app for_each].
  - unfold ret, bind. destruct (for_each l2 f). reflexivity.
  - destruct (f x) as [effects [[]|e]]; cbn [bind]; [|reflexivity].
    rewrite IH.
    destruct (for_each l1 f) as [effects1 [[]|e1]]; cbn [bind].
    + destruct (for_each l2 f) as [effects2 r2].
      now rewrite app_assoc.
    + reflexivity.
Qed.

(** The effects up to the row that fails. *)
Lemma save_fails_at_row (good rest : list dict) (bad : dict) (e : exn) :
  Forall is_record good ->
  (row <- lift (csv_quote bad) ;; writerow row) = ([], Raise e) ->
  save_data_to_files (good ++ bad :: rest)
  = ((([saving_header;
        Opened json_filename;
        Written json_filename
          (Json.dumps (Json.of_records (good ++ bad :: rest)));
        Printed ("Saved " ++ str (List.length (good ++ bad :: rest))
                   ++ " quotes to " ++ json_filename);
        Opened csv_filename]
       ++ map (Written csv_filename)
            (map Csv.write_row (fieldnames :: map csv_cells good)))%list),
     Raise e).
Proof.
  intros Hgood Hbad. unfold save_data_to_files.
  destruct (good ++ bad :: rest)%list as [|quote quotes] eqn:Hqs.
  { destruct good; discriminate. }
  rewrite <- Hqs. clear quote quotes Hqs.
  rewrite SaveFacts.save_json_effects.
  assert (Hcsv : save_csv (good ++ bad :: rest)
                 = ((Opened csv_filename
                       :: map (Written csv_filename)
                            (map Csv.write_row
                               (fieldnames :: map csv_cells good))),
                    Raise e)).
  { unfold save_csv.
    destruct (good ++ bad :: rest)%list as [|quote quotes] eqn:Hqs.
    { destruct good; discriminate. }
    rewrite <- Hqs. clear quote quotes Hqs.
    rewrite for_each_app, (SaveFacts.csv_rows_of_records good Hgood).
    cbn [for_each]. rewrite Hbad.
    unfold open_w, writeheader, write. cbn [bind app map].
    now rewrite app_nil_r. }
  rewrite Hcsv. unfold print, saving_header. cbn [bind app]. reflexivity.
Qed.

Lemma printed_written (file : string) (chunks : list string) :
  flat_map (fun e => match e with Printed l => [l] | _ => [] end)
    (map (Written file) chunks) = [].
Proof. induction chunks as [|chunk chunks IH]; [reflexivity | exact IH]. Qed.

Lemma partial_files (quotes good : list dict) :
  let effects :=
    ([saving_header;
      Opened json_filename;
      Written json_filename (Json.dumps (Json.of_records quotes));
      Printed ("Saved " ++ str (List.length quotes)
                 ++ " quotes to " ++ json_filename);
      Opened csv_filename]
     ++ map (Written csv_filename)
          (map Csv.write_row (fieldnames :: map csv_cells good)))%list in
  file_content json_filename effects
  = Some (Json.dumps (Json.of_records quotes))
  /\ file_content csv_filename effects
     = Some (Csv.write_rows (fieldnames :: map csv_cells good))
  /\ file_content txt_filename effects = None
  /\ printed effects
     = [nl ++ "=== Saving Data ===";
        "Saved " ++ str (List.length quotes) ++ " quotes to "
          ++ json_filename].
Proof.
  cbv zeta. split_all.
  - rewrite SaveFacts.file_content_fold, fold_left_app.
    rewrite SaveFacts.fold_untouched.
    + cbn [fold_left write_step saving_header]. rewrite String.eqb_refl.
      reflexivity.
    + apply Forall_forall. intros e He. apply in_map_iff in He.
      destruct He as (chunk & <- & _). reflexivity.
  - rewrite SaveFacts.file_content_fold, fold_left_app.
    cbn [fold_left write_step saving_header]. rewrite String.eqb_refl.
    rewrite SaveFacts.fold_written. cbn [append].
    now rewrite SaveFacts.concat_write_rows.
  - rewrite SaveFacts.file_content_fold. apply SaveFacts.fold_untouched.
    apply Forall_app. split; [repeat constructor|].
    apply Forall_forall. intros e He. apply in_map_iff in He.
    destruct He as (chunk & <- & _). reflexivity.
  - unfold printed. rewrite flat_map_app. cbn [flat_map saving_header app].
    now rewrite printed_written.
Qed.

(** X8.  A quote without the key [tags] makes [save_data_to_files] raise
    [KeyError('tags')], and by then the function has worked:
    [quotes.json] holds every quote, the one without tags included;
    [quotes.csv] holds the header and the rows of the records before that
    quote; [quotes_summary.txt] was never opened; and the only line
    printed after the header is that of the JSON file. *)
Theorem missing_tags_leave_partial_files
  (good rest : list dict) (bad : dict) :
  Forall is_record good ->
  dict_get "tags" bad = None ->
  exists effects,
    save_data_to_files (good ++ bad :: rest)
    = (effects, Raise (KeyError "tags"))
    /\ file_content json_filename effects
       = Some (Json.dumps (Json.of_records (good ++ bad :: rest)))
    /\ file_content csv_filename effects
       = Some (Csv.write_rows (fieldnames :: map csv_cells good))
    /\ file_content txt_filename effects = None
    /\ printed effects
       = [nl ++ "=== Saving Data ===";
          "Saved " ++ str (List.length (good ++ bad :: rest))
            ++ " quotes to " ++ json_filename].
Proof.
  intros Hgood Hbad. eexists. split.
  - apply save_fails_at_row; [exact Hgood|].
    unfold csv_quote, item. rewrite Hbad. reflexivity.
  - apply partial_files.
Qed.

(** A record, then a quote without tags, then a record. *)
Lemma missing_tags_after_one_record :
  exists effects,
    save_data_to_files
      ([record "t" "A" ["a"] 1]
         ++ [("text", PStr "u"); ("author", PStr "B")]
         :: [record "v" "C" [] 2])
    = (effects, Raise (KeyError "tags"))
    /\ file_content csv_filename effects
       = Some (Csv.write_rows
                 [fieldnames; ["t"; "A"; "a"; "1"]])
    /\ file_content txt_filename effects = None.
Proof.
  destruct (missing_tags_leave_partial_files
              [record "t" "A" ["a"] 1] [record "v" "C" [] 2]
              [("text", PStr "u"); ("author", PStr "B")])
    as (effects & Hsave & _ & Hcsv & Htxt & _).
  - repeat constructor. do 4 eexists. reflexivity.
  - reflexivity.
  - exists effects. split; [exact Hsave|]. split; [exact Hcsv | exact Htxt].
Defined.

(** *** A quote with a field the CSV file has no column for *)

Lemma keys_dict_set (k : string) (v v' : pyval) (d : dict) :
  dict_get k d = Some v' -> keys (dict_set k v d) = keys d.
Proof.
  unfold keys. induction d as [|[k' w] d IH]; cbn [dict_get dict_set];
    [discriminate|].
  destruct (String.eqb k k'); cbn [map fst]; [reflexivity|].
  intros H. now rewrite IH.
Qed.

(** X9.  A quote that has one key besides [text], [author], [tags] and
    [page] is refused by the CSV writer: [save_data_to_files] raises the
    [ValueError] of [csv.DictWriter] that names the key.  [quotes.json]
    already holds every quote, [quotes.csv] the header and the rows of
    the records before that quote, and [quotes_summary.txt] was never
    opened. *)
Theorem extra_key_is_refused_by_the_csv_writer
  (good rest : list dict) (bad : dict) (tags : list string) (key : string) :
  Forall is_record good ->
  dict_get "tags" bad = Some (PList tags) ->
  Csv.wrong_fields fieldnames bad = [key] ->
  exists effects,
    save_data_to_files (good ++ bad :: rest)
    = (effects,
       Raise (ValueError ("dict contains fields not in fieldnames: "
                            ++ repr key)))
    /\ file_content json_filename effects
       = Some (Json.dumps (Json.of_records (good ++ bad :: rest)))
    /\ file_content csv_filename effects
       = Some (Csv.write_rows (fieldnames :: map csv_cells good))
    /\ file_content txt_filename effects = None.
Proof.
  intros Hgood Htags Hwrong. eexists. split.
  - apply save_fails_at_row; [exact Hgood|].
    unfold csv_quote, item. rewrite Htags. cbn [join_value lift bind].
    unfold writerow, Csv.dict_to_list, Csv.wrong_fields.
    rewrite (keys_dict_set _ _ _ _ Htags).
    unfold Csv.wrong_fields in Hwrong. rewrite Hwrong. reflexivity.
  - pose proof (partial_files (good ++ bad :: rest) good) as H.
    cbv zeta in H. tauto.
Qed.

(** A record with the address of its page. *)
Lemma url_field_is_refused :
  exists effects,
    save_data_to_files
      ([] ++ (record "t" "A" ["a"] 1 ++ [("url", PStr "u")])%list :: [])
    = (effects,
       Raise (ValueError ("dict contains fields not in fieldnames: "
                            ++ "'url'")))
    /\ file_content csv_filename effects
       = Some (Csv.write_rows [fieldnames]).
Proof.
  destruct (extra_key_is_refused_by_the_csv_writer
              [] [] (record "t" "A" ["a"] 1 ++ [("url", PStr "u")])%list
              ["a"] "url")
    as (effects & Hsave & _ & Hcsv & _).
  - constructor.
  - reflexivity.
  - reflexivity.
  - exists effects. split; [exact Hsave | exact Hcsv].
Defined.

End SaveMore.

(** * [scrape_flatiron_courses]: the listing and the failures *)

Module ScraperMore.
Import Py Bs4 Requests Scraper ScraperNotions.
Local Open Scope string_scope.

Lemma truthy_long (text : string) :
  truthy text && (3 <? String.length text)%nat
  = (3 <? String.length text)%nat.
Proof. destruct text; reflexivity. Qed.

Lemma collect_courses_from (course_elements : list node) :
  forall courses_found,
    fold_left
      (fun courses_found element =>
         let text := get_text_strip element in
         if truthy text && (3 <? String.length text)%nat
         then (courses_found ++ [text])%list
         else courses_found)
      course_elements courses_found
    = (courses_found ++ long_texts course_elements)%list.
Proof.
  unfold long_texts.
  induction course_elements as [|element elements IH]; intros found.
  - cbn. now rewrite app_nil_r.
  - cbn [fold_left map filter]. cbv zeta. rewrite IH, truthy_long.
    destruct (3 <? String.length (get_text_strip element))%nat;
      [|reflexivity].
    now rewrite <- app_assoc.
Qed.

Lemma collect_courses_long (course_elements : list node) :
  collect_courses course_elements = long_texts course_elements.
Proof. unfold collect_courses. now rewrite collect_courses_from. Qed.

Lemma for_each_lines (A : Type) (line : A -> string) (f : A -> Out unit)
  (l : list A) :
  (forall x, f x = print (line x)) ->
  for_each l f = (map Printed (map line l), Ok tt).
Proof.
  intros Hf. induction l as [|x l IH]; [reflexivity|].
  cbn [for_each map]. rewrite Hf, IH. reflexivity.
Qed.

Lemma try_body_listing (w : World) (html : Response) (doc : node) :
  requests_get w courses_url headers None = Answer html ->
  http_error_msg html = None ->
  html_parser w (text html) = Tree doc ->
  try_body w
  = (found_line (select sel_courses doc)
       :: map Printed
            (map course_line
               (enumerate 0
                  (firstn 10
                     (first_occurrences
                        (long_texts (select sel_courses doc)))))),
     Ok doc).
Proof.
  intros Hget Hstatus Hparse. unfold try_body.
  rewrite Hget. cbn [fetched_result lift bind app].
  unfold raise_for_status. rewrite Hstatus. cbn [bind app].
  rewrite Hparse. cbn [parsed_result bind app]. cbv zeta.
  rewrite collect_courses_long.
  assert (Hu : remove_duplicates (long_texts (select sel_courses doc))
               = first_occurrences (long_texts (select sel_courses doc))).
  { unfold remove_duplicates, first_occurrences.
    now rewrite ScraperFacts.loop_fresh. }
  rewrite Hu.
  rewrite (for_each_lines _ course_line) by (now intros [i course]).
  unfold print, ret. cbn [bind app]. now rewrite app_nil_r.
Qed.

Lemma firstn_incl (A : Type) (n : nat) (l : list A) :
  forall x, In x (firstn n l) -> In x l.
Proof.
  revert n. induction l as [|y l IH]; intros [|n] x; cbn [firstn In];
    try tauto.
  intros [H|H]; [now left | right; eauto].
Qed.

Lemma firstn_NoDup (A : Type) (n : nat) (l : list A) :
  NoDup l -> NoDup (firstn n l).
Proof.
  intros H. revert n. induction H as [|x l Hx _ IH]; intros [|n];
    cbn [firstn]; try constructor; [|apply IH].
  intros Hin. apply Hx. eapply firstn_incl. exact Hin.
Qed.

(** X10.  When the courses page is fetched and parsed, the function
    returns the document and prints, after its header and the number of
    matched elements, the courses it lists: they are the texts of matched
    elements that are longer than three characters, each listed once
    where it first occurs, the first ten of them at most, numbered from 1
    without a gap. *)
Theorem courses_are_listed_once_and_numbered
  (w : World) (html : Response) (doc : node) :
  requests_get w courses_url headers None = Answer html ->
  http_error_msg html = None ->
  html_parser w (text html) = Tree doc ->
  exists courses,
    scrape_flatiron_courses w
    = (courses_header :: found_line (select sel_courses doc)
         :: map Printed (map course_line (enumerate 0 courses)),
       Ok (Some doc))
    /\ courses
       = firstn 10
           (first_occurrences (long_texts (select sel_courses doc)))
    /\ List.length courses <= 10
    /\ NoDup courses
    /\ (forall course,
          In course courses ->
          3 < String.length course
          /\ exists element,
               In element (select sel_courses doc)
               /\ get_text_strip element = course).
Proof.
  intros Hget Hstatus Hparse. eexists. split_all.
  - unfold scrape_flatiron_courses.
    rewrite (try_body_listing w html doc Hget Hstatus Hparse).
    reflexivity.
  - reflexivity.
  - rewrite length_firstn. lia.
  - apply firstn_NoDup. apply ScraperFacts.fresh_NoDup.
  - intros course Hin. apply firstn_incl in Hin.
    apply ScraperFacts.fresh_In in Hin. destruct Hin as [Hin _].
    unfold long_texts in Hin. apply filter_In in Hin.
    destruct Hin as [Hin Hlong]. apply Nat.ltb_lt in Hlong.
    split; [exact Hlong|]. apply in_map_iff in Hin.
    destruct Hin as (element & Heq & Hel). eauto.
Qed.

(** The mock courses page: three courses out of five matched elements. *)
Lemma courses_of_the_mock_page :
  exists courses,
    scrape_flatiron_courses MockMore.courses_site
    = (courses_header :: found_line (select sel_courses MockMore.courses_doc)
         :: map Printed (map course_line (enumerate 0 courses)),
       Ok (Some MockMore.courses_doc))
    /\ courses
       = ["Software Engineering"; "Data ScienceAI"; "Data Science"].
Proof.
  destruct (courses_are_listed_once_and_numbered
              MockMore.courses_site
              {| status_code := 200; reason := "OK";
                 url := courses_url; text := "courses" |}
              MockMore.courses_doc eq_refl eq_refl eq_refl)
    as (courses & Hrun & Hcourses & _).
  exists courses. split; [exact Hrun|]. rewrite Hcourses. reflexivity.
Defined.

(** A request that raises leads to the handler. *)
Lemma courses_request_fails (w : World) (k : request_kind) (msg : string) :
  requests_get w courses_url headers None = Fails k msg ->
  scrape_flatiron_courses w
  = ([courses_header;
      Printed ("Error fetching courses page: " ++ msg)], Ok None).
Proof.
  intros Hget. unfold scrape_flatiron_courses, try_body.
  rewrite Hget. reflexivity.
Qed.

Lemma courses_status_fails (w : World) (html : Response) (msg : string) :
  requests_get w courses_url headers None = Answer html ->
  http_error_msg html = Some msg ->
  scrape_flatiron_courses w
  = ([courses_header;
      Printed ("Error fetching courses page: " ++ msg)], Ok None).
Proof.
  intros Hget Hstatus.
  unfold scrape_flatiron_courses, try_body. rewrite Hget.
  cbn [fetched_result lift bind app]. unfold raise_for_status.
  rewrite Hstatus. reflexivity.
Qed.

(** X11.  A [requests.RequestException] never leaves
    [scrape_flatiron_courses]: when the request fails, or when the status
    of the answer is an error (400 to 599), the function prints its
    header and one line with the message of the error, and returns
    [None]; no course is listed.  A markup that the parser rejects is
    not handled: the exception leaves the function after the header. *)
Theorem courses_page_failures (w : World) :
  (forall k msg,
      requests_get w courses_url headers None = Fails k msg ->
      scrape_flatiron_courses w
      = ([courses_header;
          Printed ("Error fetching courses page: " ++ msg)], Ok None))
  /\ (forall html msg,
        requests_get w courses_url headers None = Answer html ->
        http_error_msg html = Some msg ->
        scrape_flatiron_courses w
        = ([courses_header;
            Printed ("Error fetching courses page: " ++ msg)], Ok None))
  /\ (forall html msg,
        requests_get w courses_url headers None = Answer html ->
        http_error_msg html = None ->
        html_parser w (text html) = Rejected msg ->
        scrape_flatiron_courses w
        = ([courses_header], Raise (ParserRejectedMarkup msg)))
  /\ (forall k msg effects,
        scrape_flatiron_courses w = (effects, Raise (RequestException k msg))
        -> False).
Proof.
  split_all.
  - intros k msg. apply courses_request_fails.
  - intros html msg. apply courses_status_fails.
  - intros html msg Hget Hstatus Hparse.
    unfold scrape_flatiron_courses, try_body. rewrite Hget.
    cbn [fetched_result lift bind app]. unfold raise_for_status.
    rewrite Hstatus. cbn [bind app]. rewrite Hparse. reflexivity.
  - intros k msg effects. unfold scrape_flatiron_courses.
    destruct (try_body w) as [lines [doc|[k' msg'|m|key|m|m|m]]];
      cbn [bind print ret app]; discriminate.
Qed.

(** The three failures on mock sites. *)
Lemma courses_page_failures_on_mock_sites :
  scrape_flatiron_courses MockMore.courses_down
  = ([courses_header;
      Printed ("Error fetching courses page: " ++ "no route to host")],
     Ok None)
  /\ scrape_flatiron_courses MockMore.courses_missing
     = ([courses_header;
         Printed ("Error fetching courses page: "
                    ++ "404 Client Error: Not Found for url: "
                    ++ courses_url)], Ok None)
  /\ scrape_flatiron_courses MockMore.courses_broken
     = ([courses_header], Raise (ParserRejectedMarkup "markup rejected")).
Proof.
  split; [|split].
  - exact (proj1 (courses_page_failures MockMore.courses_down)
             ConnectionError "no route to host" eq_refl).
  - exact (proj1 (proj2 (courses_page_failures MockMore.courses_missing))
             (Mock.not_found courses_url) _ eq_refl eq_refl).
  - exact (proj1 (proj2 (proj2
                    (courses_page_failures MockMore.courses_broken)))
             {| status_code := 200; reason := "OK";
                url := courses_url; text := "broken" |}
             "markup rejected" eq_refl eq_refl eq_refl).
Defined.

End ScraperMore.

(** * [scrape_quotes_to_scrape]: requests and pauses *)

Module PracticalMore.
Import Py Bs4 Requests Practical PracticalNotions.
Local Open Scope string_scope.

Lemma pace_app (a b : list event) : pace (a ++ b) = (pace a ++ pace b)%list.
Proof. apply filter_app. Qed.

Lemma pace_outputs (A : Type) (line : A -> string) (l : list A) :
  pace (map (fun x => Output (line x)) l) = [].
Proof. induction l as [|x l IH]; [reflexivity | exact IH]. Qed.

Lemma pace_page_events (w : World) (p : nat) :
  pace (page_events w p)
  = Request (page_url base_url p)
      :: (if goes_on (view w p) then [Sleep 500] else []).
Proof.
  unfold page_events, goes_on, items, next_btn. rewrite pace_app.
  cbn [pace filter app]. f_equal.
  destruct (view w p) as [k msg|msg|doc]; try reflexivity.
  destruct (select sel_quote doc) as [|quote quotes]; [reflexivity|].
  fold (pace (map (fun quote => Output ("  Found quote by "
                                          ++ quote_author quote))
                (quote :: quotes)
              ++ match select_one sel_next doc with
                 | None => [Output "Reached the last page!"]
                 | Some _ => [Sleep 500]
                 end)).
  rewrite pace_app, pace_outputs.
  destruct (select_one sel_next doc); reflexivity.
Qed.

Lemma pace_pages_going_on (w : World) (first count : nat) :
  (forall p, first <= p < first + count -> goes_on (view w p) = true) ->
  pace (flat_map (page_events w) (seq first count))
  = flat_map paced_request (seq first count).
Proof.
  revert first. induction count as [|count IH]; intros first Hall;
    [reflexivity|].
  cbn [seq flat_map]. rewrite pace_app, pace_page_events.
  rewrite Hall by lia. rewrite IH by (intros p Hp; apply Hall; lia).
  reflexivity.
Qed.

(** X13.  In a run that returns, every request but the last is followed
    by a pause of half a second before the next request is made, and
    nothing else is requested: the requests and pauses are, in order,
    those of pages 1 to n - 1, each with its pause, and the request of
    page n, where n is the page at which the loop was left. *)
Theorem every_request_but_the_last_is_followed_by_a_pause
  (w : World) (fuel : nat) (r : terminal) (st : state) :
  scrape_quotes_to_scrape_run w fuel = Returns r st ->
  1 <= page st
  /\ pace (trace st)
     = (flat_map paced_request (seq 1 (page st - 1))
        ++ [Request (page_url base_url (page st))])%list.
Proof.
  intros Hrun. apply PracticalFacts.run_returns_iff in Hrun.
  destruct Hrun as (n & Hn & Hall & Hstop & ->).
  apply PracticalFacts.stop_reason_flow in Hstop.
  destruct Hstop as [_ Hstop].
  cbn [final_state completed page trace initial_state].
  split; [lia|].
  replace n with ((n - 1) + 1) at 1 by lia.
  rewrite seq_app, flat_map_app, !pace_app.
  rewrite pace_pages_going_on by (intros p Hp; apply Hall; lia).
  cbn [seq flat_map]. rewrite (app_nil_r (page_events w (1 + (n - 1)))).
  rewrite pace_page_events.
  replace (1 + (n - 1)) with n by lia. rewrite Hstop.
  cbn [pace filter app]. now rewrite app_nil_r.
Qed.

(** Three pages, the third without items. *)
Lemma pace_of_three_pages :
  pace (trace (final_state Mock.three_pages 3))
  = [Request Mock.page1; Sleep 500; Request Mock.page2; Sleep 500;
     Request Mock.page3].
Proof.
  exact (proj2 (every_request_but_the_last_is_followed_by_a_pause
                  Mock.three_pages 3 NoItemsOnPage
                  (final_state Mock.three_pages 3) eq_refl)).
Defined.

End PracticalMore.

(** * [scrape_with_session]: every URL is tried; when the session is
    closed *)

Module SessionFacts.
Import Py Bs4 Requests Session.
Local Open Scope string_scope.

Lemma turn_parses (w : World) (url : string) :
  parses w url ->
  exists line, turn w url = ([Get url; Output line], Ok tt).
Proof.
  intros Hp. unfold turn, try_body, raise_for_status.
  destruct (requests_get w url session_headers None)
    as [response|k msg] eqn:Hget; cbn [fetched_result]; [|eauto].
  destruct (http_error_msg response) as [msg|] eqn:Hstatus; [eauto|].
  destruct (Hp response Hget Hstatus) as [doc Hdoc].
  rewrite Hdoc. cbn [parsed_result]. eauto.
Qed.

Lemma turn_rejected (w : World) (url msg : string) :
  rejected w url msg ->
  turn w url = ([Get url], Raise (ParserRejectedMarkup msg)).
Proof.
  intros (response & Hget & Hstatus & Hparse).
  unfold turn, try_body, raise_for_status.
  rewrite Hget. cbn [fetched_result]. rewrite Hstatus, Hparse. reflexivity.
Qed.

Lemma session_requested_app (a b : list event) :
  requested (a ++ b) = (requested a ++ requested b)%list.
Proof. apply flat_map_app. Qed.

Lemma session_printed_app (a b : list event) :
  printed (a ++ b) = (printed a ++ printed b)%list.
Proof. apply flat_map_app. Qed.

Lemma session_closed_app (a b : list event) :
  closed (a ++ b) = closed a || closed b.
Proof. apply existsb_app. Qed.

(** The loop over URLs whose markup the parser takes. *)
Lemma loop_parses (w : World) (urls : list string) :
  (forall url, In url urls -> parses w url) ->
  snd (loop w urls) = Ok tt
  /\ requested (fst (loop w urls)) = urls
  /\ List.length (printed (fst (loop w urls))) = List.length urls
  /\ closed (fst (loop w urls)) = false.
Proof.
  induction urls as [|url urls IH]; intros Hp; [repeat split|].
  destruct (turn_parses w url (Hp url (or_introl eq_refl))) as [line Hturn].
  destruct IH as (Hr & Hreq & Hlines & Hclosed).
  { intros u Hu. apply Hp. now right. }
  cbn [loop]. rewrite Hturn.
  destruct (loop w urls) as [events r]. cbn [fst snd] in *.
  split_all.
  - exact Hr.
  - cbn [app requested flat_map]. fold (requested events). now rewrite Hreq.
  - cbn [app printed flat_map List.length]. fold (printed events).
    now rewrite Hlines.
  - cbn [app closed existsb orb]. exact Hclosed.
Qed.

(** The loop up to a URL whose markup the parser rejects. *)
Lemma loop_rejected (w : World) (before after : list string)
  (url msg : string) :
  (forall u, In u before -> parses w u) ->
  rejected w url msg ->
  snd (loop w (before ++ url :: after)) = Raise (ParserRejectedMarkup msg)
  /\ requested (fst (loop w (before ++ url :: after)))
     = (before ++ [url])%list
  /\ List.length (printed (fst (loop w (before ++ url :: after))))
     = List.length before
  /\ closed (fst (loop w (before ++ url :: after))) = false.
Proof.
  intros Hp Hrej. induction before as [|u before IH]; cbn [app loop].
  - rewrite (turn_rejected w url msg Hrej). repeat split.
  - destruct (turn_parses w u (Hp u (or_introl eq_refl))) as [line Hturn].
    rewrite Hturn.
    destruct IH as (Hr & Hreq & Hlines & Hclosed).
    { intros u' Hu'. apply Hp. now right. }
    destruct (loop w (before ++ url :: after)) as [events r].
    cbn [fst snd] in *. split_all.
    + exact Hr.
    + cbn [app requested flat_map]. fold (requested events).
      now rewrite Hreq.
    + cbn [app printed flat_map List.length]. fold (printed events).
      now rewrite Hlines.
    + cbn [app closed existsb orb]. exact Hclosed.
Qed.

(** X14.  When the parser takes what the three URLs serve, a failed
    request or an error status at one URL does not keep the others from
    being tried: the function ends without an exception, has requested
    the three URLs in their order, has printed its header and one line
    per URL, and closes the session as the last thing it does. *)
Theorem session_tries_every_url_and_closes (w : World) :
  (forall url, In url urls_to_test -> parses w url) ->
  snd (scrape_with_session w) = Ok tt
  /\ requested (fst (scrape_with_session w)) = urls_to_test
  /\ List.length (printed (fst (scrape_with_session w))) = 4
  /\ exists events,
       fst (scrape_with_session w) = (events ++ [Close])%list
       /\ closed events = false.
Proof.
  intros Hp. destruct (loop_parses w urls_to_test Hp)
    as (Hr & Hreq & Hlines & Hclosed).
  unfold scrape_with_session.
  destruct (loop w urls_to_test) as [events r]. cbn [fst snd] in *.
  subst r. cbn [fst snd]. split_all.
  - reflexivity.
  - cbn [requested flat_map app]. fold (requested (events ++ [Close])).
    rewrite session_requested_app, Hreq. apply app_nil_r.
  - cbn [printed flat_map app List.length].
    fold (printed (events ++ [Close])).
    rewrite session_printed_app, length_app, Hlines. reflexivity.
  - exists (Output (nl ++ "=== Using Session for Efficient Scraping ===")
              :: events).
    split; [reflexivity|]. exact Hclosed.
Qed.

(** A site whose second URL is not found and whose third times out. *)
Lemma session_on_a_failing_site :
  snd (scrape_with_session MockMore.session_site) = Ok tt
  /\ requested (fst (scrape_with_session MockMore.session_site))
     = urls_to_test
  /\ printed (fst (scrape_with_session MockMore.session_site))
     = [nl ++ "=== Using Session for Efficient Scraping ===";
        "  http://quotes.toscrape.com/: 2 quotes found";
        "  http://quotes.toscrape.com/page/2/: Error - "
          ++ "404 Client Error: Not Found for url: "
          ++ "http://quotes.toscrape.com/page/2/";
        "  http://quotes.toscrape.com/random: Error - timed out"].
Proof.
  assert (Hp : forall url, In url urls_to_test ->
                           parses MockMore.session_site url).
  { intros url [<-|[<-|[<-|[]]]] response Hget Hstatus;
      vm_compute in Hget; inversion Hget; subst;
      try discriminate Hstatus; eexists; reflexivity. }
  destruct (session_tries_every_url_and_closes MockMore.session_site Hp)
    as (Hr & Hreq & _).
  split; [exact Hr|]. split; [exact Hreq|]. reflexivity.
Defined.

(** X15.  The session is closed after the loop and not in a [finally]
    clause: when the parser rejects what one of the URLs serves, the
    exception leaves the function, the URLs after that one are not
    requested, and the session is never closed. *)
Theorem rejected_markup_leaves_the_session_open
  (w : World) (before after : list string) (url msg : string) :
  urls_to_test = (before ++ url :: after)%list ->
  (forall u, In u before -> parses w u) ->
  rejected w url msg ->
  snd (scrape_with_session w) = Raise (ParserRejectedMarkup msg)
  /\ requested (fst (scrape_with_session w)) = (before ++ [url])%list
  /\ closed (fst (scrape_with_session w)) = false.
Proof.
  intros Hurls Hp Hrej.
  destruct (loop_rejected w before after url msg Hp Hrej)
    as (Hr & Hreq & _ & Hclosed).
  unfold scrape_with_session. rewrite Hurls.
  destruct (loop w (before ++ url :: after)) as [events r].
  cbn [fst snd] in *. subst r. cbn [fst snd]. split_all.
  - reflexivity.
  - exact Hreq.
  - exact Hclosed.
Qed.

(** The parser rejects what the second URL serves. *)
Lemma session_on_a_broken_page :
  snd (scrape_with_session MockMore.session_broken)
  = Raise (ParserRejectedMarkup "markup rejected")
  /\ requested (fst (scrape_with_session MockMore.session_broken))
     = ["http://quotes.toscrape.com/"; "http://quotes.toscrape.com/page/2/"]
  /\ closed (fst (scrape_with_session MockMore.session_broken)) = false.
Proof.
  apply (rejected_markup_leaves_the_session_open
           MockMore.session_broken
           ["http://quotes.toscrape.com/"]
           ["http://quotes.toscrape.com/random"]
           "http://quotes.toscrape.com/page/2/" "markup rejected").
  - reflexivity.
  - intros u [<-|[]] response Hget Hstatus.
    vm_compute in Hget. inversion Hget; subst. eexists. reflexivity.
  - exists {| status_code := 200; reason := "OK";
              url := "http://quotes.toscrape.com/page/2/";
              text := "broken" |}.
    repeat split.
Defined.

End SessionFacts.

(** * [demonstrate_link_extraction]: each address once *)

Module LinkFacts.
Import Py Bs4 Requests LinkDemo.
Local Open Scope string_scope.

Section Urljoin.

Variable urljoin : string -> string -> result string.

Lemma visit_resolves (unique_links : list string) (link : node) :
  resolves urljoin link ->
  visit urljoin unique_links link
  = (if existsb (String.eqb (snd (link_pair urljoin link))) unique_links
     then ([], Ok unique_links)
     else ([Printed (link_line (link_pair urljoin link))],
           Ok (unique_links ++ [snd (link_pair urljoin link)])%list)).
Proof.
  intros [address Haddress]. unfold visit, link_pair, address_of.
  rewrite Haddress. cbn [lift bind snd app].
  destruct (existsb (String.eqb address) unique_links); reflexivity.
Qed.

Lemma visit_raises (unique_links : list string) (link : node) (e : exn) :
  resolve urljoin (get "href" link) = Raise e ->
  visit urljoin unique_links link = ([], Raise e).
Proof.
  intros Hraise. unfold visit. rewrite Hraise. reflexivity.
Qed.

Lemma visit_loop (links : list node) :
  Forall (resolves urljoin) links ->
  forall seen,
    for_fold links seen (visit urljoin)
    = (map Printed
         (map link_line
            (first_by_address seen (map (link_pair urljoin) links))),
       Ok (seen ++ map snd
                     (first_by_address seen
                        (map (link_pair urljoin) links)))%list).
Proof.
  induction 1 as [|link links Hlink _ IH]; intros seen.
  - cbn. now rewrite app_nil_r.
  - cbn [for_fold map first_by_address].
    rewrite (visit_resolves seen link Hlink).
    destruct (existsb (String.eqb (snd (link_pair urljoin link))) seen).
    + cbn [bind]. rewrite IH. reflexivity.
    + cbn [bind]. rewrite IH. cbn [map app].
      now rewrite <- app_assoc.
Qed.

Lemma visit_loop_raises (links before : list node) (bad : node)
  (after : list node) (e : exn) :
  links = (before ++ bad :: after)%list ->
  Forall (resolves urljoin) before ->
  resolve urljoin (get "href" bad) = Raise e ->
  forall seen,
    for_fold links seen (visit urljoin)
    = (map Printed
         (map link_line
            (first_by_address seen (map (link_pair urljoin) before))),
       Raise e).
Proof.
  intros -> Hbefore Hbad.
  induction Hbefore as [|link links Hlink _ IH]; intros seen.
  - cbn [app for_fold map first_by_address].
    rewrite (visit_raises seen bad e Hbad). reflexivity.
  - cbn [app for_fold map first_by_address].
    rewrite (visit_resolves seen link Hlink).
    destruct (existsb (String.eqb (snd (link_pair urljoin link))) seen).
    + cbn [bind]. rewrite IH. reflexivity.
    + cbn [bind]. rewrite IH. reflexivity.
Qed.

End Urljoin.

Lemma first_by_address_fresh (pairs : list (string * string)) :
  forall seen,
    map snd (first_by_address seen pairs)
    = Scraper.fresh seen (map snd pairs).
Proof.
  induction pairs as [|entry pairs IH]; intros seen; [reflexivity|].
  cbn [first_by_address map Scraper.fresh]. unfold Scraper.member.
  destruct (existsb (String.eqb (snd entry)) seen); cbn [map];
    now rewrite IH.
Qed.

Lemma first_by_address_first (pairs : list (string * string)) :
  forall seen text address,
    In (text, address) (first_by_address seen pairs) ->
    ~ In address seen
    /\ List.find (fun entry => String.eqb address (snd entry)) pairs
       = Some (text, address).
Proof.
  induction pairs as [|entry pairs IH]; intros seen text address Hin;
    [destruct Hin|].
  cbn [first_by_address] in Hin. cbn [List.find].
  destruct (existsb (String.eqb (snd entry)) seen) eqn:Hseen.
  - destruct (IH _ _ _ Hin) as [Hnot Hfind]. split; [exact Hnot|].
    destruct (String.eqb address (snd entry)) eqn:Heq; [|exact Hfind].
    apply String.eqb_eq in Heq. subst address.
    apply existsb_exists in Hseen. destruct Hseen as (x & Hx & Hxe).
    apply String.eqb_eq in Hxe. subst x. contradiction.
  - destruct Hin as [->|Hin].
    + cbn [snd]. rewrite String.eqb_refl. split; [|reflexivity].
      intros Hin. assert (H : existsb (String.eqb address) seen = true).
      { apply existsb_exists. exists address.
        split; [exact Hin | apply String.eqb_refl]. }
      cbn [snd] in Hseen. congruence.
    + destruct (IH _ _ _ Hin) as [Hnot Hfind].
      assert (Hne : address <> snd entry).
      { intros ->. apply Hnot. apply in_or_app. right. now left. }
      apply String.eqb_neq in Hne. rewrite Hne.
      split; [|exact Hfind].
      intros H. apply Hnot. apply in_or_app. now left.
Qed.

(** X16.  When the home page is fetched and parsed, the listing shows
    each resolved address once, as far as the addresses can be resolved.
    [urljoin] may be any function that returns an address or raises.
    If the address of every link is resolved, the addresses shown have
    no duplicate and are those of the links; the text shown with an
    address is that of the first link that resolves to it; and the total
    printed at the end is the number of lines shown.  If the resolution
    of a link raises an exception that the handler does not catch (the
    [ValueError] of [urljoin], the [TypeError] of a list), the function
    raises it after the lines of the links before, which are listed in
    the same way, and prints no total. *)
Theorem each_address_is_listed_once
  (urljoin : string -> string -> result string)
  (w : World) (response : Response) (doc : node) :
  requests_get w home_url headers None = Answer response ->
  http_error_msg response = None ->
  html_parser w (text response) = Tree doc ->
  (Forall (resolves urljoin) (select_links doc) ->
   exists shown,
     demonstrate_link_extraction urljoin w
     = ((Printed (nl ++ "=== Link Extraction Demo ===")
           :: Printed ("Found " ++ str (List.length (select_links doc))
                         ++ " links:")
           :: map Printed (map link_line shown))
          ++ [Printed (nl ++ "Total unique links: "
                          ++ str (List.length shown))], Ok tt)%list
     /\ NoDup (map snd shown)
     /\ (forall address,
           In address (map snd shown)
           <-> In address
                 (map snd (map (link_pair urljoin) (select_links doc))))
     /\ (forall text address,
           In (text, address) shown ->
           List.find (fun entry => String.eqb address (snd entry))
             (map (link_pair urljoin) (select_links doc))
           = Some (text, address)))
  /\ (forall before bad after e,
        select_links doc = (before ++ bad :: after)%list ->
        Forall (resolves urljoin) before ->
        resolve urljoin (get "href" bad) = Raise e ->
        caught e = false ->
        exists shown,
          demonstrate_link_extraction urljoin w
          = (Printed (nl ++ "=== Link Extraction Demo ===")
               :: Printed ("Found "
                             ++ str (List.length (select_links doc))
                             ++ " links:")
               :: map Printed (map link_line shown), Raise e)
          /\ NoDup (map snd shown)
          /\ (forall address,
                In address (map snd shown)
                <-> In address
                      (map snd (map (link_pair urljoin) before)))
          /\ (forall text address,
                In (text, address) shown ->
                List.find (fun entry => String.eqb address (snd entry))
                  (map (link_pair urljoin) before)
                = Some (text, address))).
Proof.
  intros Hget Hstatus Hparse.
  assert (Hbody :
    try_body urljoin w
    = (print ("Found " ++ str (List.length (select_links doc))
                ++ " links:") ;;
       unique_links <- for_fold (select_links doc) [] (visit urljoin) ;;
       print (nl ++ "Total unique links: "
                ++ str (List.length unique_links)))).
  { unfold try_body. rewrite Hget.
    cbn [fetched_result lift bind app]. unfold raise_for_status.
    rewrite Hstatus. cbn [bind app]. rewrite Hparse.
    cbn [parsed_result bind app].
    now destruct (bind (print _) _). }
  split.
  - intros Hlinks.
    exists (first_by_address []
              (map (link_pair urljoin) (select_links doc))).
    split_all.
    + unfold demonstrate_link_extraction. rewrite Hbody.
      rewrite (visit_loop urljoin _ Hlinks []).
      unfold print. cbn [bind app]. rewrite !length_map. reflexivity.
    + rewrite first_by_address_fresh. apply ScraperFacts.fresh_NoDup.
    + intros address. rewrite first_by_address_fresh.
      rewrite ScraperFacts.fresh_In. cbn [In]. tauto.
    + intros text address Hin.
      now apply first_by_address_first in Hin.
  - intros before bad after e Hsplit Hbefore Hbad Hcaught.
    exists (first_by_address [] (map (link_pair urljoin) before)).
    split_all.
    + unfold demonstrate_link_extraction. rewrite Hbody.
      rewrite (visit_loop_raises urljoin _ before bad after e
                 Hsplit Hbefore Hbad []).
      unfold print. cbn [bind app].
      destruct e; try discriminate Hcaught; reflexivity.
    + rewrite first_by_address_fresh. apply ScraperFacts.fresh_NoDup.
    + intros address. rewrite first_by_address_fresh.
      rewrite ScraperFacts.fresh_In. cbn [In]. tauto.
    + intros text address Hin.
      now apply first_by_address_first in Hin.
Qed.

(** Three links with an address, two of them to the same one; and a
    page whose second link has the reference [http://[]. *)
Lemma addresses_of_the_linked_page :
  (exists shown,
     demonstrate_link_extraction MockMore.join_address MockMore.linked_site
     = ((Printed (nl ++ "=== Link Extraction Demo ===")
           :: Printed ("Found " ++ "3" ++ " links:")
           :: map Printed (map link_line shown))
          ++ [Printed (nl ++ "Total unique links: "
                          ++ str (List.length shown))], Ok tt)%list
     /\ shown = [("Login", "http://quotes.toscrape.com/login");
                 ("love", "http://quotes.toscrape.com/tag/love/")])
  /\ demonstrate_link_extraction MockMore.join_address
       MockMore.mislinked_site
     = ([Printed (nl ++ "=== Link Extraction Demo ===");
         Printed "Found 3 links:";
         Printed "  'Login' -> http://quotes.toscrape.com/login"],
        Raise (ValueError "Invalid IPv6 URL")).
Proof.
  split.
  - destruct (each_address_is_listed_once
                MockMore.join_address MockMore.linked_site
                {| status_code := 200; reason := "OK";
                   url := home_url; text := "linked" |}
                MockMore.linked_doc eq_refl eq_refl eq_refl)
      as [Hall _].
    destruct Hall as (shown & Hrun & _).
    + repeat constructor; eexists; reflexivity.
    + exists [("Login", "http://quotes.toscrape.com/login");
              ("love", "http://quotes.toscrape.com/tag/love/")].
      split; reflexivity.
  - destruct (each_address_is_listed_once
                MockMore.join_address MockMore.mislinked_site
                {| status_code := 200; reason := "OK";
                   url := home_url; text := "mislinked" |}
                MockMore.mislinked_doc eq_refl eq_refl eq_refl)
      as [_ Hraises].
    destruct (Hraises
                [Tag "a" [("href", AStr "/login")]
                   [NavigableString "Login"]]
                (Tag "a" [("href", AStr "http://[")]
                   [NavigableString "broken"])
                [Tag "a" [("href", AStr "/tag/love/")]
                   [NavigableString "love"]]
                (ValueError "Invalid IPv6 URL")
                eq_refl) as (shown & Hrun & _).
    + repeat constructor; eexists; reflexivity.
    + reflexivity.
    + reflexivity.
    + reflexivity.
Defined.

End LinkFacts.

(** * lib/scraper.py: the other functions and [main] *)

Module HomepageFacts.
Import Py Bs4 Requests Homepage.
Local Open Scope string_scope.

(** *** Parents *)

Lemma with_parent_tag (name : string) (attrs : list (string * attr_value))
  (cs : list node) :
  with_parent (Tag name attrs cs)
  = flat_map (fun c => (Tag name attrs cs, c) :: with_parent c) cs.
Proof.
  cbn [with_parent]. generalize (Tag name attrs cs).
  intros parent. induction cs as [|c cs IH]; cbn [flat_map app];
    [reflexivity|].
  now rewrite IH.
Qed.

Lemma with_parent_children (n : node) :
  map snd (with_parent n) = descendants n.
Proof.
  induction n as [s|name attrs cs IH] using Bs4Facts.node_induction;
    [reflexivity|].
  rewrite with_parent_tag, Bs4Facts.descendants_tag.
  generalize (Tag name attrs cs) as parent. intros parent.
  induction IH as [|c cs Hc _ IHcs]; [reflexivity|].
  cbn [flat_map map app]. now rewrite map_app, Hc, IHcs.
Qed.

Lemma with_parent_In (n : node) :
  forall parent child,
    In (parent, child) (with_parent n) ->
    In child (children parent)
    /\ (parent = n \/ In parent (descendants n)).
Proof.
  induction n as [s|name attrs cs IH] using Bs4Facts.node_induction;
    intros parent child Hin; [destruct Hin|].
  rewrite with_parent_tag in Hin. rewrite Bs4Facts.descendants_tag.
  apply in_flat_map in Hin. destruct Hin as (c & Hc & Hin).
  destruct Hin as [Heq|Hin].
  - inversion Heq; subst. split; [exact Hc | now left].
  - rewrite Forall_forall in IH.
    destruct (IH c Hc parent child Hin) as [Hchild Hparent].
    split; [exact Hchild|]. right. apply in_flat_map. exists c.
    split; [exact Hc|]. destruct Hparent as [->|Hparent];
      [now left | now right].
Qed.

Lemma hd_filter_snd (A B : Type) (p : B -> bool) (l : list (A * B)) :
  option_map snd (hd_error (filter (fun ab => p (snd ab)) l))
  = hd_error (filter p (map snd l)).
Proof.
  induction l as [|[a b] l IH]; [reflexivity|].
  cbn [filter map snd]. destruct (p b); [reflexivity | exact IH].
Qed.

Lemma find_with_parent_find (name : string) (doc : node) :
  option_map snd (find_with_parent name doc) = find name doc.
Proof.
  unfold find_with_parent, find, find_all.
  now rewrite hd_filter_snd, with_parent_children.
Qed.

Lemma find_with_parent_some (name : string) (doc h : node) :
  find name doc = Some h ->
  exists parent, find_with_parent name doc = Some (parent, h).
Proof.
  intros H. rewrite <- find_with_parent_find in H.
  destruct (find_with_parent name doc) as [[parent h']|]; [|discriminate].
  inversion H. now exists parent.
Qed.

Lemma find_with_parent_none (name : string) (doc : node) :
  find name doc = None -> find_with_parent name doc = None.
Proof.
  intros H. rewrite <- find_with_parent_find in H.
  now destruct (find_with_parent name doc).
Qed.

Lemma find_with_parent_In (name : string) (doc parent h : node) :
  find_with_parent name doc = Some (parent, h) ->
  In (parent, h) (with_parent doc).
Proof.
  unfold find_with_parent. intros H.
  destruct (filter _ (with_parent doc)) as [|x l] eqn:Hf; [discriminate|].
  inversion H; subst.
  assert (Hin : In (parent, h) ((parent, h) :: l)) by now left.
  rewrite <- Hf in Hin. now apply filter_In in Hin.
Qed.

(** X19.  The heading that [demonstrate_beautiful_soup_methods]
    analyses is the first [h1] of the document if there is one, even
    when an [h2] or an [h3] stands before it; without an [h1] it is the
    first [h2], without both the first [h3], and without any no heading
    is analysed.  The parent that is printed is the tag (or the document)
    that holds the heading among its children. *)
Theorem first_heading_is_the_first_h1_if_any (doc : node) :
  (forall h, find "h1" doc = Some h ->
             exists parent, first_heading doc = Some (parent, h))
  /\ (find "h1" doc = None ->
      forall h, find "h2" doc = Some h ->
                exists parent, first_heading doc = Some (parent, h))
  /\ (find "h1" doc = None -> find "h2" doc = None ->
      forall h, find "h3" doc = Some h ->
                exists parent, first_heading doc = Some (parent, h))
  /\ (find "h1" doc = None -> find "h2" doc = None ->
      find "h3" doc = None -> first_heading doc = None)
  /\ (forall parent h,
        first_heading doc = Some (parent, h) ->
        In h (children parent)
        /\ (parent = doc \/ In parent (descendants doc))).
Proof.
  unfold first_heading. split_all.
  - intros h H. destruct (find_with_parent_some _ _ _ H) as [parent ->].
    eauto.
  - intros H1 h H2. rewrite (find_with_parent_none _ _ H1).
    destruct (find_with_parent_some _ _ _ H2) as [parent ->]. eauto.
  - intros H1 H2 h H3.
    rewrite (find_with_parent_none _ _ H1), (find_with_parent_none _ _ H2).
    destruct (find_with_parent_some _ _ _ H3) as [parent ->]. eauto.
  - intros H1 H2 H3.
    now rewrite (find_with_parent_none _ _ H1),
      (find_with_parent_none _ _ H2), (find_with_parent_none _ _ H3).
  - intros parent h H. apply with_parent_In.
    destruct (find_with_parent "h1" doc) as [found|] eqn:E1.
    { inversion H; subst. eapply find_with_parent_In; eauto. }
    destruct (find_with_parent "h2" doc) as [found|] eqn:E2.
    { inversion H; subst. eapply find_with_parent_In; eauto. }
    eapply find_with_parent_In; eauto.
Qed.

(** An [h2], then an [h1] inside a [div]. *)
Lemma first_heading_of_the_headed_page :
  exists parent,
    first_heading MockMore.headed_doc
    = Some (parent, Tag "h1" (Mock.class_ "title") [NavigableString "First"])
    /\ tag_name parent = "div".
Proof.
  destruct (proj1 (first_heading_is_the_first_h1_if_any MockMore.headed_doc)
              (Tag "h1" (Mock.class_ "title") [NavigableString "First"])
              eq_refl) as [parent Hparent].
  exists parent. split; [exact Hparent|].
  vm_compute in Hparent. inversion Hparent. reflexivity.
Defined.

(** *** Pages that cannot be fetched *)

Lemma unreachable_raises (w : World) (url msg : string) :
  unreachable w url msg ->
  exists k,
    (html <- lift (fetched_result (requests_get w url Scraper.headers None)) ;;
     lift (raise_for_status html) ;; ret html)
    = ([], Raise (RequestException k msg)).
Proof.
  intros [[k Hget]|(response & Hget & Hstatus)]; rewrite Hget.
  - now exists k.
  - exists HTTPError. cbn [fetched_result lift bind app].
    unfold raise_for_status. now rewrite Hstatus.
Qed.

Lemma homepage_unreachable (w : World) (msg : string) :
  unreachable w homepage_url msg ->
  scrape_flatiron_homepage w
  = ([Printed "=== Scraping Flatiron School Homepage ===";
      Printed ("Error fetching webpage: " ++ msg)], Ok None).
Proof.
  intros [[k Hget]|(response & Hget & Hstatus)];
    unfold scrape_flatiron_homepage, homepage_body; rewrite Hget.
  - reflexivity.
  - cbn [fetched_result lift bind app]. unfold raise_for_status.
    rewrite Hstatus. reflexivity.
Qed.

Lemma example_unreachable (w : World) (msg : string) :
  unreachable w example_url msg ->
  scrape_example_site w
  = ([Printed (nl ++ "=== Scraping Example Site (httpbin.org) ===");
      Printed ("Error fetching example site: " ++ msg)], Ok tt).
Proof.
  intros [[k Hget]|(response & Hget & Hstatus)];
    unfold scrape_example_site, example_body; rewrite Hget.
  - reflexivity.
  - cbn [fetched_result lift bind app]. unfold raise_for_status.
    rewrite Hstatus. reflexivity.
Qed.

Lemma courses_unreachable (w : World) (msg : string) :
  unreachable w Scraper.courses_url msg ->
  Scraper.scrape_flatiron_courses w
  = ([Printed (nl ++ "=== Scraping Flatiron School Courses ===");
      Printed ("Error fetching courses page: " ++ msg)], Ok None).
Proof.
  intros [[k Hget]|(response & Hget & Hstatus)].
  - exact (ScraperMore.courses_request_fails w k msg Hget).
  - exact (ScraperMore.courses_status_fails w response msg Hget Hstatus).
Qed.

(** X17.  When none of the three pages can be fetched (the request
    fails or the status is an error), [main] still runs to its end: each
    scraper prints its header and the message of its error, the
    demonstration of the methods gets [None] from the homepage scraper
    and says that there is no document, and the closing lines follow;
    no exception leaves [main]. *)
Theorem main_runs_to_its_end_offline (w : World) (m1 m2 m3 : string) :
  unreachable w homepage_url m1 ->
  unreachable w Scraper.courses_url m2 ->
  unreachable w example_url m3 ->
  main w = (map Printed (offline_lines m1 m2 m3 ++ takeaways), Ok tt).
Proof.
  intros H1 H2 H3. unfold main.
  rewrite (homepage_unreachable w m1 H1), (courses_unreachable w m2 H2),
    (example_unreachable w m3 H3).
  rewrite (ScraperMore.for_each_lines _ (fun line => line) print takeaways)
    by reflexivity.
  rewrite map_id. reflexivity.
Qed.

(** Every request fails for want of a network. *)
Lemma main_without_network :
  main MockMore.offline
  = (map Printed
       (offline_lines "network is down" "network is down" "network is down"
          ++ takeaways), Ok tt).
Proof.
  apply main_runs_to_its_end_offline; left; exists ConnectionError;
    reflexivity.
Defined.

(** *** The title of the example page *)

Lemma for_each_prints (A : Type) (f : A -> Out unit) (l : list A) :
  (forall x, exists lines, f x = (map Printed lines, Ok tt)) ->
  exists lines, for_each l f = (map Printed lines, Ok tt).
Proof.
  intros Hf. induction l as [|x l [lines IH]].
  - now exists [].
  - destruct (Hf x) as [lines' Hx]. exists (lines' ++ lines)%list.
    cbn [for_each]. rewrite Hx, IH. cbn [bind]. now rewrite map_app.
Qed.

Lemma example_body_served (w : World) (doc : node) :
  serves w example_url doc ->
  exists lines,
    example_body w
    = (Printed "Successfully scraped httpbin.org/html"
         :: Printed ("Page title: " ++ page_title doc)
         :: map Printed lines, Ok tt).
Proof.
  intros (response & Hget & Hstatus & Hparse). unfold example_body.
  rewrite Hget. cbn [fetched_result lift bind app].
  unfold raise_for_status. rewrite Hstatus. cbn [bind app].
  rewrite Hparse. cbn [parsed_result bind app]. cbv zeta.
  destruct (for_each_prints _ show_paragraph
              (enumerate 0 (select sel_p doc))) as [plines Hp].
  { intros [i p]. unfold show_paragraph.
    destruct (truthy (get_text_strip p)); [|now exists []].
    eexists [_]. reflexivity. }
  destruct (for_each_prints _ show_link
              (enumerate 0 (select sel_a doc))) as [llines Hl].
  { intros [i link]. eexists [_]. reflexivity. }
  rewrite Hp, Hl. unfold print. cbn [bind app].
  eexists ((_ :: plines) ++ _ :: llines)%list.
  rewrite map_app. cbn [map app]. rewrite ?app_nil_r. reflexivity.
Qed.

Lemma find_is_tag (name : string) (doc t : node) :
  find name doc = Some t -> is_tag t = true.
Proof.
  unfold find, find_all. intros H.
  destruct (filter _ (descendants doc)) as [|x l] eqn:Hf; [discriminate|].
  inversion H; subst.
  assert (Hin : In t (t :: l)) by now left.
  rewrite <- Hf in Hin. apply filter_In in Hin. destruct Hin as [_ Hm].
  unfold matches in Hm. cbn [existsb] in Hm. rewrite orb_false_r in Hm.
  unfold matches_simple in Hm. now apply andb_prop in Hm.
Qed.

(** X18.  When the example page is fetched and parsed, the function
    ends without an exception and its third line gives the title.  A
    page without a [title] tag gives [No title found]; a [title] tag
    that does not hold exactly one child (an empty one, for instance)
    gives the text [None], since [tag.string] is [None] then. *)
Theorem title_line_of_the_example_page (w : World) (doc : node) :
  serves w example_url doc ->
  snd (scrape_example_site w) = Ok tt
  /\ nth_error (fst (scrape_example_site w)) 2
     = Some (Printed ("Page title: " ++ page_title doc))
  /\ (find "title" doc = None -> page_title doc = "No title found")
  /\ (forall title,
        find "title" doc = Some title ->
        List.length (children title) <> 1 ->
        page_title doc = "None")
  /\ (forall title name attrs s,
        find "title" doc = Some title ->
        title = Tag name attrs [NavigableString s] ->
        page_title doc = s).
Proof.
  intros Hserves. destruct (example_body_served w doc Hserves) as [lines Hb].
  unfold scrape_example_site, except_RequestException. rewrite Hb.
  split_all; try reflexivity.
  - intros H. unfold page_title. now rewrite H.
  - intros title H Hlen. unfold page_title. rewrite H.
    apply find_is_tag in H.
    destruct title as [s|name attrs [|c [|c' cs]]]; cbn in H, Hlen |- *;
      try reflexivity; congruence.
  - intros title name attrs s H ->. unfold page_title. now rewrite H.
Qed.

(** A page whose title is empty. *)
Lemma title_line_of_the_untitled_page :
  snd (scrape_example_site MockMore.untitled_site) = Ok tt
  /\ nth_error (fst (scrape_example_site MockMore.untitled_site)) 2
     = Some (Printed ("Page title: " ++ "None")).
Proof.
  destruct (title_line_of_the_example_page
              MockMore.untitled_site MockMore.untitled_doc)
    as (Hr & Hline & _).
  - exists {| status_code := 200; reason := "OK"; url := example_url;
              text := "untitled" |}.
    repeat split.
  - split; [exact Hr | exact Hline].
Defined.

End HomepageFacts.

(** * lib/practical_example.py: [main] from the scrape to the files *)

Module MainFacts.
Import Py Bs4 Requests PracticalMain.
Local Open Scope string_scope.

(** *** Functions that only print *)

Lemma prints_bind (A B : Type) (c : Out A) (k : A -> Out B) :
  Forall is_printed (fst c) ->
  (forall a, Forall is_printed (fst (k a))) ->
  Forall is_printed (fst (bind c k)).
Proof.
  intros Hc Hk. destruct c as [lines [a|e]]; cbn [bind fst] in *.
  - specialize (Hk a). destruct (k a) as [lines' r]. cbn [fst] in *.
    apply Forall_app. now split.
  - exact Hc.
Qed.

Lemma prints_print (line : string) : Forall is_printed (fst (print line)).
Proof. repeat constructor. now exists line. Qed.

Lemma prints_for_fold (A S : Type) (f : S -> A -> Out S) (l : list A) :
  (forall acc x, Forall is_printed (fst (f acc x))) ->
  forall acc, Forall is_printed (fst (for_fold l acc f)).
Proof.
  intros Hf. induction l as [|x l IH]; intros acc; cbn [for_fold].
  - constructor.
  - apply prints_bind; auto.
Qed.

Lemma visit_prints (urljoin : string -> string -> result string)
  (unique_links : list string) (link : node) :
  Forall is_printed (fst (LinkDemo.visit urljoin unique_links link)).
Proof.
  unfold LinkDemo.visit. cbv zeta.
  apply prints_bind; [constructor|]. intros full_url.
  destruct (negb (existsb (String.eqb full_url) unique_links));
    [|constructor].
  apply prints_bind; [apply prints_print|]. intros _. constructor.
Qed.

Lemma link_demo_prints (urljoin : string -> string -> result string)
  (w : World) :
  Forall is_printed (fst (LinkDemo.demonstrate_link_extraction urljoin w)).
Proof.
  assert (Hbody : Forall is_printed (fst (LinkDemo.try_body urljoin w))).
  { unfold LinkDemo.try_body.
    apply prints_bind; [constructor|]. intros response.
    apply prints_bind; [constructor|]. intros _.
    apply prints_bind; [constructor|]. intros doc. cbv zeta.
    apply prints_bind; [apply prints_print|]. intros _.
    apply prints_bind; [|intros; apply prints_print].
    apply prints_for_fold. intros acc link. apply visit_prints. }
  unfold LinkDemo.demonstrate_link_extraction.
  apply prints_bind; [apply prints_print|]. intros _.
  destruct (LinkDemo.try_body urljoin w) as [lines [[]|e]];
    cbn [fst] in *; [exact Hbody|].
  destruct e; try exact Hbody.
  apply prints_bind; [exact Hbody|]. intros _. apply prints_print.
Qed.

Lemma printed_leave_files (lines : list effect) (file : string) :
  Forall is_printed lines ->
  Forall (fun e => Save.touches file e = false) lines.
Proof.
  intros H. eapply Forall_impl; [|exact H]. now intros e [line ->].
Qed.

(** *** The effects among the events *)

Lemma effects_of_app (a b : list event) :
  effects_of (a ++ b) = (effects_of a ++ effects_of b)%list.
Proof. apply flat_map_app. Qed.

Lemma effects_of_effects (l : list effect) : effects_of (map Effect l) = l.
Proof. induction l as [|e l IH]; [reflexivity|]. cbn. now f_equal. Qed.

Lemma effects_of_scraping (l : list Practical.event) :
  effects_of (map Scraping l) = [].
Proof. induction l as [|e l IH]; [reflexivity | exact IH]. Qed.

Lemma effects_of_session (l : list Session.event) :
  effects_of (map InSession l) = [].
Proof. induction l as [|e l IH]; [reflexivity | exact IH]. Qed.

(** After the analysis and the sinks, nothing but printing. *)
Lemma after_scraping_effects (urljoin : string -> string -> result string)
  (w : World) (quotes : list dict) :
  snd (Analysis.analyze_scraped_data quotes) = Ok tt ->
  snd (Save.save_data_to_files quotes) = Ok tt ->
  exists rest,
    effects_of (fst (after_scraping urljoin w quotes))
    = (fst (Analysis.analyze_scraped_data quotes)
       ++ fst (Save.save_data_to_files quotes) ++ rest)%list
    /\ Forall is_printed rest.
Proof.
  intros Ha Hs. unfold after_scraping, effects, in_session.
  pose proof (link_demo_prints urljoin w) as Hlinks.
  destruct (Analysis.analyze_scraped_data quotes) as [fx1 r1].
  destruct (Save.save_data_to_files quotes) as [fx2 r2].
  cbn [fst snd] in *. subst r1 r2. cbn [and_then].
  destruct (Session.scrape_with_session w) as [ev3 [[]|e3]];
    cbn [fst snd and_then].
  - destruct (LinkDemo.demonstrate_link_extraction urljoin w)
      as [fx4 [[]|e4]]; cbn [fst snd and_then] in *.
    + exists (fx4 ++ map Printed closing_lines)%list. split.
      * rewrite !effects_of_app, !effects_of_effects, effects_of_session.
        reflexivity.
      * apply Forall_app. split; [exact Hlinks|].
        apply Forall_forall. intros e He. apply in_map_iff in He.
        destruct He as (line & <- & _). now exists line.
    + exists fx4. split; [|exact Hlinks].
      rewrite !effects_of_app, !effects_of_effects, effects_of_session.
      reflexivity.
  - exists []. split; [|constructor].
    rewrite !effects_of_app, !effects_of_effects, effects_of_session.
    reflexivity.
Qed.

Lemma file_content_after_printing (file : string)
  (before l : list effect) :
  Forall is_printed before ->
  file_content file (before ++ l) = file_content file l.
Proof.
  intros H. rewrite !SaveFacts.file_content_fold, fold_left_app.
  now rewrite (SaveFacts.fold_untouched _ _ (printed_leave_files _ file H)).
Qed.

Lemma opening_printed : Forall is_printed (map Printed opening_lines).
Proof. repeat constructor; eexists; reflexivity. Qed.

Lemma main_returns (urljoin : string -> string -> result string) (w : World)
  (fuel : nat) (quotes : list dict) (events : list event) (r : result unit) :
  Practical.scrape_quotes_to_scrape w fuel = Some quotes ->
  main urljoin w fuel = Some (events, r) ->
  exists scraped,
    effects_of events
    = (map Printed opening_lines
       ++ effects_of (fst (after_scraping urljoin w quotes)))%list
    /\ Practical.scrape_quotes_to_scrape_run w fuel
       = Practical.Returns (fst scraped) (snd scraped)
    /\ Practical.all_quotes (snd scraped) = quotes.
Proof.
  unfold Practical.scrape_quotes_to_scrape, main.
  destruct (Practical.scrape_quotes_to_scrape_run w fuel)
    as [r0 st|e st|st]; try discriminate.
  intros Hq Hmain. inversion Hq; subst. exists (r0, st).
  split; [|split; reflexivity].
  cbn [and_then] in Hmain.
  destruct (after_scraping urljoin w (Practical.all_quotes st))
    as [events' r'].
  assert (Hevents : events
                    = ((map Effect (map Printed opening_lines)
                          ++ map Scraping (Practical.trace st))
                         ++ events')%list) by congruence.
  rewrite Hevents. cbn [fst].
  rewrite !effects_of_app, effects_of_effects, effects_of_scraping.
  now rewrite app_nil_r.
Qed.

Lemma main_some (urljoin : string -> string -> result string) (w : World)
  (fuel : nat) (r0 : Practical.terminal) (st : Practical.state) :
  Practical.scrape_quotes_to_scrape_run w fuel = Practical.Returns r0 st ->
  exists events r, main urljoin w fuel = Some (events, r).
Proof.
  intros Hrun. unfold main. rewrite Hrun.
  destruct (and_then _ _) as [events r]. eauto.
Qed.

(** X20.  When the scraper returns no quote (the first page cannot be
    fetched, or it holds no quote), [main] writes no file: whatever the
    later demonstrations do, every effect of the run is a printed line,
    among them the two lines that say that there is nothing to analyse
    and nothing to save. *)
Theorem nothing_scraped_nothing_saved
  (urljoin : string -> string -> result string) (w : World) (fuel : nat)
  (events : list event) (r : result unit) :
  Practical.scrape_quotes_to_scrape w fuel = Some [] ->
  main urljoin w fuel = Some (events, r) ->
  Forall is_printed (effects_of events)
  /\ (forall file, file_content file (effects_of events) = None)
  /\ In (Printed "No quotes to analyze!") (effects_of events)
  /\ In (Printed "No quotes to save!") (effects_of events).
Proof.
  intros Hscrape Hmain.
  destruct (main_returns urljoin w fuel [] events r Hscrape Hmain)
    as (scraped & Hfx & _).
  destruct (after_scraping_effects urljoin w [] eq_refl eq_refl)
    as (rest & Hafter & Hrest).
  rewrite Hafter in Hfx. cbn [Analysis.analyze_scraped_data
    Save.save_data_to_files bind print fst app] in Hfx.
  assert (Hall : Forall is_printed (effects_of events)).
  { rewrite Hfx. apply Forall_app. split; [apply opening_printed|].
    repeat (constructor; [eexists; reflexivity|]). exact Hrest. }
  split_all.
  - exact Hall.
  - intros file. rewrite <- (app_nil_r (effects_of events)).
    now rewrite (file_content_after_printing file _ [] Hall).
  - rewrite Hfx. apply in_or_app. right. right. now left.
  - rewrite Hfx. apply in_or_app. right. do 3 right. now left.
Qed.

(** The site is down: the first page cannot be fetched. *)
Lemma nothing_saved_when_the_site_is_down :
  exists events r,
    main MockMore.join_address Mock.down 1 = Some (events, r)
    /\ Forall is_printed (effects_of events)
    /\ (forall file, file_content file (effects_of events) = None).
Proof.
  assert (Hrun : Practical.scrape_quotes_to_scrape_run Mock.down 1
                 = Practical.Returns
                     (Practical.FetchFailed Timeout "timed out")
                     (Practical.final_state Mock.down 1)) by reflexivity.
  destruct (main_some MockMore.join_address Mock.down 1 _ _ Hrun)
    as (events & r & Hmain).
  exists events, r. split; [exact Hmain|].
  destruct (nothing_scraped_nothing_saved
              MockMore.join_address Mock.down 1 events r eq_refl Hmain)
    as (Hall & Hfiles & _).
  split; assumption.
Defined.

(** *** What is saved *)

Lemma scraped_are_records (w : World) (fuel : nat)
  (r : Practical.terminal) (st : Practical.state) :
  Practical.scrape_quotes_to_scrape_run w fuel = Practical.Returns r st ->
  Forall Save.is_record (Practical.all_quotes st).
Proof.
  intros Hrun. apply PracticalFacts.run_returns_iff in Hrun.
  destruct Hrun as (n & _ & _ & _ & ->).
  cbn [Practical.final_state Practical.completed Practical.all_quotes].
  apply Forall_forall. intros quote Hin. apply in_flat_map in Hin.
  destruct Hin as (p & _ & Hin). unfold Practical.records_of in Hin.
  apply in_map_iff in Hin. destruct Hin as (q & <- & _).
  do 4 eexists. reflexivity.
Qed.

(** X21.  When the scraper returns at least one quote, [main] leaves the
    three files as the scrape was: [quotes.json] reads back as the list
    the scraper returned, [quotes.csv] as one row per quote with the tags
    joined, and [quotes_summary.txt] holds the summary of that list,
    whether or not the demonstrations that follow end with an
    exception. *)
Theorem what_main_saves_is_what_was_scraped
  (urljoin : string -> string -> result string) (w : World) (fuel : nat)
  (quotes : list dict) (events : list event) (r : result unit) :
  Practical.scrape_quotes_to_scrape w fuel = Some quotes ->
  quotes <> [] ->
  main urljoin w fuel = Some (events, r) ->
  exists json_text csv_text,
    file_content Save.json_filename (effects_of events) = Some json_text
    /\ Save.load_json json_text = Some quotes
    /\ file_content Save.csv_filename (effects_of events) = Some csv_text
    /\ Csv.dict_reader csv_text = Ok (Some (map Save.csv_dict quotes))
    /\ file_content Save.txt_filename (effects_of events)
       = Some (SaveNotions.summary_text quotes).
Proof.
  intros Hscrape Hne Hmain.
  destruct (main_returns urljoin w fuel quotes events r Hscrape Hmain)
    as ([r0 st] & Hfx & Hrun & Hquotes).
  cbn [fst snd] in Hrun, Hquotes.
  assert (Hq : Forall Save.is_record quotes).
  { rewrite <- Hquotes. exact (scraped_are_records w fuel r0 st Hrun). }
  destruct (AnalysisMore.analysis_of_records_prints quotes Hne Hq)
    as [lines Hanalysis].
  pose proof (SaveMore.save_stages quotes Hne Hq) as Hsave.
  pose proof (SaveMore.summary_effects quotes Hq) as Hsummary.
  destruct (SaveFacts.summary_of_records quotes Hq) as [_ Haside].
  destruct (after_scraping_effects urljoin w quotes) as (rest & Hafter & Hrest).
  { now rewrite Hanalysis. }
  { rewrite Hsave, Hsummary. reflexivity. }
  rewrite Hafter, Hanalysis, Hsave in Hfx. cbn [fst] in Hfx.
  assert (Hbefore : Forall is_printed
                      (map Printed opening_lines ++ map Printed lines)).
  { apply Forall_app. split; [apply opening_printed|].
    apply Forall_forall. intros e He. apply in_map_iff in He.
    destruct He as (line & <- & _). now exists line. }
  assert (Hrest' : Forall Save.aside rest).
  { eapply Forall_impl; [|exact Hrest]. intros e [line ->].
    split; reflexivity. }
  exists (Json.dumps (Json.of_records quotes)),
    (Csv.write_rows (Save.fieldnames :: map Save.csv_cells quotes)).
  split_all.
  - rewrite Hfx, app_assoc, file_content_after_printing by exact Hbefore.
    rewrite <- app_assoc.
    apply SaveFacts.file_content_json. apply Forall_app. now split.
  - exact (SaveFacts.load_json_of_records quotes Hq).
  - rewrite Hfx, app_assoc, file_content_after_printing by exact Hbefore.
    rewrite <- app_assoc.
    apply SaveFacts.file_content_csv. apply Forall_app. now split.
  - apply SaveFacts.dict_reader_of_records.
  - rewrite Hfx, app_assoc.
    apply (SaveMore.file_content_txt quotes _ rest Hq).
    + now apply printed_leave_files.
    + now apply printed_leave_files.
Qed.

(** Two pages of quotes; the demonstrations that follow find nothing at
    their addresses. *)
Lemma files_of_two_pages :
  exists events r json_text,
    main MockMore.join_address Mock.two_pages 2 = Some (events, r)
    /\ file_content Save.json_filename (effects_of events) = Some json_text
    /\ Save.load_json json_text
       = Some (Practical.all_quotes (Practical.final_state Mock.two_pages 2)).
Proof.
  assert (Hrun : Practical.scrape_quotes_to_scrape_run Mock.two_pages 2
                 = Practical.Returns Practical.NoNextPage
                     (Practical.final_state Mock.two_pages 2))
    by reflexivity.
  assert (Hscrape : Practical.scrape_quotes_to_scrape Mock.two_pages 2
                    = Some (Practical.all_quotes
                              (Practical.final_state Mock.two_pages 2))).
  { unfold Practical.scrape_quotes_to_scrape. now rewrite Hrun. }
  destruct (main_some MockMore.join_address Mock.two_pages 2 _ _ Hrun)
    as (events & r & Hmain).
  assert (Hne : Practical.all_quotes (Practical.final_state Mock.two_pages 2)
                <> []) by discriminate.
  destruct (what_main_saves_is_what_was_scraped
              MockMore.join_address Mock.two_pages 2 _ events r
              Hscrape Hne Hmain)
    as (json_text & csv_text & Hjson & Hload & _).
  exists events, r, json_text. split; [exact Hmain|].
  split; [exact Hjson | exact Hload].
Defined.

End MainFacts.

(** * [demonstrate_iterating_elements]: what [find] finds *)

Module IteratingFacts.
Import Py Bs4 Requests Iterating.
Local Open Scope string_scope.

Lemma descendants_below (n : node) :
  forall c d, In c (descendants n) -> In d (descendants c) ->
              In d (descendants n).
Proof.
  induction n as [s|name attrs cs IH] using Bs4Facts.node_induction;
    intros c d Hc Hd; [destruct Hc|].
  rewrite Bs4Facts.descendants_tag in *. apply in_flat_map in Hc.
  destruct Hc as (child & Hchild & Hc). apply in_flat_map.
  exists child. split; [exact Hchild|].
  destruct Hc as [->|Hc]; [now right|].
  right. rewrite Forall_forall in IH. exact (IH child Hchild c d Hc Hd).
Qed.

Lemma no_tag_named_below (name : string) (doc c : node) :
  no_tag_named name doc -> In c (descendants doc) -> no_tag_named name c.
Proof.
  unfold no_tag_named. rewrite !Forall_forall. intros Hdoc Hc d Hd.
  apply Hdoc. exact (descendants_below doc c d Hc Hd).
Qed.

Lemma find_no_tag_named (name : string) (n : node) :
  no_tag_named name n -> find name n = None.
Proof.
  unfold no_tag_named, find, find_all. intros H.
  induction H as [|d l Hd _ IH]; [reflexivity|].
  cbn [filter]. unfold matches at 1. cbn [existsb].
  unfold matches_simple. rewrite Hd, andb_false_r. exact IH.
Qed.

(** X22.  [course.find('.duration')] and [course.find('.price')] look
    for tags that have these names, not for tags of these classes.  In
    a document that has no tag so named (the parser gives none: the name
    of a tag starts with a letter), the details of every course carry
    the two placeholders, whatever the course holds. *)
Theorem duration_and_price_are_never_found (doc : node) :
  no_tag_named ".duration" doc ->
  no_tag_named ".price" doc ->
  forall course,
    In course (select sel_course doc) ->
    duration (info_of course) = "Duration not specified"
    /\ price (info_of course) = "Price not listed".
Proof.
  intros Hd Hp course Hin. unfold select in Hin. apply filter_In in Hin.
  destruct Hin as [Hin _]. unfold info_of. cbn [duration price].
  rewrite (find_no_tag_named _ _ (no_tag_named_below _ _ _ Hd Hin)).
  rewrite (find_no_tag_named _ _ (no_tag_named_below _ _ _ Hp Hin)).
  split; reflexivity.
Qed.

(** A course with a paragraph of class [duration] that reads 4 weeks. *)
Lemma duration_of_a_mock_course :
  option_map get_text_strip
    (select_one [ByClass "duration"]
       (MockMore.course "beginner" "Python Basics" "4 weeks" "$299"))
  = Some "4 weeks"
  /\ duration
       (info_of (MockMore.course "beginner" "Python Basics" "4 weeks" "$299"))
     = "Duration not specified"
  /\ price
       (info_of (MockMore.course "beginner" "Python Basics" "4 weeks" "$299"))
     = "Price not listed".
Proof.
  split; [reflexivity|].
  apply (duration_and_price_are_never_found MockMore.catalog).
  - repeat constructor.
  - repeat constructor.
  - left. reflexivity.
Defined.

(** *** A course without a heading *)

Section Text.

Variable books_mark : string.
Variable title_case : string -> string.


End Text.



End IteratingFacts.

(** * [scrape_with_error_handling]: the line of an answer *)

Module AdvancedMore.
Import Py Bs4 Requests Advanced.
Local Open Scope string_scope.

(** X12.  When the request is answered, the line printed for the URL
    depends on the status and on the parser.  An error status (400 to
    599) gives the line of the HTTP error with the message of
    [raise_for_status], and the body is not parsed.  A markup that the
    parser rejects gives the line of the unexpected error: here the last
    [except] clause catches it.  Otherwise the line of the success gives
    the text of the first [title] tag ([No title] without one) and the
    number of [p] tags. *)
Theorem line_of_an_answered_request
  (check_mark cross_mark : string) (w : World) (url : string)
  (response : Response) :
  requests_get w url headers (Some 10) = Answer response ->
  (forall msg,
      http_error_msg response = Some msg ->
      try_url check_mark cross_mark w url
      = [nl ++ "Trying to scrape: " ++ url;
         "  " ++ cross_mark ++ " HTTP Error - " ++ msg])
  /\ (forall msg,
        http_error_msg response = None ->
        html_parser w (text response) = Rejected msg ->
        try_url check_mark cross_mark w url
        = [nl ++ "Trying to scrape: " ++ url;
           "  " ++ cross_mark ++ " Unexpected Error - " ++ msg])
  /\ (forall doc,
        http_error_msg response = None ->
        html_parser w (text response) = Tree doc ->
        try_url check_mark cross_mark w url
        = [nl ++ "Trying to scrape: " ++ url;
           "  " ++ check_mark ++ " Success! Title: '"
             ++ match find "title" doc with
                | Some title => get_text_strip title
                | None => "No title"
                end
             ++ "', Paragraphs: " ++ str (List.length (find_all "p" doc))]).
Proof.
  intros Hget. unfold try_url, try_body, raise_for_status.
  rewrite Hget. cbn [fetched_result bind]. split_all.
  - intros msg Hstatus. rewrite Hstatus. reflexivity.
  - intros msg Hstatus Hparse. rewrite Hstatus. cbn [bind].
    rewrite Hparse. reflexivity.
  - intros doc Hstatus Hparse. rewrite Hstatus. cbn [bind].
    rewrite Hparse. reflexivity.
Qed.

(** The three answers on mock sites: a page that is not found, a markup
    that is rejected, and a page with a title and a paragraph. *)
Lemma lines_of_three_answers :
  try_url "+" "x" Mock.httpbin "https://httpbin.org/status/404"
  = [nl ++ "Trying to scrape: " ++ "https://httpbin.org/status/404";
     "  " ++ "x" ++ " HTTP Error - "
       ++ "404 Client Error: Not Found for url: "
       ++ "https://httpbin.org/status/404"]
  /\ try_url "+" "x" MockMore.httpbin_broken "https://httpbin.org/html"
     = [nl ++ "Trying to scrape: " ++ "https://httpbin.org/html";
        "  " ++ "x" ++ " Unexpected Error - " ++ "markup rejected"]
  /\ try_url "+" "x" Mock.httpbin "https://httpbin.org/html"
     = [nl ++ "Trying to scrape: " ++ "https://httpbin.org/html";
        "  " ++ "+" ++ " Success! Title: '" ++ "Moby"
          ++ "', Paragraphs: " ++ "1"].
Proof.
  split; [|split].
  - exact (proj1 (line_of_an_answered_request
                    "+" "x" Mock.httpbin "https://httpbin.org/status/404"
                    (Mock.not_found "https://httpbin.org/status/404")
                    eq_refl) _ eq_refl).
  - exact (proj1 (proj2 (line_of_an_answered_request
                    "+" "x" MockMore.httpbin_broken
                    "https://httpbin.org/html"
                    {| status_code := 200; reason := "OK";
                       url := "https://httpbin.org/html";
                       text := "broken" |}
                    eq_refl)) _ eq_refl eq_refl).
  - exact (proj2 (proj2 (line_of_an_answered_request
                    "+" "x" Mock.httpbin "https://httpbin.org/html"
                    {| status_code := 200; reason := "OK";
                       url := "https://httpbin.org/html";
                       text := "moby" |}
                    eq_refl)) Mock.httpbin_doc eq_refl eq_refl).
Defined.

End AdvancedMore.

(** * The fields of a record carry no white space at their ends *)

Module Trimmed.
Import Py Bs4 Requests Practical PracticalNotions StringFacts.
Local Open Scope string_scope.

Lemma lstrip_clean (s : string) : lstrip (lstrip s) = lstrip s.
Proof.
  induction s as [|c s IH]; [reflexivity|].
  cbn [lstrip]. destruct (isspace c) eqn:Hc; [exact IH|].
  cbn [lstrip]. now rewrite Hc.
Qed.

Lemma rstrip_clean (s : string) : rstrip (rstrip s) = rstrip s.
Proof.
  induction s as [|c s IH]; [reflexivity|].
  cbn [rstrip]. destruct (rstrip s) as [|d r] eqn:Hr.
  - destruct (isspace c) eqn:Hc; [reflexivity|].
    cbn [rstrip]. now rewrite Hc.
  - cbn [rstrip]. cbn [rstrip] in IH. rewrite IH. reflexivity.
Qed.

(** Stripping on the right keeps a first character that is no white
    space. *)
Lemma rstrip_head (c : ascii) (s : string) :
  isspace c = false -> exists r, rstrip (String c s) = String c r.
Proof.
  intros Hc. cbn [rstrip]. destruct (rstrip s) as [|d r].
  - rewrite Hc. now exists EmptyString.
  - now exists (String d r).
Qed.

Lemma lstrip_rstrip_lstrip (s : string) :
  lstrip (rstrip (lstrip s)) = rstrip (lstrip s).
Proof.
  assert (H : lstrip s = EmptyString
              \/ exists c r, lstrip s = String c r /\ isspace c = false).
  { induction s as [|c s IH]; [now left|].
    cbn [lstrip]. destruct (isspace c) eqn:Hc; [exact IH|].
    right. now exists c, s. }
  destruct H as [->|(c & r & -> & Hc)]; [reflexivity|].
  destruct (rstrip_head c r Hc) as [r' ->]. cbn [lstrip]. now rewrite Hc.
Qed.

Lemma strip_trimmed (s : string) : trimmed (strip s).
Proof.
  unfold trimmed, strip. now rewrite lstrip_rstrip_lstrip, rstrip_clean.
Qed.

Lemma trimmed_parts (s : string) :
  trimmed s -> lstrip s = s /\ rstrip s = s.
Proof.
  unfold trimmed, strip. intros H. split.
  - rewrite <- H at 1. rewrite lstrip_rstrip_lstrip. exact H.
  - rewrite <- H at 1. rewrite rstrip_clean. exact H.
Qed.

Lemma rstrip_app (a b : string) :
  rstrip b <> EmptyString -> rstrip (a ++ b) = a ++ rstrip b.
Proof.
  intros Hb. induction a as [|c a IH]; [reflexivity|].
  cbn [append rstrip]. rewrite IH.
  destruct (a ++ rstrip b) as [|d r] eqn:Hab; [|reflexivity].
  destruct a; [|discriminate]. cbn [append] in Hab. contradiction.
Qed.

Lemma trimmed_app (a b : string) :
  trimmed a -> trimmed b -> a <> EmptyString -> b <> EmptyString ->
  trimmed (a ++ b).
Proof.
  intros Ha Hb Hna Hnb.
  destruct (trimmed_parts a Ha) as [Hla _].
  destruct (trimmed_parts b Hb) as [_ Hrb].
  unfold trimmed, strip.
  assert (Hl : lstrip (a ++ b) = a ++ b).
  { destruct a as [|c a]; [contradiction|].
    cbn [lstrip append] in *. destruct (isspace c) eqn:Hc; [|reflexivity].
    exfalso. assert (Hlen := f_equal String.length Hla).
    cbn [String.length] in Hlen.
    assert (Hle : forall s, String.length (lstrip s) <= String.length s).
    { induction s as [|x s IHs]; cbn [lstrip String.length]; [lia|].
      destruct (isspace x); cbn [String.length]; lia. }
    specialize (Hle a). lia. }
  rewrite Hl, rstrip_app, Hrb; [reflexivity|]. now rewrite Hrb.
Qed.

Lemma join_nonempty (pieces : list string) :
  Forall (fun piece => piece <> EmptyString) pieces ->
  pieces <> [] -> join EmptyString pieces <> EmptyString.
Proof.
  intros Hp Hne. destruct Hp as [|piece pieces Hpiece Hrest];
    [contradiction|].
  destruct pieces as [|piece' pieces]; cbn [join]; [exact Hpiece|].
  destruct piece; [contradiction | discriminate].
Qed.

Lemma join_trimmed (pieces : list string) :
  Forall (fun piece => trimmed piece /\ piece <> EmptyString) pieces ->
  trimmed (join EmptyString pieces).
Proof.
  induction 1 as [|piece pieces [Ht Hne] Hrest IH]; [reflexivity|].
  destruct pieces as [|piece' pieces]; [exact Ht|].
  change (join EmptyString (piece :: piece' :: pieces))
    with (piece ++ join EmptyString (piece' :: pieces)).
  apply trimmed_app; [exact Ht | exact IH | exact Hne |].
  apply join_nonempty; [|discriminate].
  eapply Forall_impl; [|exact Hrest]. now intros p [_ Hp].
Qed.

Lemma get_text_strip_trimmed (n : node) : trimmed (get_text_strip n).
Proof.
  unfold get_text_strip, stripped_strings. apply join_trimmed.
  apply Forall_forall. intros piece Hin. apply in_flat_map in Hin.
  destruct Hin as (d & _ & Hin). destruct d as [s|name attrs cs];
    [|destruct Hin].
  destruct (truthy (strip s)) eqn:Hs; [|destruct Hin].
  destruct Hin as [<-|[]]. split; [apply strip_trimmed|].
  intros H. rewrite H in Hs. discriminate.
Qed.

(** X24.  The text, the author and the tags of every record are free of
    white space at their ends, whatever the markup of the quote holds:
    [get_text(strip=True)] gives such text and so are the two
    placeholders. *)
Theorem scraped_fields_are_trimmed (quote : node) (page : nat) :
  dict_get "text" (quote_data quote page) = Some (PStr (quote_text quote))
  /\ dict_get "author" (quote_data quote page)
     = Some (PStr (quote_author quote))
  /\ dict_get "tags" (quote_data quote page)
     = Some (PList (quote_tags quote))
  /\ trimmed (quote_text quote)
  /\ trimmed (quote_author quote)
  /\ Forall trimmed (quote_tags quote).
Proof.
  split_all; try reflexivity.
  - unfold quote_text. destruct (select_one sel_text quote);
      [apply get_text_strip_trimmed | reflexivity].
  - unfold quote_author. destruct (select_one sel_author quote);
      [apply get_text_strip_trimmed | reflexivity].
  - unfold quote_tags. apply Forall_forall. intros tag Hin.
    apply in_map_iff in Hin. destruct Hin as (element & <- & _).
    apply get_text_strip_trimmed.
Qed.

End Trimmed.
